(** * A shallow embedding of the paper-trading engine

    The embedded sources are
    - [src/utils/risk_manager.py]      (module [RiskManager]),
    - [src/utils/spread.py]            (module [SpreadCalculator]),
    - [src/utils/slippage.py]          (module [SlippageSimulator]),
    - [src/utils/trading_restrictions.py] (module [TradingRestrictions]),
    - [src/storage/virtual_portfolio.py]  (module [VirtualPortfolio]),
    - [src/analysis/performance_metrics.py] (module [PerformanceMetrics]),
    - [src/utils/order_execution.py]   (module [OrderExecutionSimulator]),
    - [src/utils/converters.py]        (module [Converters]).

    Numbers.  In these modules Python's [Decimal] and [float] values are
    both read as exact rationals ([Q], compared with [==]), and their
    operations as exact.  Two places go further.  Module [Decimal] is the
    rounding of the [decimal] context (28 significant digits, ties to
    even), and module [InContext] holds the functions that compute on
    [Decimal] values with every operation rounded so; what depends on the
    last digits is stated there.  The Sharpe ratio of [PerformanceMetrics]
    computes on binary64 floats, with the three numpy functions as
    parameters.  Python's [int] is [Z].  A value that may be [None] is an
    [option].

    Effects.  Every method that assigns to [self] is a function from the old
    state to the new state (and a result).  What Python reads from the
    outside world (the wall clock, the random generator, the snapshot file)
    is an explicit argument. *)

From Stdlib Require Import ZArith QArith Qabs Qround Qpower Lia Lqa Sorted.
From Stdlib Require PrimFloat SpecFloat FloatOps.
From stdpp Require Import base option list gmap strings.

Local Open Scope Q_scope.

(** ** Python arithmetic and truth on the modelled numbers *)

Module Py.

(** [a < b], [a > b], [a <= b], [a >= b], [a == b] as Python evaluates them. *)
Definition ltb (a b : Q) : bool := negb (Qle_bool b a).
Definition gtb (a b : Q) : bool := ltb b a.
Definition leb (a b : Q) : bool := Qle_bool a b.
Definition geb (a b : Q) : bool := Qle_bool b a.
Definition eqb (a b : Q) : bool := Qeq_bool a b.

(** [min(a, b)] and [max(a, b)]: the first argument wins a tie. *)
Definition min (a b : Q) : Q := if ltb b a then b else a.
Definition max (a b : Q) : Q := if gtb b a then b else a.

(** Truth value of a number ([if x:]), of an optional number. *)
Definition truthy (x : Q) : bool := negb (eqb x 0).
Definition truthy_opt (x : option Q) : bool :=
  match x with Some q => truthy q | None => false end.

(** [sum(l)] over a list of numbers. *)
Definition sum (l : list Q) : Q := foldr Qplus 0 l.

(** [not l] for a list: true exactly on the empty list. *)
Definition is_empty {A} (l : list A) : bool :=
  match l with [] => true | _ :: _ => false end.

(** [int(x)] of a number: the integer part, rounded toward zero. *)
Definition int (x : Q) : Z := Z.quot (Qnum x) (Zpos (Qden x)).

End Py.

(** ** Calendar values read from [datetime.now()] *)

Record date := Date { year : Z; month : Z; day : Z }.

Definition date_eqb (a b : date) : bool :=
  (year a =? year b)%Z && (month a =? month b)%Z && (day a =? day b)%Z.

(** [datetime]: the date, [weekday()] (Monday is 0) and the time of day. *)
Record datetime := DateTime {
  dt_date : date;
  dt_weekday : Z;
  dt_hour : Z;
  dt_minute : Z;
  dt_second : Z;
  dt_microsecond : Z
}.

(** ** src/utils/risk_manager.py *)

Module RiskManager.

(** The limits fixed by [__init__]; each is the percentage divided by 100. *)
Record config := Config {
  max_drawdown : Q;
  risk_per_trade : Q;
  max_positions : Z;
  daily_loss_limit : Q;
  max_position_size : Q
}.

Definition make_config
    (max_drawdown_percent risk_per_trade_percent : Q)
    (max_open_positions : Z)
    (daily_loss_limit_percent max_position_size_percent : Q) : config :=
  {| max_drawdown := max_drawdown_percent / 100;
     risk_per_trade := risk_per_trade_percent / 100;
     max_positions := max_open_positions;
     daily_loss_limit := daily_loss_limit_percent / 100;
     max_position_size := max_position_size_percent / 100 |}.

(** The keyword defaults of [__init__]. *)
Definition default_config : config := make_config 20 2 5 5 25.

(** The text of a veto; the f-string is kept as its kind and its numbers. *)
Inductive reason :=
| DrawdownExceeded (drawdown limit : Q)
| DailyLossExceeded (daily_pnl limit : Q)
| PositionLimitReached (current_positions maximum : Z)
| PositionTooLarge (position_value max_allowed : Q).

(** The attributes that [__init__] sets under "Отслеживание состояния". *)
Record state := State {
  peak_balance : Q;
  daily_start_balance : Q;
  daily_reset_date : option date;
  trading_paused : bool;
  pause_reason : option reason
}.

Definition init : state :=
  {| peak_balance := 0;
     daily_start_balance := 0;
     daily_reset_date := None;
     trading_paused := false;
     pause_reason := None |}.

Definition update_peak_balance (s : state) (current_balance : Q) : state :=
  if Py.gtb current_balance (peak_balance s)
  then {| peak_balance := current_balance;
          daily_start_balance := daily_start_balance s;
          daily_reset_date := daily_reset_date s;
          trading_paused := trading_paused s;
          pause_reason := pause_reason s |}
  else s.

Definition calculate_drawdown (s : state) (current_balance : Q) : Q :=
  if Py.eqb (peak_balance s) 0 then 0
  else (peak_balance s - current_balance) / peak_balance s.

Definition check_max_drawdown (c : config) (s : state) (current_balance : Q)
  : bool * option reason :=
  let drawdown := calculate_drawdown s current_balance in
  if Py.geb drawdown (max_drawdown c)
  then (false, Some (DrawdownExceeded drawdown (max_drawdown c)))
  else (true, None).

Definition reset_daily_tracking (today : date) (s : state) (current_balance : Q)
  : state :=
  let differs := match daily_reset_date s with
                 | Some d => negb (date_eqb d today)
                 | None => true
                 end in
  if differs
  then {| peak_balance := peak_balance s;
          daily_start_balance := current_balance;
          daily_reset_date := Some today;
          trading_paused := trading_paused s;
          pause_reason := pause_reason s |}
  else s.

Definition calculate_daily_pnl (s : state) (current_balance : Q) : Q :=
  if Py.eqb (daily_start_balance s) 0 then 0
  else (current_balance - daily_start_balance s) / daily_start_balance s.

Definition check_daily_loss_limit
    (c : config) (today : date) (s : state) (current_balance : Q)
  : (bool * option reason) * state :=
  let s1 := reset_daily_tracking today s current_balance in
  let daily_pnl := calculate_daily_pnl s1 current_balance in
  if Py.leb daily_pnl (- daily_loss_limit c)
  then ((false, Some (DailyLossExceeded daily_pnl (daily_loss_limit c))), s1)
  else ((true, None), s1).

Definition check_position_count (c : config) (current_positions : Z)
  : bool * option reason :=
  if (current_positions >=? max_positions c)%Z
  then (false, Some (PositionLimitReached current_positions (max_positions c)))
  else (true, None).

(** [None] where Python raises: the division by an [entry_price] of zero. *)
Definition calculate_position_size
    (c : config) (balance entry_price : Q) (stop_loss : option Q)
    (max_lots : option Z) : option Z :=
  let no_stop := match stop_loss with
                 | None => true
                 | Some sl => Py.eqb sl 0
                 end in
  lots ←
    (if no_stop then
       let max_position_value := balance * max_position_size c in
       if Py.eqb entry_price 0 then None
       else Some (Py.int (max_position_value / entry_price))
     else
       let risk_amount := balance * risk_per_trade c in
       let price_risk := Qabs (entry_price - default 0 stop_loss) in
       if Py.gtb price_risk 0 then Some (Py.int (risk_amount / price_risk))
       else Some 1%Z);
  let lots := match max_lots with
              | Some m => Z.min lots m
              | None => lots
              end in
  Some (Z.max 1 lots).

Definition validate_position_size (c : config) (balance position_value : Q)
  : bool * option reason :=
  let max_allowed := balance * max_position_size c in
  if Py.gtb position_value max_allowed
  then (false, Some (PositionTooLarge position_value max_allowed))
  else (true, None).

Definition pause (s : state) (r : option reason) : state :=
  {| peak_balance := peak_balance s;
     daily_start_balance := daily_start_balance s;
     daily_reset_date := daily_reset_date s;
     trading_paused := true;
     pause_reason := r |}.

Definition can_open_position
    (c : config) (today : date) (s : state)
    (current_balance : Q) (current_positions : Z) (position_value : Q)
  : (bool * option reason) * state :=
  let '(can_trade, reason) := check_max_drawdown c s current_balance in
  if negb can_trade then ((false, reason), pause s reason)
  else
    let '((can_trade, reason), s1) :=
      check_daily_loss_limit c today s current_balance in
    if negb can_trade then ((false, reason), pause s1 reason)
    else
      let '(can_open, reason) := check_position_count c current_positions in
      if negb can_open then ((false, reason), s1)
      else
        let '(valid_size, reason) :=
          validate_position_size c current_balance position_value in
        if negb valid_size then ((false, reason), s1)
        else ((true, None), s1).

Definition resume_trading (s : state) : state :=
  {| peak_balance := peak_balance s;
     daily_start_balance := daily_start_balance s;
     daily_reset_date := daily_reset_date s;
     trading_paused := false;
     pause_reason := None |}.

(** The state part of [get_risk_status]; the returned dictionary is a
    report of these values and is left out. *)
Definition get_risk_status
    (today : date) (s : state) (current_balance : Q) : state :=
  reset_daily_tracking today (update_peak_balance s current_balance)
                       current_balance.

(** The calls a client can make on a risk manager. *)
Inductive call :=
| CallUpdatePeak (current_balance : Q)
| CallResetDaily (today : date) (current_balance : Q)
| CallCheckDailyLoss (today : date) (current_balance : Q)
| CallCanOpen (today : date) (current_balance : Q)
              (current_positions : Z) (position_value : Q)
| CallResume
| CallRiskStatus (today : date) (current_balance : Q).

Definition step (c : config) (s : state) (k : call) : state :=
  match k with
  | CallUpdatePeak b => update_peak_balance s b
  | CallResetDaily t b => reset_daily_tracking t s b
  | CallCheckDailyLoss t b => snd (check_daily_loss_limit c t s b)
  | CallCanOpen t b n v => snd (can_open_position c t s b n v)
  | CallResume => resume_trading s
  | CallRiskStatus t b => get_risk_status t s b
  end.

Definition run (c : config) (s : state) (ks : list call) : state :=
  foldl (step c) s ks.

End RiskManager.

(** The side of a fill: Python passes the strings ['buy'] and ['sell']. *)
Inductive direction := Buy | Sell.

(** ** src/utils/spread.py *)

Module SpreadCalculator.

(** [__init__] stores each percentage divided by 100. *)
Record config := Config {
  base_spread : Q;
  volatility_multiplier : Q;
  min_spread : Q;
  max_spread : Q
}.

Definition make_config
    (base_spread_percent volatility_multiplier_ : Q)
    (min_spread_percent max_spread_percent : Q) : config :=
  {| base_spread := base_spread_percent / 100;
     volatility_multiplier := volatility_multiplier_;
     min_spread := min_spread_percent / 100;
     max_spread := max_spread_percent / 100 |}.

(** The keyword defaults of [__init__]. *)
Definition default_config : config := make_config 0.03 1.5 0.01 0.1.

(** [Decimal.quantize(Decimal('1'))] under the default context: the nearest
    integer, a tie going to the even neighbour (ROUND_HALF_EVEN). *)
Definition quantize_1 (x : Q) : Z :=
  let f := Qfloor x in
  let r := x - inject_Z f in
  if Py.ltb r (1 # 2) then f
  else if Py.gtb r (1 # 2) then (f + 1)%Z
  else if Z.even f then f else (f + 1)%Z.

(** Steps 1 to 3 of [calculate_spread]: the relative spread. *)
Definition spread_percent (c : config) (atr avg_atr : option Q) : Q :=
  let spread_percent := base_spread c in
  let spread_percent :=
    match atr, avg_atr with
    | Some atr, Some avg_atr =>
        if Py.gtb avg_atr 0 then
          let volatility_ratio := atr / avg_atr in
          if Py.gtb volatility_ratio 1 then
            let volatility_adjustment :=
              (volatility_ratio - 1) * base_spread c * volatility_multiplier c in
            spread_percent + volatility_adjustment
          else spread_percent
        else spread_percent
    | _, _ => spread_percent
    end in
  Py.max (min_spread c) (Py.min spread_percent (max_spread c)).

Definition calculate_spread
    (c : config) (mid_price : Q) (atr avg_atr : option Q)
    (min_price_increment : option Q) : Q :=
  let spread_amount := mid_price * spread_percent c atr avg_atr in
  match min_price_increment with
  | Some min_price_increment =>
      if Py.gtb min_price_increment 0 then
        let spread_amount :=
          inject_Z (quantize_1 (spread_amount / min_price_increment))
          * min_price_increment in
        if Py.ltb spread_amount min_price_increment
        then min_price_increment
        else spread_amount
      else spread_amount
  | None => spread_amount
  end.

Definition get_bid_ask_prices
    (c : config) (mid_price : Q) (atr avg_atr : option Q)
    (min_price_increment : option Q) : Q * Q :=
  let spread := calculate_spread c mid_price atr avg_atr min_price_increment in
  let half_spread := spread / 2 in
  (mid_price - half_spread, mid_price + half_spread).

Definition get_execution_price
    (c : config) (mid_price : Q) (d : direction) (atr avg_atr : option Q)
    (min_price_increment : option Q) : Q :=
  let '(bid_price, ask_price) :=
    get_bid_ask_prices c mid_price atr avg_atr min_price_increment in
  match d with
  | Buy => ask_price
  | Sell => bid_price
  end.

End SpreadCalculator.

(** ** src/utils/slippage.py *)

Module SlippageSimulator.

Record config := Config {
  base_slippage : Q;
  volume_factor : Q;
  volatility_multiplier : Q;
  max_slippage : Q
}.

Definition make_config
    (base_slippage_percent volume_factor_per_10_lots : Q)
    (volatility_multiplier_ max_slippage_percent : Q) : config :=
  {| base_slippage := base_slippage_percent / 100;
     volume_factor := volume_factor_per_10_lots / 100;
     volatility_multiplier := volatility_multiplier_;
     max_slippage := max_slippage_percent / 100 |}.

(** The keyword defaults of [__init__]. *)
Definition default_config : config := make_config 0.02 0.01 2 0.5.

(** Steps 1 to 4 of [calculate_slippage]: the relative slippage before the
    random factor. *)
Definition capped_slippage
    (c : config) (lots : Z) (atr avg_atr : option Q) : Q :=
  let abs_lots := Z.abs lots in
  let slippage := base_slippage c in
  let volume_slippage := inject_Z (abs_lots / 10) * volume_factor c in
  let slippage := slippage + volume_slippage in
  let slippage :=
    match atr, avg_atr with
    | Some atr, Some avg_atr =>
        if Py.gtb avg_atr 0 then
          let volatility_ratio := atr / avg_atr in
          if Py.gtb volatility_ratio 1 then
            let volatility_slippage :=
              (volatility_ratio - 1) * base_slippage c * volatility_multiplier c in
            slippage + volatility_slippage
          else slippage
        else slippage
    | _, _ => slippage
    end in
  Py.min slippage (max_slippage c).

(** [random_factor] is the value that [random.uniform(0.8, 1.2)] returns in
    this call. *)
Definition calculate_slippage
    (c : config) (random_factor : Q)
    (expected_price : Q) (lots : Z) (d : direction) (atr avg_atr : option Q)
  : Q :=
  let slippage := capped_slippage c lots atr avg_atr * random_factor in
  match d with
  | Buy => expected_price * (1 + slippage)
  | Sell => expected_price * (1 - slippage)
  end.

End SlippageSimulator.

(** ** src/utils/trading_restrictions.py *)

Module TradingRestrictions.

(** A [datetime.time] as the number of microseconds since midnight: the
    order of [time] values is the order of these numbers. *)
Definition time (h m : Z) : Z := ((h * 60 + m) * 60 * 1000000)%Z.

Definition time_of (dt : datetime) : Z :=
  (((dt_hour dt * 60 + dt_minute dt) * 60 + dt_second dt) * 1000000
   + dt_microsecond dt)%Z.

Definition TRADING_START : Z := time 10 0.
Definition TRADING_END : Z := time 23 50.

Definition CLEARING_WINDOWS : list (Z * Z) :=
  [ (time 14 0, time 14 5); (time 18 45, time 19 0) ].

Definition HOLIDAYS : list (Z * Z) :=
  [ (1, 1); (1, 2); (1, 3); (1, 4); (1, 5); (1, 6); (1, 7); (1, 8);
    (2, 23); (3, 8); (5, 1); (5, 9); (6, 12); (11, 4) ]%Z.

Definition MIN_POSITION_SIZE : Z := 1.

(** Why trading is refused. *)
Inductive refusal :=
| NotStartedYet
| SessionOver
| Clearing (until : Z)
| Weekend
| Holiday
| BelowMinimumSize.

Definition is_trading_hours (dt : datetime) : bool * option refusal :=
  let current_time := time_of dt in
  if (current_time <? TRADING_START)%Z then (false, Some NotStartedYet)
  else if (current_time >? TRADING_END)%Z then (false, Some SessionOver)
  else
    match
      List.find (fun w => (fst w <=? current_time)%Z
                          && (current_time <=? snd w)%Z)
                CLEARING_WINDOWS
    with
    | Some w => (false, Some (Clearing (snd w)))
    | None => (true, None)
    end.

Definition is_trading_day (dt : datetime) : bool * option refusal :=
  if (dt_weekday dt >=? 5)%Z then (false, Some Weekend)
  else if existsb (fun h => (fst h =? month (dt_date dt))%Z
                            && (snd h =? day (dt_date dt))%Z)
                  HOLIDAYS
       then (false, Some Holiday)
       else (true, None).

Definition can_trade (dt : datetime) : bool * option refusal :=
  let '(is_day, day_reason) := is_trading_day dt in
  if negb is_day then (false, day_reason)
  else
    let '(is_hours, hours_reason) := is_trading_hours dt in
    if negb is_hours then (false, hours_reason)
    else (true, None).

Definition validate_position_size (lots : Z) : bool * option refusal :=
  let abs_lots := Z.abs lots in
  if (abs_lots =? 0)%Z then (true, None)
  else if (abs_lots <? MIN_POSITION_SIZE)%Z then (false, Some BelowMinimumSize)
  else (true, None).

End TradingRestrictions.

(** ** The trade log entry

    One dictionary of [data["history"]].  A key that a record does not have,
    and a key whose value is [None], are both [None] here.  A price or an
    amount that Python keeps as [str(Decimal)] is the decimal itself, and a
    timestamp that Python keeps as [strftime] text is the [datetime]. *)

Inductive action := ActionUpdate | ActionClose.

Record trade := Trade {
  t_trade_id : option Z;
  t_ticker : string;
  t_action : action;
  t_lots : Z;
  t_expected_price : Q;
  t_execution_price : Q;
  t_price : Q;
  t_profit : option Q;
  t_commission : Q;
  t_net_profit : option Q;
  t_margin_released : option Q;
  t_margin_reserved : option Q;
  t_stop_loss : option Q;
  t_take_profit : option Q;
  t_opened_at : option datetime;
  t_timestamp : datetime
}.

(** ** src/analysis/performance_metrics.py *)

Module PerformanceMetrics.

(** A Python [float] result that may be [float('inf')]. *)
Inductive pyfloat := Finite (x : Q) | PosInf.

(** A Python [int] as the float that [float / int] and numpy make of it:
    the nearest binary64 value.  [None] outside the range of the 64-bit
    integers, where [np.sqrt] raises. *)
Definition float_of_int (z : Z) : option PrimFloat.float :=
  if (- 2 ^ 63 <=? z)%Z && (z <? 2 ^ 64)%Z
  then Some (FloatOps.SF2Prim
               (SpecFloat.binary_normalize FloatOps.prec FloatOps.emax
                                           z 0 false))
  else None.

Section WithNumpy.
Import PrimFloat.

(** numpy is not part of the repository: [np.mean], [np.std(a, ddof=1)] and
    [np.sqrt] are parameters.  The floats are binary64 values and the
    operations of Python on them are the primitive ones. *)
Variable np_mean : list float -> float.
Variable np_std : list float -> float.
Variable np_sqrt : float -> float.

(** [None] where Python raises: [risk_free_rate / periods_per_year] on a
    zero divisor, and a divisor that is no 64-bit integer. *)
Definition calculate_sharpe_ratio
    (risk_free_rate : float) (returns : list float) (periods_per_year : Z)
  : option float :=
  if Py.is_empty returns || (Z.of_nat (length returns) <? 2)%Z
  then Some 0%float
  else
    let mean_return := np_mean returns in
    let std_return := np_std returns in
    if PrimFloat.eqb std_return 0 then Some 0%float
    else
      match float_of_int periods_per_year with
      | Some periods =>
          if (periods_per_year =? 0)%Z then None
          else
            let sharpe :=
              ((mean_return - risk_free_rate / periods) / std_return)%float in
            Some (sharpe * np_sqrt periods)%float
      | None => None
      end.

End WithNumpy.

(** [float(t.get('net_profit', 0))]. *)
Definition net_profit_of (t : trade) : Q := default 0 (t_net_profit t).

Definition calculate_profit_factor (trades : list trade) : pyfloat :=
  if Py.is_empty trades then Finite 0
  else
    let gross_profit :=
      Py.sum (map net_profit_of
                  (filter (fun t => Py.gtb (net_profit_of t) 0 = true) trades)) in
    let gross_loss :=
      Qabs (Py.sum (map net_profit_of
                        (filter (fun t => Py.ltb (net_profit_of t) 0 = true)
                                trades))) in
    if Py.eqb gross_loss 0
    then (if Py.gtb gross_profit 0 then PosInf else Finite 0)
    else Finite (gross_profit / gross_loss).

(** The local variables of the loop of [calculate_max_drawdown]. *)
Record drawdown_state := DrawdownState {
  dd_peak : Q;
  dd_max_dd : Q;
  dd_max_dd_value : Q;
  dd_peak_value : Q;
  dd_trough_value : Q
}.

(** One round of the loop, for [value]. *)
Definition drawdown_step (st : drawdown_state) (value : Q) : drawdown_state :=
  let peak := if Py.gtb value (dd_peak st) then value else dd_peak st in
  let dd := if Py.gtb peak 0 then (peak - value) / peak else 0 in
  if Py.gtb dd (dd_max_dd st)
  then {| dd_peak := peak;
          dd_max_dd := dd;
          dd_max_dd_value := peak - value;
          dd_peak_value := peak;
          dd_trough_value := value |}
  else {| dd_peak := peak;
          dd_max_dd := dd_max_dd st;
          dd_max_dd_value := dd_max_dd_value st;
          dd_peak_value := dd_peak_value st;
          dd_trough_value := dd_trough_value st |}.

(** The dictionary that [calculate_max_drawdown] returns. *)
Record max_drawdown := MaxDrawdown {
  max_drawdown_percent : Q;
  max_drawdown_value : Q;
  peak_value : Q;
  trough_value : Q
}.

Definition calculate_max_drawdown (balance_history : list Q) : max_drawdown :=
  match balance_history with
  | [] | [_] =>
      {| max_drawdown_percent := 0; max_drawdown_value := 0;
         peak_value := 0; trough_value := 0 |}
  | first :: _ =>
      let st :=
        foldl drawdown_step
              {| dd_peak := first; dd_max_dd := 0; dd_max_dd_value := 0;
                 dd_peak_value := first; dd_trough_value := first |}
              balance_history in
      {| max_drawdown_percent := dd_max_dd st * 100;
         max_drawdown_value := dd_max_dd_value st;
         peak_value := dd_peak_value st;
         trough_value := dd_trough_value st |}
  end.

(** The dictionary that [calculate_win_rate] returns. *)
Record win_rate := WinRate {
  win_rate_percent : Q;
  winning_trades : nat;
  losing_trades : nat;
  total_trades : nat
}.

(** [sum(1 for t in trades if cond(t))]. *)
Definition count_trades (cond : trade -> bool) (trades : list trade) : nat :=
  length (List.filter cond trades).

Definition calculate_win_rate (trades : list trade) : win_rate :=
  if Py.is_empty trades
  then {| win_rate_percent := 0; winning_trades := 0; losing_trades := 0;
          total_trades := 0 |}
  else
    let winning := count_trades (fun t => Py.gtb (net_profit_of t) 0) trades in
    let losing := count_trades (fun t => Py.ltb (net_profit_of t) 0) trades in
    let total := length trades in
    let rate :=
      if (0 <? total)%nat
      then inject_Z (Z.of_nat winning) / inject_Z (Z.of_nat total) * 100
      else 0 in
    {| win_rate_percent := rate; winning_trades := winning;
       losing_trades := losing; total_trades := total |}.

(** [calculate_recovery_factor]. *)
Definition calculate_recovery_factor (net_profit max_drawdown_ : Q) : pyfloat :=
  if Py.eqb max_drawdown_ 0
  then (if Py.gtb net_profit 0 then PosInf else Finite 0)
  else Finite (net_profit / max_drawdown_).

End PerformanceMetrics.

(** ** The snapshot file

    What [json.load] returns.  A JSON string is one of three kinds: the
    text of a decimal number (what [str(Decimal)] writes and [Decimal(...)]
    accepts), the text of a timestamp (what [strftime] writes), or any
    other text, on which [Decimal(...)] raises. *)

#[warnings="-register-all"]
Inductive json :=
| JNull
| JBool (b : bool)
| JInt (z : Z)
| JFloat (x : Q)
| JDecimal (d : Q)
| JTime (t : datetime)
| JString (s : string)
| JArray (items : list json)
| JObject (members : list (string * json)).

(** The content of [storage_path]: no file, a file that [json.load] rejects,
    or a file holding a JSON value. *)
Inductive file :=
| Missing
| Unparsable
| Parsed (raw_data : json).

Module Json.

(** [d.get(key)] on the members of a dictionary, in the order of the file. *)
Fixpoint lookup (key : string) (members : list (string * json)) : option json :=
  match members with
  | [] => None
  | (k, v) :: rest => if String.eqb k key then Some v else lookup key rest
  end.

(** Truth value of a loaded value ([if v.get(...)]). *)
Definition truthy (j : json) : bool :=
  match j with
  | JNull => false
  | JBool b => b
  | JInt z => negb (z =? 0)%Z
  | JFloat x => Py.truthy x
  | JDecimal _ => true
  | JTime _ => true
  | JString s => negb (String.eqb s "")
  | JArray items => negb (Py.is_empty items)
  | JObject members => negb (Py.is_empty members)
  end.

(** [Decimal(str(j))]; [None] where Python raises. *)
Definition decimal (j : json) : option Q :=
  match j with
  | JInt z => Some (inject_Z z)
  | JFloat x => Some x
  | JDecimal d => Some d
  | _ => None
  end.

(** [Decimal(str(obj.get(key, dflt)))]; [None] where Python raises, which
    includes an [obj] that is not a dictionary. *)
Definition get_decimal (obj : json) (key : string) (dflt : Q) : option Q :=
  match obj with
  | JObject members =>
      match lookup key members with
      | Some j => decimal j
      | None => Some dflt
      end
  | _ => None
  end.

(** [Decimal(str(obj[key]))]. *)
Definition index_decimal (obj : json) (key : string) : option Q :=
  match obj with
  | JObject members => lookup key members ≫= decimal
  | _ => None
  end.

(** [Decimal(str(v.get(key, "0"))) if v.get(key) else None]; the outer
    [option] is [None] where Python raises. *)
Definition get_optional_decimal (obj : json) (key : string)
  : option (option Q) :=
  match obj with
  | JObject members =>
      match lookup key members with
      | Some j => if truthy j then Some <$> decimal j else Some None
      | None => Some None
      end
  | _ => None
  end.

(** [str(d)], and [str(x) if x else None]. *)
Definition of_optional_decimal (x : option Q) : json :=
  match x with
  | Some d => if Py.truthy d then JDecimal d else JNull
  | None => JNull
  end.

Definition of_optional_int (x : option Z) : json :=
  match x with Some z => JInt z | None => JNull end.

Definition of_optional_time (x : option datetime) : json :=
  match x with Some t => JTime t | None => JNull end.

End Json.

(** ** src/storage/virtual_portfolio.py *)

Module VirtualPortfolio.

(** One entry of [data["positions"]]. *)
Record position := Position {
  lots : Z;
  avg_price : Q;
  stop_loss : option Q;
  take_profit : option Q;
  margin : Q;
  trade_id : option Z;
  opened_at : option datetime;
  accumulated_commission : Q
}.

(** The dictionary [self.data].  The two dictionaries are finite maps keyed
    by ticker; [balance_history] holds [float] values. *)
Record data := Data {
  balance : Q;
  initial_balance : Q;
  positions : gmap string position;
  history : list trade;
  used_margin : Q;
  total_commission : Q;
  total_slippage_cost : Q;
  total_spread_cost : Q;
  next_trade_id : Z;
  balance_history : list Q;
  atr_history : gmap string (list Q)
}.

(** The parts of the active configuration that the ledger reads; a
    component whose ['enabled'] is false is [None]. *)
Record config := Config {
  cfg_initial_balance : Q;
  commission_rate : Q;
  slippage_simulator : option SlippageSimulator.config;
  spread_calculator : option SpreadCalculator.config;
  risk_config : option RiskManager.config
}.

(** The object: its ledger, its risk manager (used when the configuration
    enables it) and the file at [storage_path]. *)
Record t := Portfolio {
  self_data : data;
  risk_manager : RiskManager.state;
  storage : file
}.

(** Assignments [self.data[key] = v]. *)
Definition set_balance (v : Q) (d : data) : data :=
  Data v (initial_balance d) (positions d) (history d) (used_margin d)
       (total_commission d) (total_slippage_cost d) (total_spread_cost d)
       (next_trade_id d) (balance_history d) (atr_history d).
Definition set_initial_balance (v : Q) (d : data) : data :=
  Data (balance d) v (positions d) (history d) (used_margin d)
       (total_commission d) (total_slippage_cost d) (total_spread_cost d)
       (next_trade_id d) (balance_history d) (atr_history d).
Definition set_positions (v : gmap string position) (d : data) : data :=
  Data (balance d) (initial_balance d) v (history d) (used_margin d)
       (total_commission d) (total_slippage_cost d) (total_spread_cost d)
       (next_trade_id d) (balance_history d) (atr_history d).
Definition set_history (v : list trade) (d : data) : data :=
  Data (balance d) (initial_balance d) (positions d) v (used_margin d)
       (total_commission d) (total_slippage_cost d) (total_spread_cost d)
       (next_trade_id d) (balance_history d) (atr_history d).
Definition set_used_margin (v : Q) (d : data) : data :=
  Data (balance d) (initial_balance d) (positions d) (history d) v
       (total_commission d) (total_slippage_cost d) (total_spread_cost d)
       (next_trade_id d) (balance_history d) (atr_history d).
Definition set_total_commission (v : Q) (d : data) : data :=
  Data (balance d) (initial_balance d) (positions d) (history d) (used_margin d)
       v (total_slippage_cost d) (total_spread_cost d)
       (next_trade_id d) (balance_history d) (atr_history d).
Definition set_total_slippage_cost (v : Q) (d : data) : data :=
  Data (balance d) (initial_balance d) (positions d) (history d) (used_margin d)
       (total_commission d) v (total_spread_cost d)
       (next_trade_id d) (balance_history d) (atr_history d).
Definition set_total_spread_cost (v : Q) (d : data) : data :=
  Data (balance d) (initial_balance d) (positions d) (history d) (used_margin d)
       (total_commission d) (total_slippage_cost d) v
       (next_trade_id d) (balance_history d) (atr_history d).
Definition set_next_trade_id (v : Z) (d : data) : data :=
  Data (balance d) (initial_balance d) (positions d) (history d) (used_margin d)
       (total_commission d) (total_slippage_cost d) (total_spread_cost d)
       v (balance_history d) (atr_history d).
Definition set_balance_history (v : list Q) (d : data) : data :=
  Data (balance d) (initial_balance d) (positions d) (history d) (used_margin d)
       (total_commission d) (total_slippage_cost d) (total_spread_cost d)
       (next_trade_id d) v (atr_history d).
Definition set_atr_history (v : gmap string (list Q)) (d : data) : data :=
  Data (balance d) (initial_balance d) (positions d) (history d) (used_margin d)
       (total_commission d) (total_slippage_cost d) (total_spread_cost d)
       (next_trade_id d) (balance_history d) v.

(** [self.data] as [__init__] sets it before [_load]. *)
Definition default_data (c : config) : data :=
  {| balance := cfg_initial_balance c;
     initial_balance := cfg_initial_balance c;
     positions := ∅;
     history := [];
     used_margin := 0;
     total_commission := 0;
     total_slippage_cost := 0;
     total_spread_cost := 0;
     next_trade_id := 1;
     balance_history := [];
     atr_history := ∅ |}.

(** *** [_save] *)

Definition position_to_json (v : position) : json :=
  JObject
    [ ("lots", JInt (lots v));
      ("avg_price", JDecimal (avg_price v));
      ("stop_loss", Json.of_optional_decimal (stop_loss v));
      ("take_profit", Json.of_optional_decimal (take_profit v));
      ("margin", JDecimal (margin v));
      ("trade_id", Json.of_optional_int (trade_id v));
      ("opened_at", Json.of_optional_time (opened_at v));
      ("accumulated_commission", JDecimal (accumulated_commission v)) ].

(** A history entry as the dictionary that [update_position] appended. *)
Definition trade_to_json (x : trade) : json :=
  let of_dec (o : option Q) :=
    match o with Some d => JDecimal d | None => JNull end in
  match t_action x with
  | ActionClose =>
      JObject
        [ ("trade_id", Json.of_optional_int (t_trade_id x));
          ("ticker", JString (t_ticker x));
          ("action", JString "close");
          ("lots", JInt (t_lots x));
          ("expected_price", JDecimal (t_expected_price x));
          ("execution_price", JDecimal (t_execution_price x));
          ("price", JDecimal (t_price x));
          ("profit", of_dec (t_profit x));
          ("commission", JDecimal (t_commission x));
          ("net_profit", of_dec (t_net_profit x));
          ("margin_released", of_dec (t_margin_released x));
          ("opened_at", Json.of_optional_time (t_opened_at x));
          ("timestamp", JTime (t_timestamp x)) ]
  | ActionUpdate =>
      JObject
        [ ("trade_id", Json.of_optional_int (t_trade_id x));
          ("ticker", JString (t_ticker x));
          ("action", JString "update");
          ("lots", JInt (t_lots x));
          ("expected_price", JDecimal (t_expected_price x));
          ("execution_price", JDecimal (t_execution_price x));
          ("price", JDecimal (t_price x));
          ("stop_loss", of_dec (t_stop_loss x));
          ("take_profit", of_dec (t_take_profit x));
          ("margin_reserved", of_dec (t_margin_reserved x));
          ("commission", JDecimal (t_commission x));
          ("timestamp", JTime (t_timestamp x)) ]
  end.

(** [serializable_data]; the members of the two dictionaries are written in
    the order of [map_to_list]. *)
Definition serializable_data (d : data) : json :=
  JObject
    [ ("balance", JDecimal (balance d));
      ("positions",
        JObject (prod_map id position_to_json <$> map_to_list (positions d)));
      ("history", JArray (trade_to_json <$> history d));
      ("used_margin", JDecimal (used_margin d));
      ("total_commission", JDecimal (total_commission d));
      ("total_slippage_cost", JDecimal (total_slippage_cost d));
      ("total_spread_cost", JDecimal (total_spread_cost d));
      ("next_trade_id", JInt (next_trade_id d));
      ("initial_balance", JDecimal (initial_balance d));
      ("balance_history", JArray (JFloat <$> balance_history d));
      ("atr_history",
        JObject (prod_map id (fun l => JArray (JFloat <$> l))
                 <$> map_to_list (atr_history d))) ].

Definition _save (p : t) : t :=
  {| self_data := self_data p;
     risk_manager := risk_manager p;
     storage := Parsed (serializable_data (self_data p)) |}.

(** *** [_load]

    The loaded values that Python keeps as [json.load] returned them
    ([lots], [trade_id], [opened_at], [history], [next_trade_id],
    [balance_history], [atr_history]) are read at the type at which the
    ledger later uses them.  How a value is read is not fixed here. *)
Record views := Views {
  as_int : json -> Z;
  as_optional_int : json -> option Z;
  as_optional_time : json -> option datetime;
  as_history : json -> list trade;
  as_balance_history : json -> list Q;
  as_atr_history : json -> gmap string (list Q)
}.

Section Load.

Variable v : views.

(** One value of the dictionary comprehension; [None] where Python raises. *)
Definition load_position (j : json) : option position :=
  match j with
  | JObject members =>
      lots_ ← Json.lookup "lots" members;
      avg_price_ ← Json.index_decimal j "avg_price";
      stop_loss_ ← Json.get_optional_decimal j "stop_loss";
      take_profit_ ← Json.get_optional_decimal j "take_profit";
      margin_ ← Json.get_decimal j "margin" 0;
      accumulated_commission_ ← Json.get_decimal j "accumulated_commission" 0;
      Some {| lots := as_int v lots_;
              avg_price := avg_price_;
              stop_loss := stop_loss_;
              take_profit := take_profit_;
              margin := margin_;
              trade_id := Json.lookup "trade_id" members ≫= as_optional_int v;
              opened_at := Json.lookup "opened_at" members ≫= as_optional_time v;
              accumulated_commission := accumulated_commission_ |}
  | _ => None
  end.

(** The comprehension over [raw_data.get("positions", {}).items()]. *)
Fixpoint load_position_items (items : list (string * json))
  : option (gmap string position) :=
  match items with
  | [] => Some ∅
  | (k, j) :: rest =>
      x ← load_position j;
      m ← load_position_items rest;
      Some (<[k := x]> m)
  end.

Definition load_positions (raw_data : json) : option (gmap string position) :=
  match raw_data with
  | JObject members =>
      match Json.lookup "positions" members with
      | Some (JObject items) => load_position_items items
      | Some _ => None
      | None => Some ∅
      end
  | _ => None
  end.

(** [raw_data.get(key, dflt)] read through a view. *)
Definition get_view {A} (raw_data : json) (key : string) (view : json -> A)
    (dflt : A) : option A :=
  match raw_data with
  | JObject members =>
      Some (match Json.lookup key members with
            | Some j => view j
            | None => dflt
            end)
  | _ => None
  end.

(** The assignments of the [try] block, in order.  Each reads [raw_data]
    and assigns one key of [self.data]; [None] where Python raises. *)
Definition load_steps : list (json -> data -> option data) :=
  [ (fun raw d => x ← Json.get_decimal raw "balance" 200000;
                  Some (set_balance x d));
    (fun raw d => x ← load_positions raw; Some (set_positions x d));
    (fun raw d => x ← get_view raw "history" (as_history v) [];
                  Some (set_history x d));
    (fun raw d => x ← Json.get_decimal raw "used_margin" 0;
                  Some (set_used_margin x d));
    (fun raw d => x ← Json.get_decimal raw "total_commission" 0;
                  Some (set_total_commission x d));
    (fun raw d => x ← Json.get_decimal raw "total_slippage_cost" 0;
                  Some (set_total_slippage_cost x d));
    (fun raw d => x ← Json.get_decimal raw "total_spread_cost" 0;
                  Some (set_total_spread_cost x d));
    (fun raw d => x ← get_view raw "next_trade_id" (as_int v) 1%Z;
                  Some (set_next_trade_id x d));
    (fun raw d => x ← Json.get_decimal raw "initial_balance" 200000;
                  Some (set_initial_balance x d));
    (fun raw d => x ← get_view raw "balance_history" (as_balance_history v) [];
                  Some (set_balance_history x d));
    (fun raw d => x ← get_view raw "atr_history" (as_atr_history v) ∅;
                  Some (set_atr_history x d)) ].

(** Runs the assignments until one raises: the ledger reached, and whether
    the block ran to its end. *)
Fixpoint run_steps (steps : list (json -> data -> option data))
    (raw_data : json) (d : data) : data * bool :=
  match steps with
  | [] => (d, true)
  | step :: rest =>
      match step raw_data d with
      | Some d' => run_steps rest raw_data d'
      | None => (d, false)
      end
  end.

Definition _load (p : t) : t :=
  match storage p with
  | Parsed raw_data =>
      let '(d, completed) := run_steps load_steps raw_data (self_data p) in
      let p' := {| self_data := d;
                   risk_manager := risk_manager p;
                   storage := storage p |} in
      if completed then p' else _save p'
  | Unparsable => _save p
  | Missing => _save p
  end.

(** [__init__] on the file found at [storage_path]. *)
Definition __init__ (c : config) (f : file) : t :=
  _load {| self_data := default_data c;
           risk_manager := RiskManager.init;
           storage := f |}.

End Load.

(** *** [_calculate_execution_price] *)

(** [avg_atr]: the mean of the ticker's ATR history, when [atr] is truthy
    and the history is there and not empty. *)
Definition average_atr (d : data) (ticker : string) (atr : option Q)
  : option Q :=
  if Py.truthy_opt atr then
    match atr_history d !! ticker with
    | Some atr_list =>
        if Py.is_empty atr_list then None
        else Some (Py.sum atr_list / inject_Z (Z.of_nat (length atr_list)))
    | None => None
    end
  else None.

(** Returns the execution price and the ledger with its cost counters
    advanced.  [random_factor] is the draw of the slippage simulator. *)
Definition _calculate_execution_price
    (c : config) (random_factor : Q) (d : data)
    (ticker : string) (expected_price : Q) (lots_ : Z) (dir : direction)
    (atr : option Q) : Q * data :=
  let execution_price := expected_price in
  let avg_atr := average_atr d ticker atr in
  let '(execution_price, d) :=
    match spread_calculator c with
    | Some sc =>
        let execution_price :=
          SpreadCalculator.get_execution_price
            sc expected_price dir atr avg_atr None in
        let spread_cost :=
          Qabs (execution_price - expected_price) * inject_Z (Z.abs lots_) in
        (execution_price,
         set_total_spread_cost (total_spread_cost d + spread_cost) d)
    | None => (execution_price, d)
    end in
  match slippage_simulator c with
  | Some ss =>
      let execution_price :=
        SlippageSimulator.calculate_slippage
          ss random_factor execution_price (Z.abs lots_) dir atr avg_atr in
      let slippage_cost :=
        Qabs (execution_price - expected_price) * inject_Z (Z.abs lots_) in
      (execution_price,
       set_total_slippage_cost (total_slippage_cost d + slippage_cost) d)
  | None => (execution_price, d)
  end.

(** *** [_update_atr_history], with [max_history] at its default 100 *)

Definition max_history : nat := 100.

Definition _update_atr_history (d : data) (ticker : string) (atr : Q) : data :=
  let atr_list := default [] (atr_history d !! ticker) ++ [atr] in
  let atr_list :=
    if (max_history <? length atr_list)%nat
    then drop (length atr_list - max_history) atr_list
    else atr_list in
  set_atr_history (<[ticker := atr_list]> (atr_history d)) d.

(** [if atr: self._update_atr_history(ticker, atr)]. *)
Definition record_atr (d : data) (ticker : string) (atr : option Q) : data :=
  match atr with
  | Some a => if Py.truthy a then _update_atr_history d ticker a else d
  | None => d
  end.

(** *** [update_position] *)

(** What the call did; each rejection is one of the printed messages. *)
Inductive outcome :=
| NoChange
| TradingForbidden (why : option TradingRestrictions.refusal)
| InvalidSize (why : option TradingRestrictions.refusal)
| RiskVeto (why : option RiskManager.reason)
| InsufficientFunds (required_margin available_balance : Q)
| Closed
| Updated.

(** The position read when the ticker has none. *)
Definition no_position : position :=
  {| lots := 0;
     avg_price := 0;
     stop_loss := None;
     take_profit := None;
     margin := 0;
     trade_id := None;
     opened_at := None;
     accumulated_commission := 0 |}.

(** [str(x) if x else None] of an optional decimal. *)
Definition if_truthy (x : option Q) : option Q :=
  if Py.truthy_opt x then x else None.

(** The branch [target_lots == 0]. *)
Definition close_position
    (c : config) (now : datetime) (random_factor : Q) (d : data)
    (ticker : string) (current_pos : position) (current_price : Q)
    (atr : option Q) : data :=
  let dir := if (lots current_pos <? 0)%Z then Sell else Buy in
  let '(execution_price, d) :=
    _calculate_execution_price c random_factor d ticker current_price
                               (lots current_pos) dir atr in
  let profit :=
    (execution_price - avg_price current_pos) * inject_Z (lots current_pos) in
  let turnover := Qabs (execution_price * inject_Z (lots current_pos)) in
  let commission := turnover * commission_rate c in
  let released_margin := margin current_pos in
  let net_profit := profit - commission in
  let d := set_balance (balance d + (released_margin + net_profit)) d in
  let d := set_used_margin (used_margin d - released_margin) d in
  let d := set_total_commission (total_commission d + commission) d in
  let d := set_balance_history (balance_history d ++ [balance d]) d in
  let d :=
    set_history
      (history d ++
       [ {| t_trade_id := trade_id current_pos;
            t_ticker := ticker;
            t_action := ActionClose;
            t_lots := lots current_pos;
            t_expected_price := current_price;
            t_execution_price := execution_price;
            t_price := execution_price;
            t_profit := Some profit;
            t_commission := commission;
            t_net_profit := Some net_profit;
            t_margin_released := Some released_margin;
            t_margin_reserved := None;
            t_stop_loss := None;
            t_take_profit := None;
            t_opened_at := opened_at current_pos;
            t_timestamp := now |} ]) d in
  set_positions (delete ticker (positions d)) d.

(** The branch [target_lots != 0]: the ledger after the call, or the two
    amounts of the refusal together with the ledger as the refusal leaves
    it. *)
Definition open_or_resize
    (c : config) (now : datetime) (random_factor : Q) (d : data)
    (ticker : string) (current_pos : position) (target_lots diff_lots : Z)
    (current_price : Q) (stop_loss_ take_profit_ margin_per_lot atr : option Q)
  : (Q * Q * data) + data :=
  let dir := if (target_lots <? 0)%Z then Buy else Sell in
  let '(execution_price, d) :=
    _calculate_execution_price c random_factor d ticker current_price
                               target_lots dir atr in
  let margin_per_lot :=
    match margin_per_lot with
    | Some m => m
    | None => execution_price * (1 # 10)
    end in
  let required_margin := margin_per_lot * inject_Z (Z.abs target_lots) in
  let available_balance := balance d - used_margin d in
  if Py.gtb required_margin available_balance
  then inl (required_margin, available_balance, d)
  else
    let turnover := Qabs (execution_price * inject_Z (Z.abs diff_lots)) in
    let commission := turnover * commission_rate c in
    let old_margin := margin current_pos in
    let margin_diff := required_margin - old_margin in
    let d := set_balance (balance d - (margin_diff + commission)) d in
    let d := set_used_margin (used_margin d + margin_diff) d in
    let d := set_total_commission (total_commission d + commission) d in
    let '(trade_id_, d) :=
      match trade_id current_pos with
      | Some i => (i, d)
      | None => (next_trade_id d, set_next_trade_id (next_trade_id d + 1) d)
      end in
    let opened_at_ :=
      match opened_at current_pos with
      | Some t => t
      | None => now
      end in
    let accumulated_commission_ :=
      accumulated_commission current_pos + commission in
    let d :=
      set_positions
        (<[ticker :=
            {| lots := target_lots;
               avg_price := execution_price;
               stop_loss := stop_loss_;
               take_profit := take_profit_;
               margin := required_margin;
               trade_id := Some trade_id_;
               opened_at := Some opened_at_;
               accumulated_commission := accumulated_commission_ |}]>
           (positions d)) d in
    inr
      (set_history
         (history d ++
          [ {| t_trade_id := Some trade_id_;
               t_ticker := ticker;
               t_action := ActionUpdate;
               t_lots := target_lots;
               t_expected_price := current_price;
               t_execution_price := execution_price;
               t_price := execution_price;
               t_profit := None;
               t_commission := commission;
               t_net_profit := None;
               t_margin_released := None;
               t_margin_reserved := Some required_margin;
               t_stop_loss := if_truthy stop_loss_;
               t_take_profit := if_truthy take_profit_;
               t_opened_at := None;
               t_timestamp := now |} ]) d).

(** The risk check of [update_position]: the veto, if any, and the risk
    manager after the check. *)
Definition risk_check
    (c : config) (now : datetime) (rm : RiskManager.state) (d : data)
    (target_lots : Z) (current_price : Q)
  : option (option RiskManager.reason) * RiskManager.state :=
  match risk_config c with
  | Some rc =>
      if negb (target_lots =? 0)%Z then
        let current_positions_count := Z.of_nat (size (positions d)) in
        let position_value :=
          Qabs (current_price * inject_Z (Z.abs target_lots)) in
        let '((can_open, risk_reason), rm') :=
          RiskManager.can_open_position
            rc (dt_date now) rm (balance d) current_positions_count
            position_value in
        if negb can_open then (Some risk_reason, rm') else (None, rm')
      else (None, rm)
  | None => (None, rm)
  end.

(** [now] is what [datetime.now()] returns during the call and
    [random_factor] what [random.uniform(0.8, 1.2)] returns. *)
Definition update_position
    (c : config) (now : datetime) (random_factor : Q) (p : t)
    (ticker : string) (target_lots : Z) (current_price : Q)
    (stop_loss_ take_profit_ margin_per_lot atr : option Q) : outcome * t :=
  let current_pos := default no_position (positions (self_data p) !! ticker) in
  let diff_lots := (target_lots - lots current_pos)%Z in
  if (diff_lots =? 0)%Z then (NoChange, p)
  else
    let '(can_trade, trade_reason) := TradingRestrictions.can_trade now in
    if negb can_trade then (TradingForbidden trade_reason, p)
    else
      let '(is_valid_size, size_reason) :=
        TradingRestrictions.validate_position_size target_lots in
      if negb is_valid_size then (InvalidSize size_reason, p)
      else
        let d := record_atr (self_data p) ticker atr in
        let '(veto, rm) :=
          risk_check c now (risk_manager p) d target_lots current_price in
        match veto with
        | Some risk_reason =>
            (RiskVeto risk_reason,
             {| self_data := d; risk_manager := rm; storage := storage p |})
        | None =>
            if (target_lots =? 0)%Z then
              let d :=
                close_position c now random_factor d ticker current_pos
                               current_price atr in
              (Closed,
               _save {| self_data := d; risk_manager := rm;
                        storage := storage p |})
            else
              match
                open_or_resize c now random_factor d ticker current_pos
                               target_lots diff_lots current_price
                               stop_loss_ take_profit_ margin_per_lot atr
              with
              | inl (required_margin, available_balance, d) =>
                  (InsufficientFunds required_margin available_balance,
                   {| self_data := d; risk_manager := rm;
                      storage := storage p |})
              | inr d =>
                  (Updated,
                   _save {| self_data := d; risk_manager := rm;
                            storage := storage p |})
              end
        end.

(** The state effect of [get_portfolio_summary] (the summary itself reads
    the ledger and changes nothing). *)
Definition get_portfolio_summary (c : config) (p : t) : t :=
  match risk_config c with
  | Some _ =>
      {| self_data := self_data p;
         risk_manager :=
           RiskManager.update_peak_balance (risk_manager p)
                                           (balance (self_data p));
         storage := storage p |}
  | None => p
  end.




(** The two answers of [check_stop_loss_take_profit] other than [None]. *)
Inductive exit_reason := StopLoss | TakeProfit.

(** [level and cmp(current_price, level)] for an optional price level. *)
Definition level_hit (level : option Q) (cmp : Q -> Q -> bool)
    (current_price : Q) : bool :=
  match level with
  | Some l => Py.truthy l && cmp current_price l
  | None => false
  end.

Definition check_stop_loss_take_profit (p : t) (ticker : string)
    (current_price : Q) : option exit_reason :=
  match positions (self_data p) !! ticker with
  | None => None
  | Some pos =>
      if (lots pos <? 0)%Z then
        if level_hit (stop_loss pos) Py.leb current_price then Some StopLoss
        else if level_hit (take_profit pos) Py.geb current_price
             then Some TakeProfit
             else None
      else if (lots pos >? 0)%Z then
        if level_hit (stop_loss pos) Py.geb current_price then Some StopLoss
        else if level_hit (take_profit pos) Py.leb current_price
             then Some TakeProfit
             else None
      else None
  end.

(** One call of [update_position] with everything it reads. *)
Record call := Call {
  call_now : datetime;
  call_random_factor : Q;
  call_ticker : string;
  call_target_lots : Z;
  call_current_price : Q;
  call_stop_loss : option Q;
  call_take_profit : option Q;
  call_margin_per_lot : option Q;
  call_atr : option Q
}.

Definition do_call (c : config) (p : t) (k : call) : t :=
  snd (update_position c (call_now k) (call_random_factor k) p
         (call_ticker k) (call_target_lots k) (call_current_price k)
         (call_stop_loss k) (call_take_profit k) (call_margin_per_lot k)
         (call_atr k)).

(** The ledger after a sequence of calls. *)
Definition run (c : config) (p : t) (ks : list call) : t :=
  foldl (do_call c) p ks.

(** The object that [__init__] leaves when there is no file. *)
Definition new_portfolio (c : config) : t :=
  {| self_data := default_data c;
     risk_manager := RiskManager.init;
     storage := Parsed (serializable_data (default_data c)) |}.


End VirtualPortfolio.

(** ** src/utils/order_execution.py

    A [datetime] of this module is the number of seconds since a fixed
    origin, so that delays can be added and instants compared; the rounding
    of [timedelta] to whole microseconds is not modelled. *)

Module OrderExecutionSimulator.

Inductive order_direction := DirBuy | DirSell | DirClose.

(** The values that [status] takes: ['pending'], ['ready'], ['executed'],
    ['cancelled']. *)
Inductive order_status := Pending | Ready | Executed | Cancelled.

(** The text of [cancellation_reason]. *)
Inductive cancellation :=
| NoCurrentPrice
| PriceDeviation (percent : Q)
| Manual (reason : string).

(** [f"ORD_{order_counter}_{now:%Y%m%d%H%M%S}"]: the counter and the whole
    second of the creation. *)
Record order_id := OrderId { oid_counter : Z; oid_second : Z }.

Definition order_id_eqb (a b : order_id) : bool :=
  (oid_counter a =? oid_counter b)%Z && (oid_second a =? oid_second b)%Z.

Record PendingOrder := Order {
  o_order_id : order_id;
  o_ticker : string;
  o_target_lots : Z;
  o_expected_price : Q;
  o_stop_loss : option Q;
  o_take_profit : option Q;
  o_figi : option string;
  o_created_at : Q;
  o_execute_at : Q;
  o_direction : order_direction;
  o_status : order_status;
  o_actual_price : option Q;
  o_executed_at : option Q;
  o_cancellation_reason : option cancellation
}.

(** The simulator; [pending_orders] is the dictionary as the list of its
    values, in insertion order. *)
Record t := Simulator {
  min_delay : Q;
  max_delay : Q;
  max_deviation : Q;
  pending_orders : list PendingOrder;
  order_counter : Z
}.

Definition __init__
    (min_delay_seconds max_delay_seconds max_price_deviation_percent : Q) : t :=
  {| min_delay := min_delay_seconds;
     max_delay := max_delay_seconds;
     max_deviation := max_price_deviation_percent / 100;
     pending_orders := [];
     order_counter := 0 |}.

Definition set_pending_orders (l : list PendingOrder) (s : t) : t :=
  {| min_delay := min_delay s;
     max_delay := max_delay s;
     max_deviation := max_deviation s;
     pending_orders := l;
     order_counter := order_counter s |}.

(** Assignments to the attributes of an order. *)
Definition set_status (st : order_status) (o : PendingOrder) : PendingOrder :=
  Order (o_order_id o) (o_ticker o) (o_target_lots o) (o_expected_price o)
        (o_stop_loss o) (o_take_profit o) (o_figi o) (o_created_at o)
        (o_execute_at o) (o_direction o) st (o_actual_price o)
        (o_executed_at o) (o_cancellation_reason o).
Definition set_actual_price (x : option Q) (o : PendingOrder) : PendingOrder :=
  Order (o_order_id o) (o_ticker o) (o_target_lots o) (o_expected_price o)
        (o_stop_loss o) (o_take_profit o) (o_figi o) (o_created_at o)
        (o_execute_at o) (o_direction o) (o_status o) x
        (o_executed_at o) (o_cancellation_reason o).
Definition set_executed_at (x : option Q) (o : PendingOrder) : PendingOrder :=
  Order (o_order_id o) (o_ticker o) (o_target_lots o) (o_expected_price o)
        (o_stop_loss o) (o_take_profit o) (o_figi o) (o_created_at o)
        (o_execute_at o) (o_direction o) (o_status o) (o_actual_price o)
        x (o_cancellation_reason o).
Definition set_cancellation_reason (x : option cancellation) (o : PendingOrder)
  : PendingOrder :=
  Order (o_order_id o) (o_ticker o) (o_target_lots o) (o_expected_price o)
        (o_stop_loss o) (o_take_profit o) (o_figi o) (o_created_at o)
        (o_execute_at o) (o_direction o) (o_status o) (o_actual_price o)
        (o_executed_at o) x.

(** [d[key] = value]: the value of an existing key is replaced in place, a
    new key goes to the end. *)
Fixpoint dict_set (o : PendingOrder) (l : list PendingOrder)
  : list PendingOrder :=
  match l with
  | [] => [o]
  | x :: rest =>
      if order_id_eqb (o_order_id x) (o_order_id o) then o :: rest
      else x :: dict_set o rest
  end.

(** [d.get(key)]. *)
Definition dict_get (i : order_id) (l : list PendingOrder)
  : option PendingOrder :=
  List.find (fun x => order_id_eqb (o_order_id x) i) l.

(** The order under [i], if any, replaced by [f] of it: what an assignment
    to an attribute of [d.get(i)] does to the dictionary. *)
Fixpoint dict_update (i : order_id) (f : PendingOrder -> PendingOrder)
    (l : list PendingOrder) : list PendingOrder :=
  match l with
  | [] => []
  | x :: rest =>
      if order_id_eqb (o_order_id x) i then f x :: rest
      else x :: dict_update i f rest
  end.

(** [now] is what [datetime.now()] returns during the call and [delay] what
    [random.uniform(min_delay, max_delay)] returns. *)
Definition create_order
    (s : t) (now delay : Q) (ticker : string) (target_lots : Z)
    (expected_price : Q) (stop_loss take_profit : option Q)
    (figi : option string) : order_id * t :=
  let counter := (order_counter s + 1)%Z in
  let i := {| oid_counter := counter; oid_second := Qfloor now |} in
  let dir :=
    if (target_lots =? 0)%Z then DirClose
    else if (target_lots <? 0)%Z then DirBuy
    else DirSell in
  let order :=
    {| o_order_id := i;
       o_ticker := ticker;
       o_target_lots := target_lots;
       o_expected_price := expected_price;
       o_stop_loss := stop_loss;
       o_take_profit := take_profit;
       o_figi := figi;
       o_created_at := now;
       o_execute_at := now + delay;
       o_direction := dir;
       o_status := Pending;
       o_actual_price := None;
       o_executed_at := None;
       o_cancellation_reason := None |} in
  (i, {| min_delay := min_delay s;
         max_delay := max_delay s;
         max_deviation := max_deviation s;
         pending_orders := dict_set order (pending_orders s);
         order_counter := counter |}).

(** One round of the loop of [check_ready_orders]: the order after the
    round and whether it was appended to [ready_orders]; [None] where Python
    raises (the division by an expected price of zero). *)
Definition check_order
    (max_deviation_ now : Q) (current_prices : gmap string Q)
    (order : PendingOrder) : option (PendingOrder * bool) :=
  match o_status order with
  | Pending =>
      if Py.geb now (o_execute_at order) then
        match current_prices !! o_ticker order with
        | None =>
            Some (set_cancellation_reason (Some NoCurrentPrice)
                    (set_status Cancelled order), false)
        | Some current_price =>
            if Py.eqb (o_expected_price order) 0 then None
            else
              let price_deviation :=
                Qabs (current_price - o_expected_price order)
                / o_expected_price order in
              if Py.gtb price_deviation max_deviation_ then
                Some (set_cancellation_reason
                        (Some (PriceDeviation (price_deviation * 100)))
                        (set_status Cancelled order), false)
              else
                Some (set_status Ready
                        (set_actual_price (Some current_price) order), true)
        end
      else Some (order, false)
  | _ => Some (order, false)
  end.

(** The loop over the orders: the dictionary after it, and the list
    [ready_orders], or [None] when a round raised (the orders after that
    round are then as they were). *)
Fixpoint check_loop
    (max_deviation_ now : Q) (current_prices : gmap string Q)
    (orders : list PendingOrder)
  : list PendingOrder * option (list PendingOrder) :=
  match orders with
  | [] => ([], Some [])
  | order :: rest =>
      match check_order max_deviation_ now current_prices order with
      | None => (order :: rest, None)
      | Some (order', is_ready) =>
          let '(rest', ready) :=
            check_loop max_deviation_ now current_prices rest in
          (order' :: rest',
           (fun l => if is_ready then order' :: l else l) <$> ready)
      end
  end.

Definition check_ready_orders
    (s : t) (now : Q) (current_prices : gmap string Q)
  : option (list PendingOrder) * t :=
  let '(orders, ready) :=
    check_loop (max_deviation s) now current_prices (pending_orders s) in
  (ready, set_pending_orders orders s).

Definition execute_order (s : t) (now : Q) (i : order_id)
  : option PendingOrder * t :=
  match dict_get i (pending_orders s) with
  | Some order =>
      match o_status order with
      | Ready =>
          let f o := set_executed_at (Some now) (set_status Executed o) in
          (Some (f order),
           set_pending_orders (dict_update i f (pending_orders s)) s)
      | _ => (None, s)
      end
  | None => (None, s)
  end.

Definition cancel_order (s : t) (i : order_id) (reason : string) : bool * t :=
  match dict_get i (pending_orders s) with
  | Some order =>
      match o_status order with
      | Pending =>
          let f o :=
            set_cancellation_reason (Some (Manual reason))
                                    (set_status Cancelled o) in
          (true, set_pending_orders (dict_update i f (pending_orders s)) s)
      | _ => (false, s)
      end
  | None => (false, s)
  end.

Definition is_pending (o : PendingOrder) : bool :=
  match o_status o with Pending => true | _ => false end.

Definition get_pending_orders_count (s : t) : nat :=
  length (List.filter is_pending (pending_orders s)).

(** [order.status in ['executed', 'cancelled']]. *)
Definition is_finished (o : PendingOrder) : bool :=
  match o_status o with Executed | Cancelled => true | _ => false end.

Definition cleanup_old_orders (s : t) (now : Q) (max_age_hours : Z) : t :=
  let cutoff_time := now - inject_Z max_age_hours * 3600 in
  set_pending_orders
    (List.filter
       (fun o => negb (is_finished o && Py.ltb (o_created_at o) cutoff_time))
       (pending_orders s))
    s.

(** The calls a client can make, with what each reads from outside. *)
Inductive call :=
| CallCreate (now delay : Q) (ticker : string) (target_lots : Z)
             (expected_price : Q) (stop_loss take_profit : option Q)
             (figi : option string)
| CallCheckReady (now : Q) (current_prices : gmap string Q)
| CallExecute (now : Q) (i : order_id)
| CallCancel (i : order_id) (reason : string)
| CallCleanup (now : Q) (max_age_hours : Z).

Definition step (s : t) (k : call) : t :=
  match k with
  | CallCreate now delay ticker lots price sl tp figi =>
      snd (create_order s now delay ticker lots price sl tp figi)
  | CallCheckReady now prices => snd (check_ready_orders s now prices)
  | CallExecute now i => snd (execute_order s now i)
  | CallCancel i reason => snd (cancel_order s i reason)
  | CallCleanup now hours => cleanup_old_orders s now hours
  end.

Definition run (s : t) (ks : list call) : t := foldl step s ks.

End OrderExecutionSimulator.

(** ** src/utils/converters.py *)

Module Converters.

(** The [Quotation] of the API: whole units and billionths. *)
Record Quotation := MkQuotation { units : Z; nano : Z }.

Definition quotation_to_decimal (quotation : option Quotation) : Q :=
  match quotation with
  | None => 0
  | Some q => inject_Z (units q) + inject_Z (nano q) / 1000000000
  end.

Definition decimal_to_quotation (value : Q) : Quotation :=
  let units_ := Py.int value in
  let nano_ := Py.int ((value - inject_Z units_) * 1000000000) in
  {| units := units_; nano := nano_ |}.

End Converters.

(** ** Decimal arithmetic

    The definitions above read a [Decimal] as the rational number it
    denotes and its operations as exact.  Python computes each operation in
    the context of the [decimal] module, which the repository leaves at its
    default: the exact result is rounded to 28 significant digits, a tie
    going to the even digit. *)

Module Decimal.

Definition prec : Z := 28.

(** The number of decimal digits of [n] less one, for [1 <= n], by
    repeated division; [fuel] bounds the number of divisions. *)
Fixpoint ilog10 (fuel : nat) (n : Z) : Z :=
  match fuel with
  | O => 0%Z
  | S fuel => if (n <? 10)%Z then 0%Z else (1 + ilog10 fuel (n / 10))%Z
  end.

Definition log10 (n : Z) : Z := ilog10 (Z.to_nat (Z.log2 n)) n.

(** The exponent of the first digit of a positive number: the [a] with
    [10 ^ a <= x < 10 ^ (a + 1)]. *)
Definition adjusted (x : Q) : Z :=
  if Qle_bool 1 x then log10 (Qfloor x)
  else
    let j := log10 (Qfloor (/ x)) in
    if Qeq_bool (x * 10 ^ j) 1 then (- j)%Z else (- j - 1)%Z.

(** The value of an exact result once the context has rounded it. *)
Definition round (x : Q) : Q :=
  if Qeq_bool x 0 then 0
  else
    let e := (adjusted (Qabs x) - (prec - 1))%Z in
    inject_Z (SpreadCalculator.quantize_1 (x / 10 ^ e)) * 10 ^ e.

Definition add (x y : Q) : Q := round (x + y).
Definition sub (x y : Q) : Q := round (x - y).
Definition mul (x y : Q) : Q := round (x * y).
Definition div (x y : Q) : Q := round (x / y).
Definition abs (x : Q) : Q := round (Qabs x).

(** [x.quantize(Decimal('1'))]; [None] where Python raises
    [InvalidOperation], the integer having more digits than the
    precision. *)
Definition quantize_1 (x : Q) : option Z :=
  let n := SpreadCalculator.quantize_1 x in
  if (Z.abs n <? 10 ^ prec)%Z then Some n else None.

(** [x] has at most 28 significant digits: the context leaves it as it
    is. *)
Definition exact (x : Q) : Prop := round x == x.

End Decimal.

(** ** The Decimal computations in the context

    The functions of [spread.py], [slippage.py], [virtual_portfolio.py] and
    [converters.py] that compute on [Decimal] values, with every operation
    rounded as the context rounds it.  A [float] is still read as the
    number it denotes, and the risk manager computes as in [RiskManager].
    [None] is an exception that the function lets through. *)

Module InContext.
Import VirtualPortfolio.

(** *** [spread.py] *)

(** Step 4 of [calculate_spread]. *)
Definition spread_amount
    (c : SpreadCalculator.config) (mid_price : Q) (atr avg_atr : option Q)
  : Q :=
  Decimal.mul mid_price (SpreadCalculator.spread_percent c atr avg_atr).

Definition calculate_spread
    (c : SpreadCalculator.config) (mid_price : Q) (atr avg_atr : option Q)
    (min_price_increment : option Q) : option Q :=
  let spread_amount := spread_amount c mid_price atr avg_atr in
  match min_price_increment with
  | Some min_price_increment =>
      if Py.gtb min_price_increment 0 then
        steps ← Decimal.quantize_1
                  (Decimal.div spread_amount min_price_increment);
        let spread_amount := Decimal.mul (inject_Z steps) min_price_increment in
        Some (if Py.ltb spread_amount min_price_increment
              then min_price_increment
              else spread_amount)
      else Some spread_amount
  | None => Some spread_amount
  end.

Definition get_bid_ask_prices
    (c : SpreadCalculator.config) (mid_price : Q) (atr avg_atr : option Q)
    (min_price_increment : option Q) : option (Q * Q) :=
  spread ← calculate_spread c mid_price atr avg_atr min_price_increment;
  let half_spread := Decimal.div spread 2 in
  Some (Decimal.sub mid_price half_spread, Decimal.add mid_price half_spread).

Definition get_execution_price
    (c : SpreadCalculator.config) (mid_price : Q) (d : direction)
    (atr avg_atr : option Q) (min_price_increment : option Q) : option Q :=
  '(bid_price, ask_price) ←
    get_bid_ask_prices c mid_price atr avg_atr min_price_increment;
  Some match d with
       | Buy => ask_price
       | Sell => bid_price
       end.

(** *** [slippage.py] *)

Definition calculate_slippage
    (c : SlippageSimulator.config) (random_factor : Q)
    (expected_price : Q) (lots : Z) (d : direction) (atr avg_atr : option Q)
  : Q :=
  let slippage :=
    SlippageSimulator.capped_slippage c lots atr avg_atr * random_factor in
  match d with
  | Buy => Decimal.mul expected_price (Decimal.add 1 slippage)
  | Sell => Decimal.mul expected_price (Decimal.sub 1 slippage)
  end.

(** *** [virtual_portfolio.py] *)

Definition _calculate_execution_price
    (c : config) (random_factor : Q) (d : data)
    (ticker : string) (expected_price : Q) (lots_ : Z) (dir : direction)
    (atr : option Q) : option (Q * data) :=
  let execution_price := expected_price in
  let avg_atr := average_atr d ticker atr in
  '(execution_price, d) ←
    match spread_calculator c with
    | Some sc =>
        execution_price ←
          get_execution_price sc expected_price dir atr avg_atr None;
        let spread_cost :=
          Decimal.mul (Decimal.abs (Decimal.sub execution_price expected_price))
                      (inject_Z (Z.abs lots_)) in
        Some (execution_price,
              set_total_spread_cost
                (Decimal.add (total_spread_cost d) spread_cost) d)
    | None => Some (execution_price, d)
    end;
  match slippage_simulator c with
  | Some ss =>
      let execution_price :=
        calculate_slippage
          ss random_factor execution_price (Z.abs lots_) dir atr avg_atr in
      let slippage_cost :=
        Decimal.mul (Decimal.abs (Decimal.sub execution_price expected_price))
                    (inject_Z (Z.abs lots_)) in
      Some (execution_price,
            set_total_slippage_cost
              (Decimal.add (total_slippage_cost d) slippage_cost) d)
  | None => Some (execution_price, d)
  end.

(** The branch [target_lots == 0]. *)
Definition close_position
    (c : config) (now : datetime) (random_factor : Q) (d : data)
    (ticker : string) (current_pos : position) (current_price : Q)
    (atr : option Q) : option data :=
  let dir := if (lots current_pos <? 0)%Z then Sell else Buy in
  '(execution_price, d) ←
    _calculate_execution_price c random_factor d ticker current_price
                               (lots current_pos) dir atr;
  let profit :=
    Decimal.mul (Decimal.sub execution_price (avg_price current_pos))
                (inject_Z (lots current_pos)) in
  let turnover :=
    Decimal.abs (Decimal.mul execution_price (inject_Z (lots current_pos))) in
  let commission := Decimal.mul turnover (commission_rate c) in
  let released_margin := margin current_pos in
  let net_profit := Decimal.sub profit commission in
  let d :=
    set_balance
      (Decimal.add (balance d) (Decimal.add released_margin net_profit)) d in
  let d := set_used_margin (Decimal.sub (used_margin d) released_margin) d in
  let d :=
    set_total_commission (Decimal.add (total_commission d) commission) d in
  let d := set_balance_history (balance_history d ++ [balance d]) d in
  let d :=
    set_history
      (history d ++
       [ {| t_trade_id := trade_id current_pos;
            t_ticker := ticker;
            t_action := ActionClose;
            t_lots := lots current_pos;
            t_expected_price := current_price;
            t_execution_price := execution_price;
            t_price := execution_price;
            t_profit := Some profit;
            t_commission := commission;
            t_net_profit := Some net_profit;
            t_margin_released := Some released_margin;
            t_margin_reserved := None;
            t_stop_loss := None;
            t_take_profit := None;
            t_opened_at := opened_at current_pos;
            t_timestamp := now |} ]) d in
  Some (set_positions (delete ticker (positions d)) d).

(** The branch [target_lots != 0]: the ledger after the call, or the two
    amounts of the refusal together with the ledger as the refusal leaves
    it. *)
Definition open_or_resize
    (c : config) (now : datetime) (random_factor : Q) (d : data)
    (ticker : string) (current_pos : position) (target_lots diff_lots : Z)
    (current_price : Q) (stop_loss_ take_profit_ margin_per_lot atr : option Q)
  : option ((Q * Q * data) + data) :=
  let dir := if (target_lots <? 0)%Z then Buy else Sell in
  '(execution_price, d) ←
    _calculate_execution_price c random_factor d ticker current_price
                               target_lots dir atr;
  let margin_per_lot :=
    match margin_per_lot with
    | Some m => m
    | None => Decimal.mul execution_price (1 # 10)
    end in
  let required_margin :=
    Decimal.mul margin_per_lot (inject_Z (Z.abs target_lots)) in
  let available_balance := Decimal.sub (balance d) (used_margin d) in
  if Py.gtb required_margin available_balance
  then Some (inl (required_margin, available_balance, d))
  else
    let turnover :=
      Decimal.abs
        (Decimal.mul execution_price (inject_Z (Z.abs diff_lots))) in
    let commission := Decimal.mul turnover (commission_rate c) in
    let old_margin := margin current_pos in
    let margin_diff := Decimal.sub required_margin old_margin in
    let d :=
      set_balance
        (Decimal.sub (balance d) (Decimal.add margin_diff commission)) d in
    let d := set_used_margin (Decimal.add (used_margin d) margin_diff) d in
    let d :=
      set_total_commission (Decimal.add (total_commission d) commission) d in
    let '(trade_id_, d) :=
      match trade_id current_pos with
      | Some i => (i, d)
      | None => (next_trade_id d, set_next_trade_id (next_trade_id d + 1) d)
      end in
    let opened_at_ :=
      match opened_at current_pos with
      | Some t => t
      | None => now
      end in
    let accumulated_commission_ :=
      Decimal.add (accumulated_commission current_pos) commission in
    let d :=
      set_positions
        (<[ticker :=
            {| lots := target_lots;
               avg_price := execution_price;
               stop_loss := stop_loss_;
               take_profit := take_profit_;
               margin := required_margin;
               trade_id := Some trade_id_;
               opened_at := Some opened_at_;
               accumulated_commission := accumulated_commission_ |}]>
           (positions d)) d in
    Some
      (inr
         (set_history
            (history d ++
             [ {| t_trade_id := Some trade_id_;
                  t_ticker := ticker;
                  t_action := ActionUpdate;
                  t_lots := target_lots;
                  t_expected_price := current_price;
                  t_execution_price := execution_price;
                  t_price := execution_price;
                  t_profit := None;
                  t_commission := commission;
                  t_net_profit := None;
                  t_margin_released := None;
                  t_margin_reserved := Some required_margin;
                  t_stop_loss := if_truthy stop_loss_;
                  t_take_profit := if_truthy take_profit_;
                  t_opened_at := None;
                  t_timestamp := now |} ]) d)).

(** The risk check of [update_position]. *)
Definition risk_check
    (c : config) (now : datetime) (rm : RiskManager.state) (d : data)
    (target_lots : Z) (current_price : Q)
  : option (option RiskManager.reason) * RiskManager.state :=
  match risk_config c with
  | Some rc =>
      if negb (target_lots =? 0)%Z then
        let current_positions_count := Z.of_nat (size (positions d)) in
        let position_value :=
          Decimal.abs
            (Decimal.mul current_price (inject_Z (Z.abs target_lots))) in
        let '((can_open, risk_reason), rm') :=
          RiskManager.can_open_position
            rc (dt_date now) rm (balance d) current_positions_count
            position_value in
        if negb can_open then (Some risk_reason, rm') else (None, rm')
      else (None, rm)
  | None => (None, rm)
  end.

Definition update_position
    (c : config) (now : datetime) (random_factor : Q) (p : t)
    (ticker : string) (target_lots : Z) (current_price : Q)
    (stop_loss_ take_profit_ margin_per_lot atr : option Q)
  : option (outcome * t) :=
  let current_pos := default no_position (positions (self_data p) !! ticker) in
  let diff_lots := (target_lots - lots current_pos)%Z in
  if (diff_lots =? 0)%Z then Some (NoChange, p)
  else
    let '(can_trade, trade_reason) := TradingRestrictions.can_trade now in
    if negb can_trade then Some (TradingForbidden trade_reason, p)
    else
      let '(is_valid_size, size_reason) :=
        TradingRestrictions.validate_position_size target_lots in
      if negb is_valid_size then Some (InvalidSize size_reason, p)
      else
        let d := record_atr (self_data p) ticker atr in
        let '(veto, rm) :=
          risk_check c now (risk_manager p) d target_lots current_price in
        match veto with
        | Some risk_reason =>
            Some (RiskVeto risk_reason,
                  {| self_data := d; risk_manager := rm;
                     storage := storage p |})
        | None =>
            if (target_lots =? 0)%Z then
              d ← close_position c now random_factor d ticker current_pos
                                 current_price atr;
              Some (Closed,
                    _save {| self_data := d; risk_manager := rm;
                             storage := storage p |})
            else
              r ← open_or_resize c now random_factor d ticker current_pos
                                 target_lots diff_lots current_price
                                 stop_loss_ take_profit_ margin_per_lot atr;
              Some match r with
                   | inl (required_margin, available_balance, d) =>
                       (InsufficientFunds required_margin available_balance,
                        {| self_data := d; risk_manager := rm;
                           storage := storage p |})
                   | inr d =>
                       (Updated,
                        _save {| self_data := d; risk_manager := rm;
                                 storage := storage p |})
                   end
        end.

(** The object after the call; an exception leaves it as it was. *)
Definition do_call (c : config) (p : t) (k : call) : t :=
  match
    update_position c (call_now k) (call_random_factor k) p
      (call_ticker k) (call_target_lots k) (call_current_price k)
      (call_stop_loss k) (call_take_profit k) (call_margin_per_lot k)
      (call_atr k)
  with
  | Some (_, p') => p'
  | None => p
  end.

Definition run (c : config) (p : t) (ks : list call) : t :=
  foldl (do_call c) p ks.

(** *** [converters.py] *)

Definition quotation_to_decimal (quotation : option Converters.Quotation) : Q :=
  match quotation with
  | None => 0
  | Some q =>
      Decimal.add (inject_Z (Converters.units q))
                  (Decimal.div (inject_Z (Converters.nano q)) 1000000000)
  end.

Definition decimal_to_quotation (value : Q) : Converters.Quotation :=
  let units_ := Py.int value in
  let nano_ :=
    Py.int (Decimal.mul (Decimal.sub value (inject_Z units_)) 1000000000) in
  {| Converters.units := units_; Converters.nano := nano_ |}.

End InContext.

(** ** Notions used to state the properties *)

Module Spec.
Import VirtualPortfolio.

(** [k] is the integer nearest to [x], the even one of the two when [x] lies
    half-way between them. *)
Definition nearest_even (x : Q) (k : Z) : Prop :=
  Qabs (inject_Z k - x) <= 1 # 2
  /\ (Qabs (inject_Z k - x) == 1 # 2 -> Z.even k = true).

(** The wording "rounded up to the nearest multiple of the tick size": the
    least multiple of [tick] that is not below [amount]. *)
Definition round_up_to_tick (amount tick : Q) : Q :=
  inject_Z (Qceiling (amount / tick)) * tick.

(** [d'] is [d] except, possibly, for the two cost counters that
    [_calculate_execution_price] advances. *)
Definition same_but_costs (d d' : data) : Prop :=
  d' = set_total_slippage_cost (total_slippage_cost d')
         (set_total_spread_cost (total_spread_cost d') d).

(** The ledger fields other than the two cost counters and the ATR
    history are the same in [d] and [d']. *)
Definition core_unchanged (d d' : data) : Prop :=
  balance d' = balance d
  /\ initial_balance d' = initial_balance d
  /\ positions d' = positions d
  /\ history d' = history d
  /\ used_margin d' = used_margin d
  /\ total_commission d' = total_commission d
  /\ next_trade_id d' = next_trade_id d
  /\ balance_history d' = balance_history d.

(** Every stored position has lots, an opening time and a trade id that was
    handed out (it is below [next_trade_id]), and no two tickers share a
    trade id. *)
Definition positions_well_formed (d : data) : Prop :=
  (1 <= next_trade_id d)%Z
  /\ (forall k x,
        positions d !! k = Some x ->
        lots x <> 0%Z
        /\ is_Some (opened_at x)
        /\ exists i, trade_id x = Some i /\ (1 <= i < next_trade_id d)%Z)
  /\ (forall k1 k2 x1 x2,
        positions d !! k1 = Some x1 ->
        positions d !! k2 = Some x2 ->
        trade_id x1 = trade_id x2 ->
        k1 = k2).

(** A position as [_load] reads it back from what [_save] wrote for it. *)
Definition reloaded (v : views) (x : position) : position :=
  {| lots := as_int v (JInt (lots x));
     avg_price := avg_price x;
     stop_loss := if_truthy (stop_loss x);
     take_profit := if_truthy (take_profit x);
     margin := margin x;
     trade_id := as_optional_int v (Json.of_optional_int (trade_id x));
     opened_at := as_optional_time v (Json.of_optional_time (opened_at x));
     accumulated_commission := accumulated_commission x |}.

(** The views read an integer, an optional integer and an optional time as
    [_save] wrote them. *)
Definition views_read_back (v : views) : Prop :=
  (forall z, as_int v (JInt z) = z)
  /\ (forall o, as_optional_int v (Json.of_optional_int o) = o)
  /\ (forall o, as_optional_time v (Json.of_optional_time o) = o).

(** A position with a stop-loss or take-profit level of zero taken as no
    level, and every other field as it is. *)
Definition without_zero_levels (x : position) : position :=
  {| lots := lots x;
     avg_price := avg_price x;
     stop_loss := if_truthy (stop_loss x);
     take_profit := if_truthy (take_profit x);
     margin := margin x;
     trade_id := trade_id x;
     opened_at := opened_at x;
     accumulated_commission := accumulated_commission x |}.

(** What the loop of [calculate_max_drawdown] keeps true: the recorded value
    is the recorded peak minus the recorded trough, and nothing is
    negative. *)
Definition drawdown_consistent (st : PerformanceMetrics.drawdown_state)
  : Prop :=
  PerformanceMetrics.dd_max_dd_value st
  == PerformanceMetrics.dd_peak_value st
     - PerformanceMetrics.dd_trough_value st
  /\ 0 <= PerformanceMetrics.dd_max_dd st
  /\ 0 <= PerformanceMetrics.dd_max_dd_value st.

(** The moves that the status of an order can make in one call: none,
    pending to ready or to cancelled, ready to executed. *)
Definition status_step (a b : OrderExecutionSimulator.order_status) : Prop :=
  a = b
  \/ (a = OrderExecutionSimulator.Pending
      /\ (b = OrderExecutionSimulator.Ready
          \/ b = OrderExecutionSimulator.Cancelled))
  \/ (a = OrderExecutionSimulator.Ready
      /\ b = OrderExecutionSimulator.Executed).

(** [o'] is the order [o] later on: what was fixed at creation is the same,
    and the status has made a permitted move. *)
Definition order_evolves (o o' : OrderExecutionSimulator.PendingOrder) : Prop :=
  OrderExecutionSimulator.o_order_id o' = OrderExecutionSimulator.o_order_id o
  /\ OrderExecutionSimulator.o_ticker o' = OrderExecutionSimulator.o_ticker o
  /\ OrderExecutionSimulator.o_target_lots o'
     = OrderExecutionSimulator.o_target_lots o
  /\ OrderExecutionSimulator.o_expected_price o'
     = OrderExecutionSimulator.o_expected_price o
  /\ OrderExecutionSimulator.o_created_at o'
     = OrderExecutionSimulator.o_created_at o
  /\ OrderExecutionSimulator.o_execute_at o'
     = OrderExecutionSimulator.o_execute_at o
  /\ status_step (OrderExecutionSimulator.o_status o)
                 (OrderExecutionSimulator.o_status o').

(** The counter of every stored order was handed out: it lies between 1 and
    [order_counter]. *)
Definition ids_bounded (s : OrderExecutionSimulator.t) : Prop :=
  Forall
    (fun o =>
       (1 <= OrderExecutionSimulator.oid_counter
               (OrderExecutionSimulator.o_order_id o)
        <= OrderExecutionSimulator.order_counter s)%Z)
    (OrderExecutionSimulator.pending_orders s).




End Spec.

(** ** Concrete inputs *)

Module Scenario.

(** Tuesday 4 March 2025. *)
Definition a_day : date := {| year := 2025; month := 3; day := 4 |}.

(** 12:00:00 on that day: a trading day, inside the trading hours. *)
Definition noon : datetime :=
  {| dt_date := a_day; dt_weekday := 1; dt_hour := 12; dt_minute := 0;
     dt_second := 0; dt_microsecond := 0 |}.

(** 12:00:00 on the Saturday after. *)
Definition saturday_noon : datetime :=
  {| dt_date := {| year := 2025; month := 3; day := 8 |};
     dt_weekday := 5; dt_hour := 12; dt_minute := 0;
     dt_second := 0; dt_microsecond := 0 |}.

(** [ACTIVE_CONFIG], which is [TradingConfig]. *)
Definition active_config : VirtualPortfolio.config :=
  {| VirtualPortfolio.cfg_initial_balance := 200000;
     VirtualPortfolio.commission_rate := 0.0005;
     VirtualPortfolio.slippage_simulator :=
       Some (SlippageSimulator.make_config 0.02 0.01 2 0.5);
     VirtualPortfolio.spread_calculator :=
       Some (SpreadCalculator.make_config 0.03 1.5 0.01 0.1);
     VirtualPortfolio.risk_config :=
       Some (RiskManager.make_config 20 2 5 5 25) |}.

(** The configuration of the scenario of the specification: spread and
    slippage disabled, commission rate 0.0005, initial balance 200000; the
    risk manager at its active settings or disabled. *)
Definition scenario_config (risk_enabled : bool) : VirtualPortfolio.config :=
  {| VirtualPortfolio.cfg_initial_balance := 200000;
     VirtualPortfolio.commission_rate := 0.0005;
     VirtualPortfolio.slippage_simulator := None;
     VirtualPortfolio.spread_calculator := None;
     VirtualPortfolio.risk_config :=
       if risk_enabled then Some (RiskManager.make_config 20 2 5 5 25)
       else None |}.

(** Views that read a JSON integer as that integer, a JSON time as that
    time and [null] as [None]; the history and the two float logs are read
    as empty. *)
Definition plain_views : VirtualPortfolio.views :=
  {| VirtualPortfolio.as_int :=
       fun j => match j with JInt z => z | _ => 0%Z end;
     VirtualPortfolio.as_optional_int :=
       fun j => match j with JInt z => Some z | _ => None end;
     VirtualPortfolio.as_optional_time :=
       fun j => match j with JTime t => Some t | _ => None end;
     VirtualPortfolio.as_history := fun _ => [];
     VirtualPortfolio.as_balance_history := fun _ => [];
     VirtualPortfolio.as_atr_history := fun _ => ∅ |}.

Section Binary64.
Import PrimFloat.

(** The returns 0.1, 0.1, 0.1. *)
#[warnings="-inexact-float"]
Definition constant_returns : list float := [0.1; 0.1; 0.1]%float.

(** The mean and the sample standard deviation by the two-pass formulas,
    evaluated in binary64 with the sums taken in order. *)
Definition two_pass_mean (l : list float) : float :=
  match PerformanceMetrics.float_of_int (Z.of_nat (length l)) with
  | Some n => (foldl add 0 l / n)%float
  | None => nan
  end.

Definition two_pass_std (l : list float) : float :=
  let m := two_pass_mean l in
  match PerformanceMetrics.float_of_int (Z.of_nat (length l) - 1) with
  | Some n =>
      sqrt (foldl add 0 (map (fun x => (x - m) * (x - m)) l) / n)%float
  | None => nan
  end.

End Binary64.

(** A call of [update_position] at noon, with a random factor of 1 and no
    stop-loss, take-profit or ATR. *)
Definition call_at_noon (ticker : string) (target_lots : Z) (price : Q)
    (margin_per_lot : option Q) : VirtualPortfolio.call :=
  {| VirtualPortfolio.call_now := noon;
     VirtualPortfolio.call_random_factor := 1;
     VirtualPortfolio.call_ticker := ticker;
     VirtualPortfolio.call_target_lots := target_lots;
     VirtualPortfolio.call_current_price := price;
     VirtualPortfolio.call_stop_loss := None;
     VirtualPortfolio.call_take_profit := None;
     VirtualPortfolio.call_margin_per_lot := margin_per_lot;
     VirtualPortfolio.call_atr := None |}.

(** The two calls of the scenario of the specification. *)
Definition scenario_calls : list VirtualPortfolio.call :=
  [ call_at_noon "SBER" (-2) 100 (Some 10);
    call_at_noon "SBER" 0 110 (Some 10) ].



(** A closing record with a net profit of 19.89. *)
Definition winning_trade : trade :=
  {| t_trade_id := Some 1%Z;
     t_ticker := "SBER";
     t_action := ActionClose;
     t_lots := 2;
     t_expected_price := 100;
     t_execution_price := 100;
     t_price := 100;
     t_profit := Some 20;
     t_commission := 0.11;
     t_net_profit := Some 19.89;
     t_margin_released := Some 20;
     t_margin_reserved := None;
     t_stop_loss := None;
     t_take_profit := None;
     t_opened_at := Some noon;
     t_timestamp := noon |}.

(** An order for [-2] lots at 100, created at second 1000 with a delay of 2
    seconds, as [create_order] stores it. *)
Definition first_order : OrderExecutionSimulator.PendingOrder :=
  OrderExecutionSimulator.Order
    {| OrderExecutionSimulator.oid_counter := 1;
       OrderExecutionSimulator.oid_second := 1000 |}
    "SBER" (-2) 100 None None None 1000 (1000 + 2)
    OrderExecutionSimulator.DirBuy OrderExecutionSimulator.Pending
    None None None.

(** A simulator with the defaults of [__init__] after one order for
    [-2] lots at 100, created at second 1000 with a delay of 2 seconds. *)
Definition one_order : OrderExecutionSimulator.t :=
  snd (OrderExecutionSimulator.create_order
         (OrderExecutionSimulator.__init__ 1 3 1) 1000 2 "SBER" (-2) 100
         None None None).

End Scenario.

(** * Properties *)

(** ** Comparisons *)

Module PyFacts.

Lemma ltb_lt a b : Py.ltb a b = true <-> a < b.
Proof.
  unfold Py.ltb. rewrite negb_true_iff.
  destruct (Qle_bool b a) eqn:E.
  - apply Qle_bool_iff in E. split; [discriminate | intros H; lra].
  - split; [intros _ | reflexivity].
    apply Qnot_le_lt. intros H. apply Qle_bool_iff in H. congruence.
Qed.

Lemma ltb_ge a b : Py.ltb a b = false <-> b <= a.
Proof. unfold Py.ltb. rewrite negb_false_iff. apply Qle_bool_iff. Qed.

Lemma gtb_gt a b : Py.gtb a b = true <-> b < a.
Proof. apply ltb_lt. Qed.

Lemma gtb_le a b : Py.gtb a b = false <-> a <= b.
Proof. apply ltb_ge. Qed.

Lemma leb_le a b : Py.leb a b = true <-> a <= b.
Proof. apply Qle_bool_iff. Qed.

Lemma geb_ge a b : Py.geb a b = true <-> b <= a.
Proof. apply Qle_bool_iff. Qed.

Lemma geb_lt a b : Py.geb a b = false <-> a < b.
Proof.
  unfold Py.geb. destruct (Qle_bool b a) eqn:E.
  - apply Qle_bool_iff in E. split; [discriminate | intros H; lra].
  - split; [intros _ | reflexivity].
    apply Qnot_le_lt. intros H. apply Qle_bool_iff in H. congruence.
Qed.

Lemma eqb_eq a b : Py.eqb a b = true <-> a == b.
Proof. apply Qeq_bool_iff. Qed.

Lemma min_cases a b :
  (b < a /\ Py.min a b = b) \/ (a <= b /\ Py.min a b = a).
Proof.
  unfold Py.min. destruct (Py.ltb b a) eqn:E.
  - left. split; [by apply ltb_lt | done].
  - right. split; [by apply ltb_ge | done].
Qed.

Lemma max_cases a b :
  (a < b /\ Py.max a b = b) \/ (b <= a /\ Py.max a b = a).
Proof.
  unfold Py.max, Py.gtb. destruct (Py.ltb a b) eqn:E.
  - left. split; [by apply ltb_lt | done].
  - right. split; [by apply ltb_ge | done].
Qed.

Lemma sum_app l1 l2 : Py.sum (l1 ++ l2) == Py.sum l1 + Py.sum l2.
Proof.
  induction l1 as [|x l1 IH]; simpl.
  - lra.
  - unfold Py.sum in *. simpl. rewrite IH. lra.
Qed.


Lemma int_nonneg x : 0 <= x -> Py.int x = Qfloor x.
Proof.
  destruct x as [n d]. unfold Qle, Py.int. simpl. intros H.
  apply Z.quot_div_nonneg; lia.
Qed.

Lemma int_opp x : Py.int (- x) = (- Py.int x)%Z.
Proof.
  destruct x as [n d]. unfold Py.int. simpl. by apply Z.quot_opp_l.
Qed.

Lemma Qfloor_unique x k :
  inject_Z k <= x -> x < inject_Z k + 1 -> Qfloor x = k.
Proof.
  intros H1 H2.
  pose proof (Qfloor_le x) as Hlo. pose proof (Qlt_floor x) as Hhi.
  rewrite inject_Z_plus in Hhi. change (inject_Z 1) with 1 in Hhi.
  assert (inject_Z (Qfloor x) < inject_Z (k + 1)) as Ha
    by (rewrite inject_Z_plus; change (inject_Z 1) with 1; lra).
  assert (inject_Z k < inject_Z (Qfloor x + 1)) as Hb
    by (rewrite inject_Z_plus; change (inject_Z 1) with 1; lra).
  rewrite <- Zlt_Qlt in Ha, Hb. lia.
Qed.

Lemma int_unique_nonneg x k :
  (0 <= k)%Z -> inject_Z k <= x -> x < inject_Z k + 1 -> Py.int x = k.
Proof.
  intros Hk H1 H2. rewrite int_nonneg; [by apply Qfloor_unique|].
  rewrite Zle_Qle in Hk. change (inject_Z 0) with 0 in Hk. lra.
Qed.

Lemma int_unique_nonpos x k :
  (k <= 0)%Z -> x <= inject_Z k -> inject_Z k - 1 < x -> Py.int x = k.
Proof.
  intros Hk H1 H2.
  assert (Py.int (- x) = (- k)%Z) as H.
  { apply int_unique_nonneg; [lia| |]; rewrite inject_Z_opp; lra. }
  rewrite int_opp in H. lia.
Qed.

Lemma int_inject_Z x k : x == inject_Z k -> Py.int x = k.
Proof.
  intros H. destruct (Z.le_ge_cases 0 k).
  - apply int_unique_nonneg; [done|lra|lra].
  - apply int_unique_nonpos; [done|lra|lra].
Qed.

Lemma int_bounds_nonneg x :
  0 <= x ->
  (0 <= Py.int x)%Z /\ inject_Z (Py.int x) <= x /\ x < inject_Z (Py.int x) + 1.
Proof.
  intros H. rewrite int_nonneg by done.
  pose proof (Qfloor_le x) as Hlo. pose proof (Qlt_floor x) as Hhi.
  rewrite inject_Z_plus in Hhi. change (inject_Z 1) with 1 in Hhi.
  split; [|split; [done|lra]].
  apply (Qfloor_resp_le 0 x) in H. exact H.
Qed.

Lemma int_bounds_nonpos x :
  x <= 0 ->
  (Py.int x <= 0)%Z /\ x <= inject_Z (Py.int x) /\ inject_Z (Py.int x) - 1 < x.
Proof.
  intros H.
  destruct (int_bounds_nonneg (- x)) as (H1 & H2 & H3); [lra|].
  rewrite int_opp in H1, H2, H3. rewrite inject_Z_opp in H2, H3.
  split; [lia|]. split; lra.
Qed.

End PyFacts.

(** ** The risk manager *)

Module RiskManagerFacts.
Import RiskManager Scenario.

(** [update_peak_balance] never lowers the watermark. *)
Lemma update_peak_balance_mono s b :
  peak_balance s <= peak_balance (update_peak_balance s b).
Proof.
  unfold update_peak_balance.
  destruct (Py.gtb b (peak_balance s)) eqn:E; simpl.
  - apply PyFacts.gtb_gt in E. lra.
  - lra.
Qed.

Lemma reset_daily_tracking_peak t s b :
  peak_balance (reset_daily_tracking t s b) = peak_balance s.
Proof.
  unfold reset_daily_tracking.
  by destruct (match daily_reset_date s with
               | Some d => negb (date_eqb d t) | None => true end).
Qed.

Lemma check_daily_loss_limit_peak c t s b :
  peak_balance (snd (check_daily_loss_limit c t s b)) = peak_balance s.
Proof.
  unfold check_daily_loss_limit.
  destruct (Py.leb _ _); simpl; apply reset_daily_tracking_peak.
Qed.

(** [can_open_position] leaves the watermark as it found it: the method
    holds no call of [update_peak_balance]. *)
Lemma can_open_position_peak c t s b n v :
  peak_balance (snd (can_open_position c t s b n v)) = peak_balance s.
Proof.
  unfold can_open_position.
  destruct (check_max_drawdown c s b) as [[] r]; simpl; [|done].
  pose proof (check_daily_loss_limit_peak c t s b) as Hd.
  destruct (check_daily_loss_limit c t s b) as [[[] r1] s1]; simpl in *;
    [|done].
  destruct (check_position_count c n) as [[] r2]; simpl; [|done].
  by destruct (validate_position_size c b v) as [[] r3].
Qed.

(** The watermark never decreases, whatever is called. *)
Lemma step_peak_mono c s k :
  peak_balance s <= peak_balance (step c s k).
Proof.
  destruct k; simpl.
  - apply update_peak_balance_mono.
  - rewrite reset_daily_tracking_peak. lra.
  - rewrite check_daily_loss_limit_peak. lra.
  - rewrite can_open_position_peak. lra.
  - lra.
  - unfold get_risk_status. rewrite reset_daily_tracking_peak.
    apply update_peak_balance_mono.
Qed.

Lemma run_peak_mono c ks : forall s,
  peak_balance s <= peak_balance (run c s ks).
Proof.
  unfold run. induction ks as [|k ks IH]; intros s; simpl.
  - lra.
  - eapply Qle_trans; [apply (step_peak_mono c s k) | apply IH].
Qed.

(** The verdict of [can_open_position] does not read [trading_paused] or
    [pause_reason]: it is the same on the state that [resume_trading]
    returns. *)
Lemma can_open_position_ignores_pause c t s b n v :
  fst (can_open_position c t (resume_trading s) b n v)
  = fst (can_open_position c t s b n v).
Proof.
  unfold can_open_position, check_max_drawdown, calculate_drawdown,
    check_daily_loss_limit, calculate_daily_pnl, reset_daily_tracking.
  simpl.
  destruct (Py.geb _ (max_drawdown c)); simpl; [done|].
  destruct (match daily_reset_date s with
            | Some d => negb (date_eqb d t) | None => true end); simpl.
  - destruct (Py.leb _ _); simpl; [done|].
    destruct (check_position_count c n) as [[] ?]; simpl; [|done].
    by destruct (validate_position_size c b v) as [[] ?].
  - destruct s as [pk ds dr tp pr]; simpl.
    destruct (Py.leb _ _); simpl; [done|].
    destruct (check_position_count c n) as [[] ?]; simpl; [|done].
    by destruct (validate_position_size c b v) as [[] ?].
Qed.

(** C3 (the code does otherwise).  After the watermark stands at 100, a call
    with balance 70 is at or below 100 × (1 − 0.2) and is refused, and the
    risk manager is flagged as paused.  With no [resume_trading] in
    between, the next call, with the balance back at 100, is accepted: the
    flag is set but never read. *)
Theorem can_open_position_not_sticky :
  let c := default_config in
  let s0 := update_peak_balance init 100 in
  let r1 := can_open_position c a_day s0 70 0 0 in
  let r2 := can_open_position c a_day (snd r1) 100 0 0 in
  70 <= peak_balance s0 * (1 - max_drawdown c)
  /\ fst (fst r1) = false
  /\ trading_paused (snd r1) = true
  /\ fst (fst r2) = true
  /\ trading_paused (snd r2) = true.
Proof.
  cbv zeta. split; [|by vm_compute]. vm_compute. discriminate.
Qed.

(** C5 (the code does otherwise).  On a new risk manager a call of
    [can_open_position] with balance 100 leaves the watermark at 0, so that
    the drawdown check of a later call with balance 50 passes. *)
Theorem can_open_position_does_not_update_peak :
  let c := default_config in
  let r1 := can_open_position c a_day init 100 0 0 in
  fst (fst r1) = true
  /\ peak_balance (snd r1) = 0
  /\ fst (check_max_drawdown c (snd r1) 50) = true.
Proof. by vm_compute. Qed.


(** *** Further properties of the risk manager *)

Lemma date_eqb_refl d : date_eqb d d = true.
Proof. unfold date_eqb. by rewrite !Z.eqb_refl. Qed.

Lemma run_app c s ks1 ks2 : run c s (ks1 ++ ks2) = run c (run c s ks1) ks2.
Proof. unfold run. apply foldl_app. Qed.

(** X1.  The watermark only moves up over time: along any sequence of calls
    on a risk manager, the peak balance after a longer prefix of the calls
    is at least the peak balance after a shorter one. *)
Theorem peak_balance_monotone_along_run c s ks1 ks2 :
  peak_balance (run c s ks1) <= peak_balance (run c s (ks1 ++ ks2)).
Proof.
  rewrite run_app. generalize (run c s ks1). clear s ks1.
  unfold run. induction ks2 as [|k ks IH]; intros s; simpl.
  - lra.
  - eapply Qle_trans; [apply (step_peak_mono c s k) | apply IH].
Qed.

(** X2.  [can_open_position] accepts exactly when the four limits hold: the
    drawdown from the peak is below its maximum, the day's loss (against
    the baseline as [reset_daily_tracking] leaves it) is above the daily
    limit, the number of positions is below its maximum, and the position
    value is at most the allowed share of the balance. *)
Theorem can_open_position_accepts_iff c t s b n v :
  fst (fst (can_open_position c t s b n v)) = true
  <-> calculate_drawdown s b < max_drawdown c
      /\ - daily_loss_limit c
         < calculate_daily_pnl (reset_daily_tracking t s b) b
      /\ (n < max_positions c)%Z
      /\ v <= b * max_position_size c.
Proof.
  unfold can_open_position, check_max_drawdown, check_daily_loss_limit,
    check_position_count, validate_position_size.
  destruct (Py.geb (calculate_drawdown s b) (max_drawdown c)) eqn:E1; simpl.
  { apply PyFacts.geb_ge in E1. split; [done|]. intros (H & _). lra. }
  apply PyFacts.geb_lt in E1.
  destruct (Py.leb _ (- daily_loss_limit c)) eqn:E2; simpl.
  { apply PyFacts.leb_le in E2. split; [done|]. intros (_ & H & _). lra. }
  assert (- daily_loss_limit c
          < calculate_daily_pnl (reset_daily_tracking t s b) b) as H2.
  { apply Qnot_le_lt. intros H. apply PyFacts.leb_le in H. congruence. }
  destruct (n >=? max_positions c)%Z eqn:E3; simpl.
  { apply Z.geb_le in E3. split; [done|]. intros (_ & _ & H & _). lia. }
  assert (n < max_positions c)%Z as H3.
  { destruct (Z.ltb_spec n (max_positions c)) as [|Hge]; [done|].
    apply Z.geb_le in Hge. congruence. }
  destruct (Py.gtb v (b * max_position_size c)) eqn:E4; simpl.
  { apply PyFacts.gtb_gt in E4. split; [done|]. intros (_ & _ & _ & H). lra. }
  apply PyFacts.gtb_le in E4. done.
Qed.

(** X3.  A refusal for drawdown or for the daily loss pauses trading and
    stores its reason; any other outcome of [can_open_position] (an
    acceptance, a refusal for the number or the size of positions) leaves
    the pause flag and its reason as they were. *)
Theorem can_open_position_pause_flag c t s b n v :
  let r := can_open_position c t s b n v in
  match snd (fst r) with
  | Some (DrawdownExceeded _ _) | Some (DailyLossExceeded _ _) =>
      fst (fst r) = false
      /\ trading_paused (snd r) = true
      /\ pause_reason (snd r) = snd (fst r)
  | _ =>
      trading_paused (snd r) = trading_paused s
      /\ pause_reason (snd r) = pause_reason s
  end.
Proof.
  cbv zeta.
  unfold can_open_position, check_max_drawdown, check_daily_loss_limit,
    check_position_count, validate_position_size.
  destruct (Py.geb _ (max_drawdown c)); simpl; [done|].
  assert (trading_paused (reset_daily_tracking t s b) = trading_paused s
          /\ pause_reason (reset_daily_tracking t s b) = pause_reason s)
    as Hreset.
  { unfold reset_daily_tracking.
    by destruct (match daily_reset_date s with
                 | Some d => negb (date_eqb d t) | None => true end). }
  destruct (Py.leb _ (- daily_loss_limit c)); simpl; [done|].
  destruct (n >=? max_positions c)%Z; simpl; [done|].
  by destruct (Py.gtb v _).
Qed.

(** X4.  The daily baseline is captured once per day: after a reset on a
    day, a further reset on the same day changes nothing, whatever the
    balance passed. *)
Theorem reset_daily_tracking_once_per_day t s b1 b2 :
  reset_daily_tracking t (reset_daily_tracking t s b1) b2
  = reset_daily_tracking t s b1.
Proof.
  unfold reset_daily_tracking.
  destruct (daily_reset_date s) as [d|] eqn:Ed; simpl.
  - destruct (date_eqb d t) eqn:E; simpl.
    + by rewrite Ed, E.
    + by rewrite date_eqb_refl.
  - by rewrite date_eqb_refl.
Qed.

(** X5.  With a positive daily limit, the first daily-loss check of a day
    passes whatever the balance is: the baseline becomes the balance of the
    call, so the day's loss is zero. *)
Theorem first_daily_check_passes c t s b :
  0 < daily_loss_limit c ->
  (daily_reset_date s = None
   \/ exists d, daily_reset_date s = Some d /\ date_eqb d t = false) ->
  fst (check_daily_loss_limit c t s b) = (true, None)
  /\ daily_start_balance (snd (check_daily_loss_limit c t s b)) = b
  /\ daily_reset_date (snd (check_daily_loss_limit c t s b)) = Some t.
Proof.
  intros Hlimit Hday.
  assert (reset_daily_tracking t s b
          = {| peak_balance := peak_balance s;
               daily_start_balance := b;
               daily_reset_date := Some t;
               trading_paused := trading_paused s;
               pause_reason := pause_reason s |}) as Hreset.
  { unfold reset_daily_tracking.
    destruct Hday as [-> | (d & -> & ->)]; done. }
  unfold check_daily_loss_limit. rewrite Hreset.
  unfold calculate_daily_pnl. simpl.
  assert (Py.leb (if Py.eqb b 0 then 0 else (b - b) / b)
                 (- daily_loss_limit c) = false) as ->; [|done].
  destruct (Py.leb _ _) eqn:E; [|done]. apply PyFacts.leb_le in E.
  destruct (Py.eqb b 0) eqn:Eb.
  - lra.
  - assert ((b - b) / b == 0) as H0.
    { unfold Qdiv. ring. }
    rewrite H0 in E. lra.
Qed.

Lemma first_daily_check_passes_witness :
  fst (check_daily_loss_limit default_config a_day init 150000) = (true, None)
  /\ daily_start_balance
       (snd (check_daily_loss_limit default_config a_day init 150000))
     = 150000
  /\ daily_reset_date
       (snd (check_daily_loss_limit default_config a_day init 150000))
     = Some a_day.
Proof.
  apply (first_daily_check_passes default_config a_day init 150000).
  - by vm_compute.
  - by left.
Defined.

(** X6.  [calculate_position_size] never proposes less than one lot, and
    with a cap [max_lots] never more than the cap (or than one lot, when
    the cap is below one).  It raises exactly when there is no stop-loss
    (none, or a zero one) and the entry price is zero. *)
Theorem calculate_position_size_bounds c balance entry_price sl max_lots :
  (forall n,
     calculate_position_size c balance entry_price sl max_lots = Some n ->
     (1 <= n)%Z /\ forall m, max_lots = Some m -> (n <= Z.max 1 m)%Z)
  /\ (calculate_position_size c balance entry_price sl max_lots = None
      <-> entry_price == 0
          /\ (sl = None \/ exists x, sl = Some x /\ x == 0)).
Proof.
  unfold calculate_position_size. split.
  - intros n Hn.
    destruct (if match sl with None => true | Some x => Py.eqb x 0 end
              then _ else _) as [lots|]; simpl in Hn; [|done].
    injection Hn as <-. split; [lia|].
    intros m ->. lia.
  - destruct sl as [x|]; simpl.
    + destruct (Py.eqb x 0) eqn:Ex.
      * destruct (Py.eqb entry_price 0) eqn:Ee; simpl.
        -- split; [intros _|done]. split; [by apply PyFacts.eqb_eq|].
           right. exists x. split; [done|by apply PyFacts.eqb_eq].
        -- split; [done|]. intros [He _]. apply PyFacts.eqb_eq in He.
           congruence.
      * destruct (Py.gtb _ 0); simpl.
        -- split; [done|]. intros [_ [|(y & [= <-] & Hy)]]; [done|].
           apply PyFacts.eqb_eq in Hy. congruence.
        -- split; [done|]. intros [_ [|(y & [= <-] & Hy)]]; [done|].
           apply PyFacts.eqb_eq in Hy. congruence.
    + destruct (Py.eqb entry_price 0) eqn:Ee; simpl.
      * split; [intros _|done]. split; [by apply PyFacts.eqb_eq|by left].
      * split; [done|]. intros [He _]. apply PyFacts.eqb_eq in He.
        congruence.
Qed.

Lemma calculate_position_size_bounds_witness :
  calculate_position_size default_config 200000 100 (Some 95) (Some 10%Z)
  = Some 10%Z
  /\ (1 <= 10)%Z /\ (10 <= Z.max 1 10)%Z.
Proof.
  assert (calculate_position_size default_config 200000 100 (Some 95)
                                  (Some 10%Z) = Some 10%Z) as H
    by (by vm_compute).
  split; [done|].
  destruct (calculate_position_size_bounds
              default_config 200000 100 (Some 95) (Some 10%Z)) as [Hb _].
  destruct (Hb 10%Z H) as [H1 H2]. split; [done|]. by apply H2.
Defined.

End RiskManagerFacts.

(** ** Trading restrictions *)

Module TradingRestrictionsFacts.
Import TradingRestrictions.

Lemma is_trading_day_iff dt :
  fst (is_trading_day dt) = true
  <-> (dt_weekday dt < 5)%Z
      /\ ~ In (month (dt_date dt), day (dt_date dt)) HOLIDAYS.
Proof.
  unfold is_trading_day. generalize HOLIDAYS. intros hs.
  destruct (dt_weekday dt >=? 5)%Z eqn:Ew; cbn [fst].
  { apply Z.geb_le in Ew. split; [done|]. intros (H & _). lia. }
  assert (dt_weekday dt < 5)%Z as Hw.
  { destruct (Z.ltb_spec (dt_weekday dt) 5) as [|Hge]; [done|].
    apply Z.geb_le in Hge. congruence. }
  match goal with |- context [existsb ?f hs] =>
    destruct (existsb f hs) eqn:Eh end; cbn [fst].
  - apply existsb_exists in Eh as ([m d] & Hin & Hmd). cbn [fst snd] in Hmd.
    apply andb_prop in Hmd as [Hm Hd].
    apply Z.eqb_eq in Hm, Hd. subst.
    split; [done|]. intros (_ & H). done.
  - split; [intros _|done]. split; [done|].
    intros Hin. apply not_true_iff_false in Eh. apply Eh.
    apply existsb_exists. eexists. split; [exact Hin|].
    cbn [fst snd]. by rewrite !Z.eqb_refl.
Qed.

Lemma is_trading_hours_iff dt :
  fst (is_trading_hours dt) = true
  <-> (time 10 0 <= time_of dt <= time 23 50)%Z
      /\ ~ (time 14 0 <= time_of dt <= time 14 5)%Z
      /\ ~ (time 18 45 <= time_of dt <= time 19 0)%Z.
Proof.
  unfold is_trading_hours, TRADING_START, TRADING_END, CLEARING_WINDOWS.
  set (now := time_of dt).
  destruct (now <? time 10 0)%Z eqn:E1; cbn [fst].
  { apply Z.ltb_lt in E1. split; [done|]. intros (H & _). lia. }
  apply Z.ltb_ge in E1.
  destruct (now >? time 23 50)%Z eqn:E2; cbn [fst].
  { apply Z.gtb_lt in E2. split; [done|]. intros (H & _). lia. }
  assert (now <= time 23 50)%Z as H2.
  { destruct (Z.leb_spec now (time 23 50)) as [|Hgt]; [done|].
    apply Z.gtb_lt in Hgt. congruence. }
  cbn [List.find fst snd].
  destruct ((time 14 0 <=? now)%Z && (now <=? time 14 5)%Z) eqn:E3;
    cbn [fst].
  { apply andb_prop in E3 as [Ha Hb]. apply Z.leb_le in Ha, Hb.
    split; [done|]. intros (_ & H & _). exfalso. apply H. lia. }
  destruct ((time 18 45 <=? now)%Z && (now <=? time 19 0)%Z) eqn:E4;
    cbn [fst].
  { apply andb_prop in E4 as [Ha Hb]. apply Z.leb_le in Ha, Hb.
    split; [done|]. intros (_ & _ & H). exfalso. apply H. lia. }
  split; [intros _|done].
  split; [done|]. split.
  - intros [Ha Hb]. apply Z.leb_le in Ha, Hb. by rewrite Ha, Hb in E3.
  - intros [Ha Hb]. apply Z.leb_le in Ha, Hb. by rewrite Ha, Hb in E4.
Qed.

(** X7.  [can_trade] allows trading exactly on Monday to Friday, outside
    the listed holidays, from 10:00:00 to 23:50:00 (both ends included),
    and outside the two clearing windows 14:00 to 14:05 and 18:45 to 19:00
    (both ends of each included). *)
Theorem can_trade_iff dt :
  fst (can_trade dt) = true
  <-> (dt_weekday dt < 5)%Z
      /\ ~ In (month (dt_date dt), day (dt_date dt)) HOLIDAYS
      /\ (time 10 0 <= time_of dt <= time 23 50)%Z
      /\ ~ (time 14 0 <= time_of dt <= time 14 5)%Z
      /\ ~ (time 18 45 <= time_of dt <= time 19 0)%Z.
Proof.
  pose proof (is_trading_day_iff dt) as Hd.
  pose proof (is_trading_hours_iff dt) as Hh.
  unfold can_trade.
  destruct (is_trading_day dt) as [[] r1], (is_trading_hours dt) as [[] r2];
    cbn [fst negb] in *; tauto.
Qed.

End TradingRestrictionsFacts.

(** ** Slippage *)

Module SlippageFacts.
Import SlippageSimulator.

(** With parameters that are not negative, the relative slippage before the
    random factor is not negative. *)
Lemma capped_slippage_nonneg c lots atr avg_atr :
  0 <= base_slippage c -> 0 <= volume_factor c ->
  0 <= volatility_multiplier c -> 0 <= max_slippage c ->
  0 <= capped_slippage c lots atr avg_atr.
Proof.
  intros Hb Hv Hm Hx. unfold capped_slippage.
  assert (0 <= inject_Z (Z.abs lots / 10) * volume_factor c) as Hvol.
  { apply Qmult_le_0_compat; [|done].
    change 0 with (inject_Z 0). rewrite <- Zle_Qle.
    apply Z.div_pos; lia. }
  match goal with |- 0 <= Py.min ?x _ => assert (0 <= x) as Hs end.
  { destruct atr as [a|], avg_atr as [g|]; try lra.
    destruct (Py.gtb g 0); [|lra].
    destruct (Py.gtb (a / g) 1) eqn:E; [|lra].
    apply PyFacts.gtb_gt in E.
    assert (0 <= (a / g - 1) * base_slippage c * volatility_multiplier c).
    { apply Qmult_le_0_compat; [|done].
      apply Qmult_le_0_compat; [lra|done]. }
    lra. }
  match goal with |- 0 <= Py.min ?x ?y =>
    destruct (PyFacts.min_cases x y) as [[_ ->]|[_ ->]]; done end.
Qed.

(** C6.  For a positive expected price, parameters that are not negative
    and a random factor between 0.8 and 1.2, a buy is filled at or above the
    expected price and a sell at or below it, whatever the lots and the
    ATR context. *)
Theorem calculate_slippage_adverse c random_factor p lots atr avg_atr :
  0 <= base_slippage c -> 0 <= volume_factor c ->
  0 <= volatility_multiplier c -> 0 <= max_slippage c ->
  0.8 <= random_factor -> random_factor <= 1.2 ->
  0 < p ->
  p <= calculate_slippage c random_factor p lots Buy atr avg_atr
  /\ calculate_slippage c random_factor p lots Sell atr avg_atr <= p.
Proof.
  intros Hb Hv Hm Hx Hlo Hhi Hp.
  pose proof (capped_slippage_nonneg c lots atr avg_atr Hb Hv Hm Hx) as Hs.
  unfold calculate_slippage.
  set (s := capped_slippage c lots atr avg_atr) in *.
  assert (0 <= s * random_factor) as Hsr.
  { apply Qmult_le_0_compat; [done|lra]. }
  assert (0 <= p * (s * random_factor)) as Hps.
  { apply Qmult_le_0_compat; lra. }
  split; lra.
Qed.

Lemma calculate_slippage_adverse_witness :
  100 <= calculate_slippage default_config 1.1 100 25 Buy (Some 3) (Some 2)
  /\ calculate_slippage default_config 1.1 100 25 Sell (Some 3) (Some 2) <= 100.
Proof.
  apply (calculate_slippage_adverse default_config 1.1 100 25 (Some 3) (Some 2));
    by vm_compute.
Defined.


Lemma min_le_r a b : Py.min a b <= b.
Proof. destruct (PyFacts.min_cases a b) as [[_ ->]|[H ->]]; lra. Qed.

Lemma min_mono_l a b m : a <= b -> Py.min a m <= Py.min b m.
Proof.
  intros Hab.
  destruct (PyFacts.min_cases a m) as [[Ha ->]|[Ha ->]],
           (PyFacts.min_cases b m) as [[Hb ->]|[Hb ->]]; lra.
Qed.

(** X8.  The slipped price stays within 1.2 times the maximum slippage of
    the expected price, on either side: for a positive expected price,
    parameters that are not negative and a random factor between 0.8 and
    1.2, the distance between the two prices is at most
    [expected_price × max_slippage × 1.2]. *)
Theorem calculate_slippage_bounded c random_factor p lots d atr avg_atr :
  0 <= base_slippage c -> 0 <= volume_factor c ->
  0 <= volatility_multiplier c -> 0 <= max_slippage c ->
  0.8 <= random_factor -> random_factor <= 1.2 ->
  0 < p ->
  Qabs (calculate_slippage c random_factor p lots d atr avg_atr - p)
  <= p * max_slippage c * 1.2.
Proof.
  intros Hb Hv Hm Hx Hlo Hhi Hp.
  pose proof (capped_slippage_nonneg c lots atr avg_atr Hb Hv Hm Hx) as Hs.
  assert (capped_slippage c lots atr avg_atr <= max_slippage c) as Hcap
    by (unfold capped_slippage; apply min_le_r).
  unfold calculate_slippage.
  set (s := capped_slippage c lots atr avg_atr) in *.
  assert (s * random_factor <= max_slippage c * 1.2) as Hsr
    by (apply Qmult_le_compat_nonneg; split; lra).
  assert (0 <= s * random_factor) as Hsr0
    by (apply Qmult_le_0_compat; lra).
  assert (p * (s * random_factor) <= p * (max_slippage c * 1.2)) as Hps
    by (apply Qmult_le_compat_nonneg; split; lra).
  assert (0 <= p * (s * random_factor)) as Hps0
    by (apply Qmult_le_0_compat; lra).
  apply Qabs_Qle_condition. destruct d; split; lra.
Qed.

Lemma calculate_slippage_bounded_witness :
  Qabs (calculate_slippage default_config 1.1 100 25 Buy (Some 3) (Some 2)
        - 100)
  <= 100 * max_slippage default_config * 1.2.
Proof.
  apply (calculate_slippage_bounded default_config 1.1 100 25 Buy
           (Some 3) (Some 2)); by vm_compute.
Defined.

(** X9.  A larger order never slips less: with a volume factor that is not
    negative and the same ATR context, the relative slippage before the
    random factor does not decrease when the number of lots (in absolute
    value) grows. *)
Theorem capped_slippage_monotone_in_lots c lots1 lots2 atr avg_atr :
  0 <= volume_factor c ->
  (Z.abs lots1 <= Z.abs lots2)%Z ->
  capped_slippage c lots1 atr avg_atr <= capped_slippage c lots2 atr avg_atr.
Proof.
  intros Hv Hl. unfold capped_slippage. apply min_mono_l.
  assert (inject_Z (Z.abs lots1 / 10) * volume_factor c
          <= inject_Z (Z.abs lots2 / 10) * volume_factor c) as Hvol.
  { apply Qmult_le_compat_r; [|done]. rewrite <- Zle_Qle.
    apply Z.div_le_mono; lia. }
  destruct atr as [a|], avg_atr as [g|]; try lra.
  destruct (Py.gtb g 0); [|lra].
  destruct (Py.gtb (a / g) 1); lra.
Qed.

Lemma capped_slippage_monotone_in_lots_witness :
  capped_slippage default_config 5 (Some 3) (Some 2)
  <= capped_slippage default_config (-40) (Some 3) (Some 2).
Proof.
  apply (capped_slippage_monotone_in_lots default_config 5 (-40)
           (Some 3) (Some 2)); by vm_compute.
Defined.

End SlippageFacts.

(** ** Performance metrics *)

Module PerformanceMetricsFacts.
Import PerformanceMetrics Spec Scenario.

Lemma filter_all_positive (trades : list trade) :
  Forall (fun t => 0 < net_profit_of t) trades ->
  filter (fun t => Py.gtb (net_profit_of t) 0 = true) trades = trades
  /\ filter (fun t => Py.ltb (net_profit_of t) 0 = true) trades = [].
Proof.
  induction 1 as [|t trades Ht _ [IH1 IH2]]; [done|].
  rewrite !filter_cons.
  destruct (decide (Py.gtb (net_profit_of t) 0 = true)) as [_|Hn].
  - destruct (decide (Py.ltb (net_profit_of t) 0 = true)) as [Hl|_].
    + apply PyFacts.ltb_lt in Hl. lra.
    + by rewrite IH1, IH2.
  - destruct Hn. by apply PyFacts.gtb_gt.
Qed.

Lemma sum_positive (trades : list trade) :
  trades <> [] ->
  Forall (fun t => 0 < net_profit_of t) trades ->
  0 < Py.sum (map net_profit_of trades).
Proof.
  intros Hne Hall. destruct Hall as [|t trades Ht Hall]; [done|].
  clear Hne. revert t Ht.
  induction Hall as [|u trades Hu _ IH]; intros t Ht.
  - unfold Py.sum. simpl. lra.
  - specialize (IH u Hu). unfold Py.sum in *. simpl in *. lra.
Qed.

Section SharpeRatio.
Import PrimFloat.

(** The cases that need no arithmetic.  The Sharpe ratio is 0.0 on an empty
    list of returns, on fewer than two returns and when the deviation that
    numpy returns compares equal to zero; the profit factor is 0.0 on an
    empty list of trades, and is +infinity on a list that is not empty and
    whose trades all have a positive net profit. *)
Lemma sharpe_and_profit_factor_edge_cases :
  (forall np_mean np_std np_sqrt risk_free_rate periods_per_year,
     calculate_sharpe_ratio np_mean np_std np_sqrt
                            risk_free_rate [] periods_per_year
     = Some 0%float)
  /\ (forall np_mean np_std np_sqrt risk_free_rate returns periods_per_year,
        (length returns < 2)%nat ->
        calculate_sharpe_ratio np_mean np_std np_sqrt
                               risk_free_rate returns periods_per_year
        = Some 0%float)
  /\ (forall np_mean np_std np_sqrt risk_free_rate returns periods_per_year,
        PrimFloat.eqb (np_std returns) 0 = true ->
        calculate_sharpe_ratio np_mean np_std np_sqrt
                               risk_free_rate returns periods_per_year
        = Some 0%float)
  /\ calculate_profit_factor [] = Finite 0
  /\ (forall trades,
        trades <> [] ->
        Forall (fun t => 0 < net_profit_of t) trades ->
        calculate_profit_factor trades = PosInf).
Proof.
  split; [|split; [|split; [|split]]].
  - done.
  - intros np_mean np_std np_sqrt rf returns ppy Hlen.
    unfold calculate_sharpe_ratio.
    destruct returns as [|x [|y returns]]; simpl in *; [done|done|lia].
  - intros np_mean np_std np_sqrt rf returns ppy Hstd.
    unfold calculate_sharpe_ratio.
    destruct (Py.is_empty returns || (Z.of_nat (length returns) <? 2)%Z);
      [done|].
    by rewrite Hstd.
  - done.
  - intros trades Hne Hall. unfold calculate_profit_factor.
    destruct trades as [|t trades]; [done|].
    change (Py.is_empty (t :: trades)) with false. cbv iota.
    destruct (filter_all_positive _ Hall) as [-> ->].
    pose proof (sum_positive _ Hne Hall) as Hpos.
    change (Py.sum (map net_profit_of [])) with 0.
    change (Py.eqb (Qabs 0) 0) with true. cbv iota.
    apply PyFacts.gtb_gt in Hpos. by rewrite Hpos.
Qed.

(** C7.  On the returns 0.1, 0.1, 0.1, whose sample standard deviation is
    zero, [calculate_sharpe_ratio] does not return 0.0.  With the mean
    0.10000000000000002 and the deviation 1.6996749443881478e-17 that
    binary64 arithmetic gives for them, the guard [std_return == 0] does
    not apply, and with the default risk-free rate 0.0 and 252 periods the
    result is 9.3397316462190256e16. *)
#[warnings="-inexact-float"]
Theorem constant_returns_sharpe_ratio
    (np_mean np_std : list float -> float) (np_sqrt : float -> float) :
  np_mean constant_returns = 0.10000000000000002%float ->
  np_std constant_returns = 1.6996749443881478e-17%float ->
  np_sqrt 252%float = 15.874507866387544%float ->
  calculate_sharpe_ratio np_mean np_std np_sqrt 0%float constant_returns 252
  = Some 93397316462190256%float.
Proof.
  intros Hmean Hstd Hsqrt. unfold calculate_sharpe_ratio.
  change (Py.is_empty constant_returns
          || (Z.of_nat (length constant_returns) <? 2)%Z) with false.
  cbv iota. rewrite Hmean, Hstd.
  change (float_of_int 252) with (Some 252%float).
  cbv iota beta zeta. rewrite Hsqrt.
  by vm_compute.
Qed.

Lemma constant_returns_sharpe_ratio_witness :
  calculate_sharpe_ratio two_pass_mean two_pass_std PrimFloat.sqrt
                         0%float constant_returns 252
  = Some 93397316462190256%float.
Proof.
  apply constant_returns_sharpe_ratio; by vm_compute.
Defined.

End SharpeRatio.

(** *** Drawdown and win rate *)

Lemma drawdown_step_peak st value :
  dd_peak st <= dd_peak (drawdown_step st value)
  /\ value <= dd_peak (drawdown_step st value).
Proof.
  unfold drawdown_step.
  destruct (Py.gtb value (dd_peak st)) eqn:E.
  - apply PyFacts.gtb_gt in E.
    destruct (Py.gtb _ (dd_max_dd st)); cbn [dd_peak]; split; lra.
  - apply PyFacts.gtb_le in E.
    destruct (Py.gtb _ (dd_max_dd st)); cbn [dd_peak]; split; lra.
Qed.

Lemma drawdown_step_consistent st value :
  drawdown_consistent st -> drawdown_consistent (drawdown_step st value).
Proof.
  intros (Hv & Hdd & Hval).
  pose proof (drawdown_step_peak st value) as [_ Hpeak].
  unfold drawdown_consistent, drawdown_step in *.
  set (peak := if Py.gtb value (dd_peak st) then value else dd_peak st) in *.
  assert (value <= peak) as Hvp.
  { destruct (Py.gtb _ (dd_max_dd st)); exact Hpeak. }
  destruct (Py.gtb (if Py.gtb peak 0 then _ else 0) (dd_max_dd st)) eqn:E;
    cbn [dd_max_dd dd_max_dd_value dd_peak_value dd_trough_value].
  - apply PyFacts.gtb_gt in E. split; [reflexivity|]. split; lra.
  - done.
Qed.

Lemma drawdown_step_at_most_one st value :
  0 <= value -> dd_max_dd st <= 1 -> dd_max_dd (drawdown_step st value) <= 1.
Proof.
  intros Hv H1. unfold drawdown_step.
  set (peak := if Py.gtb value (dd_peak st) then value else dd_peak st).
  destruct (Py.gtb peak 0) eqn:Ep.
  - apply PyFacts.gtb_gt in Ep.
    destruct (Py.gtb _ (dd_max_dd st)); cbn [dd_max_dd]; [|done].
    apply Qle_shift_div_r; [done|]. lra.
  - destruct (Py.gtb 0 (dd_max_dd st)); cbn [dd_max_dd]; [lra|done].
Qed.

Lemma foldl_drawdown_consistent l st :
  drawdown_consistent st -> drawdown_consistent (foldl drawdown_step st l).
Proof.
  revert st. induction l as [|x l IH]; intros st H; simpl; [done|].
  apply IH. by apply drawdown_step_consistent.
Qed.

Lemma foldl_drawdown_at_most_one l st :
  Forall (fun b => 0 <= b) l ->
  dd_max_dd st <= 1 -> dd_max_dd (foldl drawdown_step st l) <= 1.
Proof.
  intros Hall. revert st.
  induction Hall as [|x l Hx _ IH]; intros st H; simpl; [done|].
  apply IH. by apply drawdown_step_at_most_one.
Qed.

(** A history that never falls: no value is below an earlier one. *)
Lemma foldl_drawdown_rising l st :
  StronglySorted Qle l ->
  Forall (fun b => dd_peak st <= b) l ->
  dd_max_dd st == 0 ->
  dd_max_dd (foldl drawdown_step st l) == 0.
Proof.
  intros Hsorted. revert st.
  induction Hsorted as [|x l _ IH Hx]; intros st Hpeak H0; simpl; [done|].
  apply Forall_cons in Hpeak as [Hpx Hpl].
  assert (drawdown_step st x
          = {| dd_peak := x;
               dd_max_dd := dd_max_dd st;
               dd_max_dd_value := dd_max_dd_value st;
               dd_peak_value := dd_peak_value st;
               dd_trough_value := dd_trough_value st |}
          \/ drawdown_step st x
             = {| dd_peak := dd_peak st;
                  dd_max_dd := dd_max_dd st;
                  dd_max_dd_value := dd_max_dd_value st;
                  dd_peak_value := dd_peak_value st;
                  dd_trough_value := dd_trough_value st |}
             /\ dd_peak st == x) as Hstep.
  { unfold drawdown_step.
    destruct (Py.gtb x (dd_peak st)) eqn:E.
    - left.
      assert (Py.gtb (if Py.gtb x 0 then (x - x) / x else 0) (dd_max_dd st)
              = false) as ->; [|done].
      apply PyFacts.gtb_le. rewrite H0.
      destruct (Py.gtb x 0); [|lra].
      assert ((x - x) / x == 0) as -> by (unfold Qdiv; ring). lra.
    - right. apply PyFacts.gtb_le in E.
      assert (dd_peak st == x) as Heq by lra. split; [|done].
      assert (Py.gtb (if Py.gtb (dd_peak st) 0
                      then (dd_peak st - x) / dd_peak st else 0)
                     (dd_max_dd st) = false) as ->; [|done].
      apply PyFacts.gtb_le. rewrite H0.
      destruct (Py.gtb (dd_peak st) 0); [|lra].
      assert ((dd_peak st - x) / dd_peak st == 0) as ->; [|lra].
      rewrite Heq. unfold Qdiv. ring. }
  destruct Hstep as [-> | [-> Heq]]; apply IH; cbn [dd_peak dd_max_dd];
    done.
Qed.

(** X24.  The answer of [calculate_max_drawdown] is coherent: the reported
    drawdown value is the reported peak minus the reported trough, and
    neither the value nor the percentage is negative; on a history of
    balances that are not negative the percentage is at most 100; and on
    a history that never falls the percentage is zero. *)
Theorem calculate_max_drawdown_coherent balance_history :
  let m := calculate_max_drawdown balance_history in
  max_drawdown_value m == peak_value m - trough_value m
  /\ 0 <= max_drawdown_value m
  /\ 0 <= max_drawdown_percent m
  /\ (Forall (fun b => 0 <= b) balance_history ->
      max_drawdown_percent m <= 100)
  /\ (StronglySorted Qle balance_history -> max_drawdown_percent m == 0).
Proof.
  cbv zeta. unfold calculate_max_drawdown.
  destruct balance_history as [|first [|second rest]];
    cbn [max_drawdown_value peak_value trough_value max_drawdown_percent].
  - repeat split; try lra; intros _; lra.
  - repeat split; try lra; intros _; lra.
  - set (st0 := {| dd_peak := first; dd_max_dd := 0; dd_max_dd_value := 0;
                   dd_peak_value := first; dd_trough_value := first |}).
    assert (drawdown_consistent st0) as H0.
    { unfold drawdown_consistent, st0. simpl. split; [ring|]. split; lra. }
    destruct (foldl_drawdown_consistent (first :: second :: rest) st0 H0)
      as (Hv & Hdd & Hval).
    split; [exact Hv|]. split; [exact Hval|]. split; [|split].
    + assert (0 <= dd_max_dd (foldl drawdown_step st0
                                    (first :: second :: rest)) * 100)
        by (apply Qmult_le_0_compat; lra).
      done.
    + intros Hall.
      pose proof (foldl_drawdown_at_most_one (first :: second :: rest) st0
                    Hall) as H1.
      assert (dd_max_dd st0 <= 1) as Hst by (unfold st0; simpl; lra).
      specialize (H1 Hst). lra.
    + intros Hsorted.
      pose proof (foldl_drawdown_rising (first :: second :: rest) st0
                    Hsorted) as H1.
      rewrite H1; [ring| |reflexivity].
      apply StronglySorted_inv in Hsorted as [_ Hfirst].
      apply Forall_cons. split; [unfold st0; simpl; lra|].
      exact Hfirst.
Qed.

Lemma calculate_max_drawdown_coherent_witness :
  max_drawdown_percent (calculate_max_drawdown [100; 120; 90; 150]) <= 100
  /\ max_drawdown_percent (calculate_max_drawdown [100; 120; 120; 150]) == 0.
Proof.
  destruct (calculate_max_drawdown_coherent [100; 120; 90; 150])
    as (_ & _ & _ & Hle & _).
  destruct (calculate_max_drawdown_coherent [100; 120; 120; 150])
    as (_ & _ & _ & _ & Hzero).
  split.
  - apply Hle. repeat constructor; by vm_compute.
  - apply Hzero. repeat constructor; by vm_compute.
Defined.

Lemma count_disjoint (f g : trade -> bool) (l : list trade) :
  (forall t, f t = true -> g t = false) ->
  (count_trades f l + count_trades g l <= length l)%nat.
Proof.
  intros Hfg. unfold count_trades.
  induction l as [|t l IH]; simpl; [lia|].
  destruct (f t) eqn:Ef.
  - rewrite (Hfg t Ef). simpl. lia.
  - destruct (g t); simpl; lia.
Qed.

(** X25.  The answer of [calculate_win_rate] is coherent: winners and
    losers together are at most all trades (a trade with a net profit of
    zero is neither), the total is the length of the list, and the win
    rate lies between 0 and 100. *)
Theorem calculate_win_rate_coherent trades :
  let w := calculate_win_rate trades in
  (winning_trades w + losing_trades w <= total_trades w)%nat
  /\ total_trades w = length trades
  /\ 0 <= win_rate_percent w
  /\ win_rate_percent w <= 100.
Proof.
  cbv zeta. unfold calculate_win_rate.
  destruct trades as [|t trades];
    cbn [Py.is_empty winning_trades losing_trades total_trades
         win_rate_percent].
  { repeat split; simpl; lia || lra. }
  set (l := t :: trades).
  pose proof (count_disjoint (fun t => Py.gtb (net_profit_of t) 0)
                (fun t => Py.ltb (net_profit_of t) 0) l) as Hcount.
  assert (count_trades (fun t => Py.gtb (net_profit_of t) 0) l
          + count_trades (fun t => Py.ltb (net_profit_of t) 0) l
          <= length l)%nat as Hsum.
  { apply Hcount. intros u Hu. apply PyFacts.gtb_gt in Hu.
    apply PyFacts.ltb_ge. lra. }
  split; [exact Hsum|]. split; [done|].
  assert ((0 <? length l)%nat = true) as ->
    by (apply Nat.ltb_lt; simpl; lia).
  set (w := count_trades (fun t => Py.gtb (net_profit_of t) 0) l) in *.
  assert (0 < inject_Z (Z.of_nat (length l))) as Hpos.
  { change 0 with (inject_Z 0). rewrite <- Zlt_Qlt. simpl. lia. }
  assert (0 <= inject_Z (Z.of_nat w)) as Hw0.
  { change 0 with (inject_Z 0). rewrite <- Zle_Qle. lia. }
  assert (inject_Z (Z.of_nat w) <= inject_Z (Z.of_nat (length l))) as Hwl.
  { rewrite <- Zle_Qle. lia. }
  assert (0 <= inject_Z (Z.of_nat w) / inject_Z (Z.of_nat (length l))) as Hq0.
  { apply Qle_shift_div_l; [done|]. lra. }
  assert (inject_Z (Z.of_nat w) / inject_Z (Z.of_nat (length l)) <= 1) as Hq1.
  { apply Qle_shift_div_r; [done|]. lra. }
  split; lra.
Qed.

End PerformanceMetricsFacts.

(** ** Spread *)

Module SpreadFacts.
Import SpreadCalculator Spec.

Lemma quantize_1_nearest_even x : nearest_even x (quantize_1 x).
Proof.
  unfold nearest_even, quantize_1.
  pose proof (Qfloor_le x) as Hlo. pose proof (Qlt_floor x) as Hhi.
  rewrite inject_Z_plus in Hhi. change (inject_Z 1) with 1 in Hhi.
  set (f := Qfloor x) in *.
  destruct (Py.ltb (x - inject_Z f) (1 # 2)) eqn:E1.
  { apply PyFacts.ltb_lt in E1. split.
    - apply Qabs_Qle_condition. split; lra.
    - intros Heq. exfalso.
      assert (Qabs (inject_Z f - x) == x - inject_Z f) as Ha.
      { rewrite Qabs_neg by lra. lra. }
      lra. }
  apply PyFacts.ltb_ge in E1.
  destruct (Py.gtb (x - inject_Z f) (1 # 2)) eqn:E2.
  { apply PyFacts.gtb_gt in E2.
    rewrite inject_Z_plus. change (inject_Z 1) with 1. split.
    - apply Qabs_Qle_condition. split; lra.
    - intros Heq. exfalso.
      assert (Qabs (inject_Z f + 1 - x) == inject_Z f + 1 - x) as Ha.
      { rewrite Qabs_pos by lra. lra. }
      lra. }
  apply PyFacts.gtb_le in E2.
  destruct (Z.even f) eqn:Ev.
  - split; [|done]. apply Qabs_Qle_condition. split; lra.
  - split.
    + rewrite inject_Z_plus. change (inject_Z 1) with 1.
      apply Qabs_Qle_condition. split; lra.
    + intros _. rewrite Z.even_add. by rewrite Ev.
Qed.

(** At most one integer is nearest in this sense. *)
Lemma nearest_even_unique x k1 k2 :
  nearest_even x k1 -> nearest_even x k2 -> k1 = k2.
Proof.
  intros [H1 E1] [H2 E2].
  apply Qabs_Qle_condition in H1 as [H1a H1b].
  apply Qabs_Qle_condition in H2 as [H2a H2b].
  assert (k1 <= k2 + 1)%Z as Hd1.
  { rewrite Zle_Qle, inject_Z_plus. change (inject_Z 1) with 1. lra. }
  assert (k2 <= k1 + 1)%Z as Hd2.
  { rewrite Zle_Qle, inject_Z_plus. change (inject_Z 1) with 1. lra. }
  destruct (Z.eq_dec k1 k2) as [|Hne]; [done|exfalso].
  assert (k1 = k2 + 1 \/ k2 = k1 + 1)%Z as [->| ->] by lia.
  - rewrite inject_Z_plus in *. change (inject_Z 1) with 1 in *.
    assert (x == inject_Z k2 + (1 # 2)) as Hx by lra.
    assert (Z.even (k2 + 1) = true) as Ea.
    { apply E1. rewrite Hx. rewrite Qabs_pos by lra. lra. }
    assert (Z.even k2 = true) as Eb.
    { apply E2. rewrite Hx. rewrite Qabs_neg by lra. lra. }
    rewrite Z.even_add, Eb in Ea. done.
  - rewrite inject_Z_plus in *. change (inject_Z 1) with 1 in *.
    assert (x == inject_Z k1 + (1 # 2)) as Hx by lra.
    assert (Z.even (k1 + 1) = true) as Ea.
    { apply E2. rewrite Hx. rewrite Qabs_pos by lra. lra. }
    assert (Z.even k1 = true) as Eb.
    { apply E1. rewrite Hx. rewrite Qabs_neg by lra. lra. }
    rewrite Z.even_add, Eb in Ea. done.
Qed.

(** C8 as it is written fails.  With the default spread of 0.03 % of a mid
    price of 100, the amount 0.03 on a tick of 0.025 comes out as one tick,
    0.025: below the amount, and not the 0.05 that rounding up gives. *)
Lemma calculate_spread_rounds_down :
  let amount := 100 * spread_percent default_config None None in
  let r := calculate_spread default_config 100 None None (Some 0.025) in
  amount == 0.03 /\ r == 0.025
  /\ round_up_to_tick amount 0.025 == 0.05
  /\ ~ r == round_up_to_tick amount 0.025.
Proof. by vm_compute. Qed.

(** C8, amended.  With a positive tick size, [calculate_spread] returns a
    whole number of ticks, never less than one: the quotient of
    [mid × spread_pct] by the tick is rounded to the nearest integer (to
    the even one from half-way), and the result is that number of ticks,
    or one tick when that number is below one. *)
Theorem calculate_spread_tick c mid_price atr avg_atr tick :
  0 < tick ->
  let amount := mid_price * spread_percent c atr avg_atr in
  let r := calculate_spread c mid_price atr avg_atr (Some tick) in
  tick <= r
  /\ exists k : Z,
       nearest_even (amount / tick) k
       /\ r == inject_Z (Z.max 1 k) * tick.
Proof.
  intros Htick amount r. subst r. unfold calculate_spread. fold amount.
  apply PyFacts.gtb_gt in Htick as Hgt. rewrite Hgt.
  set (k := quantize_1 (amount / tick)).
  assert (nearest_even (amount / tick) k) as Hk
    by apply quantize_1_nearest_even.
  destruct (Py.ltb (inject_Z k * tick) tick) eqn:E.
  - apply PyFacts.ltb_lt in E.
    assert (k < 1)%Z as Hlt.
    { apply Z.lt_nge. intros Hge. rewrite Zle_Qle in Hge.
      change (inject_Z 1) with 1 in Hge.
      assert (0 <= (inject_Z k - 1) * tick)
        by (apply Qmult_le_0_compat; lra).
      lra. }
    split; [lra|]. exists k. split; [done|].
    rewrite Z.max_l by lia. change (inject_Z 1) with 1. lra.
  - apply PyFacts.ltb_ge in E.
    assert (1 <= k)%Z as Hge.
    { apply Z.le_ngt. intros Hlt.
      assert (k <= 0)%Z as Hle by lia. rewrite Zle_Qle in Hle.
      change (inject_Z 0) with 0 in Hle.
      assert (0 <= (0 - inject_Z k) * tick)
        by (apply Qmult_le_0_compat; lra).
      lra. }
    split; [done|]. exists k. split; [done|].
    rewrite Z.max_r by lia. reflexivity.
Qed.

Lemma calculate_spread_tick_witness :
  let amount := 100 * spread_percent default_config None None in
  let r := calculate_spread default_config 100 None None (Some 0.025) in
  0.025 <= r
  /\ exists k : Z,
       nearest_even (amount / 0.025) k
       /\ r == inject_Z (Z.max 1 k) * 0.025.
Proof.
  apply (calculate_spread_tick default_config 100 None None 0.025).
  by vm_compute.
Defined.


Lemma spread_percent_ge_min c atr avg_atr :
  min_spread c <= spread_percent c atr avg_atr.
Proof.
  unfold spread_percent.
  match goal with |- _ <= Py.max ?a ?b =>
    destruct (PyFacts.max_cases a b) as [[H ->]|[H ->]]; lra end.
Qed.

(** X10.  The relative spread is clamped: when the configured minimum is
    not above the configured maximum, [spread_percent] lies between them,
    whatever the ATR context. *)
Theorem spread_percent_clamped c atr avg_atr :
  min_spread c <= max_spread c ->
  min_spread c <= spread_percent c atr avg_atr
  /\ spread_percent c atr avg_atr <= max_spread c.
Proof.
  intros Hmm. split; [apply spread_percent_ge_min|].
  unfold spread_percent.
  match goal with |- Py.max ?a (Py.min ?x ?b) <= _ =>
    destruct (PyFacts.min_cases x b) as [[Hm ->]|[Hm ->]];
    match goal with |- Py.max ?a ?y <= _ =>
      destruct (PyFacts.max_cases a y) as [[Hx ->]|[Hx ->]]; lra end
  end.
Qed.

Lemma spread_percent_clamped_witness :
  min_spread default_config <= spread_percent default_config (Some 3) (Some 2)
  /\ spread_percent default_config (Some 3) (Some 2)
     <= max_spread default_config.
Proof.
  apply (spread_percent_clamped default_config (Some 3) (Some 2)).
  by vm_compute.
Defined.

End SpreadFacts.

(** ** The ledger *)

Module VirtualPortfolioFacts.
Import VirtualPortfolio Spec Scenario.

Lemma _calculate_execution_price_frame c r d ticker price l dir atr :
  same_but_costs d (snd (_calculate_execution_price c r d ticker price l dir atr)).
Proof.
  unfold _calculate_execution_price, same_but_costs.
  destruct d. by destruct (spread_calculator c), (slippage_simulator c).
Qed.

Lemma same_but_costs_positions d d' :
  same_but_costs d d' -> positions d' = positions d.
Proof. intros ->. by destruct d. Qed.

Lemma same_but_costs_used_margin d d' :
  same_but_costs d d' -> used_margin d' = used_margin d.
Proof. intros ->. by destruct d. Qed.

Lemma same_but_costs_balance d d' :
  same_but_costs d d' -> balance d' = balance d.
Proof. intros ->. by destruct d. Qed.

(** With spread and slippage disabled the execution price is the expected
    price and no counter moves. *)
Lemma _calculate_execution_price_disabled c r d ticker price l dir atr :
  spread_calculator c = None -> slippage_simulator c = None ->
  _calculate_execution_price c r d ticker price l dir atr = (price, d).
Proof.
  intros Hs Hl. unfold _calculate_execution_price. by rewrite Hs, Hl.
Qed.

Lemma record_atr_frame d ticker atr :
  record_atr d ticker atr = set_atr_history (atr_history (record_atr d ticker atr)) d.
Proof.
  unfold record_atr, _update_atr_history.
  destruct d, atr as [a|]; [|done]. by destruct (Py.truthy a).
Qed.

(** *** The sum of the margins under the dictionary operations *)





(** *** A refused open leaves the ledger but for the cost counters *)

Lemma open_or_resize_refused c now r d ticker cp target diff price sl tp mpl atr
    required available d' :
  open_or_resize c now r d ticker cp target diff price sl tp mpl atr
  = inl (required, available, d') ->
  same_but_costs d d'.
Proof.
  unfold open_or_resize.
  pose proof (_calculate_execution_price_frame c r d ticker price target
                (if (target <? 0)%Z then Buy else Sell) atr) as Hf.
  destruct (_calculate_execution_price _ _ _ _ _ _ _ _) as [ep d1].
  simpl in Hf. destruct (Py.gtb _ _).
  - intros [= _ _ <-]. done.
  - destruct (trade_id cp); discriminate.
Qed.

(** *** The rejections that come before any assignment *)

(** On whole lots the size check never refuses: [abs(lots)] below 1 is
    [abs(lots) == 0], which is accepted first. *)
Lemma validate_position_size_accepts lots :
  TradingRestrictions.validate_position_size lots = (true, None).
Proof.
  unfold TradingRestrictions.validate_position_size,
    TradingRestrictions.MIN_POSITION_SIZE.
  destruct (Z.abs lots =? 0)%Z eqn:E0; [done|].
  destruct (Z.abs lots <? 1)%Z eqn:E1; [|done].
  apply Z.eqb_neq in E0. apply Z.ltb_lt in E1. lia.
Qed.

(** C10.  With no open position for the ticker, a call with target 0
    computes the difference 0 and returns at once: the object (ledger, risk
    manager and file) is the one it was, whatever the clock, the price and
    the other arguments are. *)
Theorem update_position_flat_target_zero
    c now r p ticker price sl tp mpl atr :
  positions (self_data p) !! ticker = None ->
  (0 - lots (default no_position (positions (self_data p) !! ticker)) = 0)%Z
  /\ update_position c now r p ticker 0 price sl tp mpl atr = (NoChange, p).
Proof.
  intros Hflat. unfold update_position. rewrite Hflat. by simpl.
Qed.

Lemma update_position_flat_target_zero_witness :
  let p := new_portfolio active_config in
  (0 - lots (default no_position (positions (self_data p) !! "SBER")) = 0)%Z
  /\ update_position active_config saturday_noon 1 p "SBER" 0 100
                     None None None (Some 5)
     = (NoChange, p).
Proof.
  apply (update_position_flat_target_zero
           active_config saturday_noon 1 (new_portfolio active_config)
           "SBER" 100 None None None (Some 5)).
  reflexivity.
Defined.


(** *** The ATR record and the risk check *)

Lemma record_atr_falsy d ticker atr :
  Py.truthy_opt atr = false -> record_atr d ticker atr = d.
Proof.
  unfold record_atr. destruct atr as [a|]; simpl; [|done]. by intros ->.
Qed.

Lemma risk_check_record_atr c now rm d ticker atr target price :
  risk_check c now rm (record_atr d ticker atr) target price
  = risk_check c now rm d target price.
Proof.
  unfold risk_check. rewrite (record_atr_frame d ticker atr). by destruct d.
Qed.

(** The ledger fields that no rejection touches. *)
Lemma same_but_costs_core d d' :
  same_but_costs d d' -> core_unchanged d d'.
Proof. intros ->. by destruct d. Qed.

Lemma record_atr_core d ticker atr :
  core_unchanged d (record_atr d ticker atr)
  /\ total_slippage_cost (record_atr d ticker atr) = total_slippage_cost d
  /\ total_spread_cost (record_atr d ticker atr) = total_spread_cost d.
Proof. rewrite record_atr_frame. by destruct d. Qed.

(** C4 as it is written fails.  On the new ledger of the active
    configuration, a request for 1000 lots at 100 with an ATR of 5 is
    vetoed by the risk manager (the position is worth more than a quarter
    of the balance), and the ATR history of the ticker, empty before, holds
    the value 5 afterwards. *)
Lemma risk_veto_records_atr :
  let p := new_portfolio active_config in
  let res := update_position active_config noon 1 p "SBER" 1000 100
                             None None None (Some 5) in
  fst res = RiskVeto (Some (RiskManager.PositionTooLarge
                              (Qabs (100 * inject_Z (Z.abs 1000)))
                              (200000 * (25 / 100))))
  /\ atr_history (self_data p) !! "SBER" = None
  /\ atr_history (self_data (snd res)) !! "SBER" = Some [5]
  /\ self_data (snd res) <> self_data p.
Proof.
  cbv zeta. split; [by vm_compute|]. split; [by vm_compute|].
  split; [by vm_compute|].
  intros Heq. apply (f_equal (fun d => atr_history d !! "SBER")) in Heq.
  vm_compute in Heq. discriminate.
Qed.

(** C4, amended.  A call refused because trading is closed or the size is
    invalid leaves the whole object as it was.  A call refused by the risk
    manager or for insufficient funds writes nothing to the file and leaves
    balance, initial balance, positions, history, used margin, total
    commission, next trade id and balance history as they were; the ATR
    history is the one that recording the supplied ATR gives (the old one
    when no ATR, or a zero one, is supplied); after a veto of the risk
    manager the two cost counters are unchanged too. *)
Theorem rejected_update_position_frame
    c now r p ticker target price sl tp mpl atr :
  let res := update_position c now r p ticker target price sl tp mpl atr in
  let d := self_data p in
  let d' := self_data (snd res) in
  match fst res with
  | TradingForbidden _ | InvalidSize _ => snd res = p
  | RiskVeto _ =>
      core_unchanged d d'
      /\ total_slippage_cost d' = total_slippage_cost d
      /\ total_spread_cost d' = total_spread_cost d
      /\ atr_history d' = atr_history (record_atr d ticker atr)
      /\ storage (snd res) = storage p
  | InsufficientFunds _ _ =>
      core_unchanged d d'
      /\ atr_history d' = atr_history (record_atr d ticker atr)
      /\ storage (snd res) = storage p
  | NoChange | Closed | Updated => True
  end.
Proof.
  cbv zeta. unfold update_position.
  destruct (_ =? 0)%Z; [done|].
  destruct (TradingRestrictions.can_trade now) as [[] ?]; simpl; [|done].
  destruct (TradingRestrictions.validate_position_size target) as [[] ?];
    simpl; [|done].
  destruct (record_atr_core (self_data p) ticker atr) as (Hcore & Hsl & Hsp).
  destruct (risk_check _ _ _ _ _ _) as [[why|] rm]; simpl; [done|].
  destruct (target =? 0)%Z; [done|].
  destruct (open_or_resize _ _ _ _ _ _ _ _ _ _ _ _ _)
    as [[[required available] d']|d'] eqn:E; simpl; [|done].
  apply open_or_resize_refused in E.
  split; [|split; [|done]].
  - apply same_but_costs_core in E. unfold core_unchanged in *.
    destruct E as (-> & -> & -> & -> & -> & -> & -> & ->). done.
  - rewrite E. by destruct (record_atr (self_data p) ticker atr).
Qed.

(** The rejections of the amended C4 occur: each kind but the invalid size
    (which whole lots never meet) on the new ledger. *)
Lemma rejections_occur :
  let p := new_portfolio active_config in
  (exists why,
     fst (update_position active_config saturday_noon 1 p "SBER" 1 100
                          None None None None) = TradingForbidden why)
  /\ (exists why,
        fst (update_position active_config noon 1 p "SBER" 1000 100
                             None None None None) = RiskVeto why)
  /\ (exists required available,
        fst (update_position active_config noon 1 p "SBER" 1 100
                             None None (Some 300000) None)
        = InsufficientFunds required available).
Proof.
  cbv zeta. split; [|split].
  - eexists. by vm_compute.
  - eexists. by vm_compute.
  - do 2 eexists. by vm_compute.
Qed.

(** The part that the amended C4 leaves out: a call refused for
    insufficient funds has already advanced the spread and slippage
    counters, for a trade that did not take place. *)
Lemma insufficient_funds_advances_costs :
  let p := new_portfolio active_config in
  let res := update_position active_config noon 1 p "SBER" 1 100
                             None None (Some 300000) None in
  total_spread_cost (self_data p) == 0
  /\ total_slippage_cost (self_data p) == 0
  /\ total_spread_cost (self_data (snd res)) == 0.015
  /\ total_slippage_cost (self_data (snd res)) == 0.034997.
Proof. by vm_compute. Qed.


(** *** The two accepted paths, with spread and slippage disabled *)

(** Closing: the profit is [(price − avg_price) × lots], the commission
    [|price × lots| × rate]; the margin comes back to the balance together
    with the net profit, and the position goes. *)
Lemma update_position_closes c now r p ticker price sl tp mpl atr cp :
  spread_calculator c = None -> slippage_simulator c = None ->
  positions (self_data p) !! ticker = Some cp ->
  lots cp <> 0%Z ->
  fst (TradingRestrictions.can_trade now) = true ->
  let res := update_position c now r p ticker 0 price sl tp mpl atr in
  let d := self_data p in
  let d' := self_data (snd res) in
  let profit := (price - avg_price cp) * inject_Z (lots cp) in
  let commission := Qabs (price * inject_Z (lots cp)) * commission_rate c in
  fst res = Closed
  /\ balance d' = balance d + (margin cp + (profit - commission))
  /\ used_margin d' = used_margin d - margin cp
  /\ positions d' = delete ticker (positions d)
  /\ balance_history d' = balance_history d ++ [balance d']
  /\ exists x,
       history d' = history d ++ [x]
       /\ t_action x = ActionClose
       /\ t_profit x = Some profit
       /\ t_commission x = commission
       /\ t_net_profit x = Some (profit - commission)
       /\ t_margin_released x = Some (margin cp).
Proof.
  intros Hs Hl Hcp Hlots Hct. cbv zeta. unfold update_position.
  rewrite Hcp. simpl default.
  destruct (0 - lots cp =? 0)%Z eqn:E0; [apply Z.eqb_eq in E0; lia|].
  destruct (TradingRestrictions.can_trade now) as [ok why]. simpl in Hct.
  subst ok. simpl negb. cbv iota.
  change (TradingRestrictions.validate_position_size 0) with (true, @None TradingRestrictions.refusal).
  simpl negb. cbv iota.
  assert (risk_check c now (risk_manager p) (record_atr (self_data p) ticker atr)
            0 price = (None, risk_manager p)) as ->.
  { unfold risk_check. by destruct (risk_config c). }
  change (0 =? 0)%Z with true. cbv iota.
  unfold close_position. rewrite (_calculate_execution_price_disabled _ _ _ _ _ _ _ _ Hs Hl).
  rewrite (record_atr_frame (self_data p) ticker atr).
  destruct (self_data p). simpl.
  repeat split. eexists. repeat split.
Qed.

(** Opening or resizing: the margin of the new size is reserved, the
    commission is charged on the lots traded, and the position is replaced. *)
Lemma update_position_opens c now r p ticker target price sl tp mpl atr :
  spread_calculator c = None -> slippage_simulator c = None ->
  let cp := default no_position (positions (self_data p) !! ticker) in
  let d := self_data p in
  let required := default (price * (1 # 10)) mpl * inject_Z (Z.abs target) in
  let commission :=
    Qabs (price * inject_Z (Z.abs (target - lots cp))) * commission_rate c in
  target <> 0%Z -> target <> lots cp ->
  fst (TradingRestrictions.can_trade now) = true ->
  fst (risk_check c now (risk_manager p) d target price) = None ->
  required <= balance d - used_margin d ->
  let res := update_position c now r p ticker target price sl tp mpl atr in
  let d' := self_data (snd res) in
  fst res = Updated
  /\ balance d' = balance d - (required - margin cp + commission)
  /\ used_margin d' = used_margin d + (required - margin cp)
  /\ balance_history d' = balance_history d
  /\ (exists x,
        positions d' = <[ticker := x]> (positions d)
        /\ lots x = target /\ avg_price x = price /\ margin x = required)
  /\ exists x,
       history d' = history d ++ [x]
       /\ t_action x = ActionUpdate
       /\ t_commission x = commission
       /\ t_margin_reserved x = Some required.
Proof.
  intros Hs Hl cp d required commission Ht Hdiff Hct Hrisk Hfunds.
  subst d. cbv zeta. unfold update_position. fold cp.
  destruct (target - lots cp =? 0)%Z eqn:E0; [apply Z.eqb_eq in E0; lia|].
  destruct (TradingRestrictions.can_trade now) as [ok why]. simpl in Hct.
  subst ok. simpl negb. cbv iota.
  rewrite validate_position_size_accepts. simpl negb. cbv iota.
  rewrite risk_check_record_atr.
  destruct (risk_check c now (risk_manager p) (self_data p) target price)
    as [veto rm].
  simpl in Hrisk. subst veto.
  destruct (target =? 0)%Z eqn:E1; [apply Z.eqb_eq in E1; lia|].
  unfold open_or_resize.
  rewrite (_calculate_execution_price_disabled _ _ _ _ _ _ _ _ Hs Hl).
  rewrite (record_atr_frame (self_data p) ticker atr).
  assert (Py.gtb required (balance (self_data p) - used_margin (self_data p))
          = false) as Hgt
    by (by apply PyFacts.gtb_le).
  subst required commission.
  destruct mpl as [m|]; simpl default in *;
    destruct (self_data p); simpl in *; rewrite Hgt;
    destruct (trade_id cp); simpl;
    (repeat split; [eexists; repeat split | eexists; repeat split]).
Qed.


(** C1.  The scenario of the specification, for every ticker, every pair of
    trading instants, every ATR and stop levels, with the risk manager at
    its active settings or disabled: opening −2 lots at 100 with a margin
    of 10 per lot reserves 20 and charges 0.1; closing at 110 books a
    profit of −20 and a commission of 0.11, and leaves the balance at
    199979.79 with no margin in use and no position. *)
Theorem scenario_open_then_close
    risk_enabled now1 now2 r1 r2 ticker sl1 tp1 atr1 sl2 tp2 mpl2 atr2 :
  fst (TradingRestrictions.can_trade now1) = true ->
  fst (TradingRestrictions.can_trade now2) = true ->
  let c := scenario_config risk_enabled in
  let res1 := update_position c now1 r1 (new_portfolio c) ticker (-2) 100
                              sl1 tp1 (Some 10) atr1 in
  let d1 := self_data (snd res1) in
  let res2 := update_position c now2 r2 (snd res1) ticker 0 110
                              sl2 tp2 mpl2 atr2 in
  let d2 := self_data (snd res2) in
  fst res1 = Updated
  /\ balance d1 == 199979.9
  /\ used_margin d1 == 20
  /\ (exists x,
        positions d1 !! ticker = Some x
        /\ lots x = (-2)%Z /\ avg_price x == 100 /\ margin x == 20)
  /\ (exists t required_margin,
        last (history d1) = Some t
        /\ t_margin_reserved t = Some required_margin
        /\ required_margin == 20
        /\ t_commission t == 0.1)
  /\ fst res2 = Closed
  /\ (exists t profit net_profit,
        last (history d2) = Some t
        /\ t_profit t = Some profit /\ profit == -20
        /\ t_commission t == 0.11
        /\ t_net_profit t = Some net_profit /\ net_profit == -20.11)
  /\ balance d2 == 199979.79
  /\ used_margin d2 == 0
  /\ positions d2 !! ticker = None.
Proof.
  intros Hct1 Hct2 c res1 d1 res2 d2.
  assert (spread_calculator c = None) as Hs by (by destruct risk_enabled).
  assert (slippage_simulator c = None) as Hl by (by destruct risk_enabled).
  assert (commission_rate c = 0.0005) as Hrate by (by destruct risk_enabled).
  assert (self_data (new_portfolio c) = default_data c) as Hd0 by done.
  destruct (update_position_opens c now1 r1 (new_portfolio c) ticker (-2) 100
              sl1 tp1 (Some 10) atr1 Hs Hl)
    as (Ho1 & Hb1 & Hu1 & _ & (x & Hp1 & Hx1 & Hx2 & Hx3) & (t1 & Hh1 & _ & Ht1 & Ht2)).
  { done. }
  { simpl. rewrite lookup_empty. done. }
  { done. }
  { destruct risk_enabled; by vm_compute. }
  { destruct risk_enabled; by vm_compute. }
  fold res1 in Ho1, Hb1, Hu1, Hp1, Hh1. fold d1 in Hb1, Hu1, Hp1, Hh1.
  rewrite Hd0, ?Hrate in Hb1, Hu1, Hp1, Hh1, Ht1.
  assert (balance (default_data c) = 200000) as Hbal0
    by (by destruct risk_enabled).
  change (positions (default_data c)) with (∅ : gmap string position) in *.
  change (used_margin (default_data c)) with 0 in *.
  change (history (default_data c)) with (@nil trade) in *.
  rewrite lookup_empty in Hb1, Hu1, Ht1. rewrite Hbal0 in Hb1.
  simpl default in *.
  destruct (update_position_closes c now2 r2 (snd res1) ticker 110
              sl2 tp2 mpl2 atr2 x Hs Hl)
    as (Ho2 & Hb2 & Hu2 & Hp2 & _ & (t2 & Hh2 & _ & Ht3 & Ht4 & Ht5 & _)).
  { fold d1. rewrite Hp1. apply lookup_insert_eq. }
  { rewrite Hx1. done. }
  { done. }
  fold res2 in Ho2, Hb2, Hu2, Hp2, Hh2. fold d1 d2 in Hb2, Hu2, Hp2, Hh2.
  clearbody d2 res2 d1 res1.
  rewrite Hrate, Hx1, Hx2 in *.
  split; [done|].
  split; [rewrite Hb1; by vm_compute|].
  split; [rewrite Hu1; by vm_compute|].
  split.
  { exists x. rewrite Hp1, lookup_insert_eq, Hx2, Hx3. by vm_compute. }
  split.
  { exists t1. eexists. rewrite Hh1, Ht1, Ht2. by vm_compute. }
  split; [done|].
  split.
  { exists t2. do 2 eexists. rewrite Hh2, last_snoc, Ht3, Ht4, Ht5.
    by vm_compute. }
  split; [rewrite Hb2, Hb1, Hx3; by vm_compute|].
  split; [rewrite Hu2, Hu1, Hx3; by vm_compute|].
  rewrite Hp2. apply lookup_delete_eq.
Qed.

Lemma scenario_open_then_close_witness :
  let c := scenario_config true in
  let res1 := update_position c noon 1 (new_portfolio c) "SBER" (-2) 100
                              None None (Some 10) None in
  let d1 := self_data (snd res1) in
  let res2 := update_position c noon 1 (snd res1) "SBER" 0 110
                              None None None None in
  let d2 := self_data (snd res2) in
  fst res1 = Updated
  /\ balance d1 == 199979.9
  /\ used_margin d1 == 20
  /\ (exists x,
        positions d1 !! "SBER" = Some x
        /\ lots x = (-2)%Z /\ avg_price x == 100 /\ margin x == 20)
  /\ (exists t required_margin,
        last (history d1) = Some t
        /\ t_margin_reserved t = Some required_margin
        /\ required_margin == 20
        /\ t_commission t == 0.1)
  /\ fst res2 = Closed
  /\ (exists t profit net_profit,
        last (history d2) = Some t
        /\ t_profit t = Some profit /\ profit == -20
        /\ t_commission t == 0.11
        /\ t_net_profit t = Some net_profit /\ net_profit == -20.11)
  /\ balance d2 == 199979.79
  /\ used_margin d2 == 0
  /\ positions d2 !! "SBER" = None.
Proof.
  apply (scenario_open_then_close true noon noon 1 1 "SBER"
           None None None None None None None); reflexivity.
Defined.


(** *** Loading a snapshot *)

(** With no file, or with a file that [json.load] rejects, nothing has been
    assigned when [_save] runs: the object is the new one. *)
Lemma __init___without_snapshot v c f :
  f = Missing \/ f = Unparsable -> __init__ v c f = new_portfolio c.
Proof. by intros [-> | ->]. Qed.

(** C9 (the code does otherwise).  The snapshot
    [{"balance": 5, "positions": {"SBER": {}}}] raises in the second
    assignment of [_load] (the position has no ["lots"]); the first
    assignment has already replaced the balance, so the ledger that
    [__init__] leaves, and writes back to the file, has balance 5 and not
    the configured 200000. *)
Theorem load_error_keeps_loaded_balance v :
  let raw_data :=
    JObject [ ("balance", JInt 5);
              ("positions", JObject [ ("SBER", JObject []) ]) ] in
  let p := __init__ v active_config (Parsed raw_data) in
  snd (run_steps (load_steps v) raw_data (default_data active_config)) = false
  /\ balance (default_data active_config) = 200000
  /\ balance (self_data p) = 5
  /\ self_data p <> default_data active_config
  /\ storage p = Parsed (serializable_data (self_data p)).
Proof.
  cbv zeta. split; [by vm_compute|]. split; [by vm_compute|].
  split; [by vm_compute|]. split; [|by vm_compute].
  intros Heq. apply (f_equal balance) in Heq. vm_compute in Heq.
  discriminate.
Qed.


(** *** The two branches in general, and the outcomes of a call *)

Lemma same_but_costs_fields d d' :
  same_but_costs d d' ->
  core_unchanged d d' /\ atr_history d' = atr_history d.
Proof. intros ->. by destruct d. Qed.

Lemma close_position_spec c now r d ticker cp price atr :
  let ep :=
    fst (_calculate_execution_price c r d ticker price (lots cp)
           (if (lots cp <? 0)%Z then Sell else Buy) atr) in
  let d1 :=
    snd (_calculate_execution_price c r d ticker price (lots cp)
           (if (lots cp <? 0)%Z then Sell else Buy) atr) in
  let profit := (ep - avg_price cp) * inject_Z (lots cp) in
  let commission := Qabs (ep * inject_Z (lots cp)) * commission_rate c in
  let d' := close_position c now r d ticker cp price atr in
  balance d' = balance d + (margin cp + (profit - commission))
  /\ used_margin d' = used_margin d - margin cp
  /\ total_commission d' = total_commission d + commission
  /\ positions d' = delete ticker (positions d)
  /\ balance_history d' = balance_history d ++ [balance d']
  /\ next_trade_id d' = next_trade_id d
  /\ initial_balance d' = initial_balance d
  /\ atr_history d' = atr_history d
  /\ total_slippage_cost d' = total_slippage_cost d1
  /\ total_spread_cost d' = total_spread_cost d1
  /\ exists x,
       history d' = history d ++ [x]
       /\ t_action x = ActionClose
       /\ t_ticker x = ticker
       /\ t_lots x = lots cp
       /\ t_trade_id x = trade_id cp
       /\ t_execution_price x = ep
       /\ t_profit x = Some profit
       /\ t_commission x = commission
       /\ t_net_profit x = Some (profit - commission)
       /\ t_margin_released x = Some (margin cp).
Proof.
  cbv zeta. unfold close_position.
  pose proof (_calculate_execution_price_frame c r d ticker price (lots cp)
                (if (lots cp <? 0)%Z then Sell else Buy) atr) as Hf.
  destruct (_calculate_execution_price _ _ _ _ _ _ _ _) as [ep d1].
  cbn [fst snd] in *. rewrite Hf. destruct d. simpl.
  repeat split. eexists. repeat split.
Qed.

Lemma open_or_resize_spec
    c now r d ticker cp target diff price sl tp mpl atr d' :
  open_or_resize c now r d ticker cp target diff price sl tp mpl atr = inr d' ->
  let dir := if (target <? 0)%Z then Buy else Sell in
  let ep := fst (_calculate_execution_price c r d ticker price target dir atr) in
  let d1 := snd (_calculate_execution_price c r d ticker price target dir atr) in
  let required := default (ep * (1 # 10)) mpl * inject_Z (Z.abs target) in
  let commission := Qabs (ep * inject_Z (Z.abs diff)) * commission_rate c in
  required <= balance d - used_margin d
  /\ balance d' = balance d - (required - margin cp + commission)
  /\ used_margin d' = used_margin d + (required - margin cp)
  /\ total_commission d' = total_commission d + commission
  /\ balance_history d' = balance_history d
  /\ next_trade_id d'
     = match trade_id cp with
       | Some _ => next_trade_id d
       | None => (next_trade_id d + 1)%Z
       end
  /\ initial_balance d' = initial_balance d
  /\ atr_history d' = atr_history d
  /\ total_slippage_cost d' = total_slippage_cost d1
  /\ total_spread_cost d' = total_spread_cost d1
  /\ (exists x,
        positions d' = <[ticker := x]> (positions d)
        /\ lots x = target
        /\ avg_price x = ep
        /\ margin x = required
        /\ stop_loss x = sl
        /\ take_profit x = tp
        /\ trade_id x = Some (default (next_trade_id d) (trade_id cp))
        /\ opened_at x = Some (default now (opened_at cp))
        /\ accumulated_commission x = accumulated_commission cp + commission)
  /\ exists x,
       history d' = history d ++ [x]
       /\ t_action x = ActionUpdate
       /\ t_ticker x = ticker
       /\ t_lots x = target
       /\ t_execution_price x = ep
       /\ t_commission x = commission
       /\ t_margin_reserved x = Some required.
Proof.
  unfold open_or_resize. cbv zeta.
  pose proof (_calculate_execution_price_frame c r d ticker price target
                (if (target <? 0)%Z then Buy else Sell) atr) as Hf.
  destruct (_calculate_execution_price _ _ _ _ _ _ _ _) as [ep d1].
  cbn [fst snd] in *.
  destruct (same_but_costs_fields _ _ Hf)
    as ((Hb & Hi & Hp & Hh & Hu & Hc & Hn & Hbh) & Ha).
  destruct (Py.gtb _ _) eqn:Hgt; [discriminate|].
  apply PyFacts.gtb_le in Hgt. rewrite Hb, Hu in Hgt.
  assert (match mpl with Some m => m | None => ep * (1 # 10) end
          = default (ep * (1 # 10)) mpl) as Hm by (by destruct mpl).
  rewrite Hm in *.
  destruct (trade_id cp) as [i|] eqn:Ei, (opened_at cp) as [o|] eqn:Eo;
    intros [= <-]; simpl;
    rewrite ?Hb, ?Hi, ?Hp, ?Hh, ?Hu, ?Hc, ?Hn, ?Hbh, ?Ha;
    (split; [exact Hgt|]);
    repeat split; eexists; repeat split.
Qed.

(** What a call of [update_position] can be: the outcome together with the
    branch that produced the new object. *)
Lemma update_position_cases c now r p ticker target price sl tp mpl atr :
  let res := update_position c now r p ticker target price sl tp mpl atr in
  let cp := default no_position (positions (self_data p) !! ticker) in
  let d0 := record_atr (self_data p) ticker atr in
  let rc := risk_check c now (risk_manager p) d0 target price in
  (fst res = NoChange /\ snd res = p /\ target = lots cp)
  \/ (exists why, fst res = TradingForbidden why /\ snd res = p)
  \/ (exists why,
        fst res = RiskVeto why /\ fst rc = Some why
        /\ snd res = {| self_data := d0; risk_manager := snd rc;
                        storage := storage p |})
  \/ (fst res = Closed /\ target = 0%Z /\ lots cp <> 0%Z
      /\ fst rc = None
      /\ snd res = _save {| self_data :=
                              close_position c now r d0 ticker cp price atr;
                            risk_manager := snd rc;
                            storage := storage p |})
  \/ (exists required available d',
        fst res = InsufficientFunds required available
        /\ target <> 0%Z /\ fst rc = None
        /\ open_or_resize c now r d0 ticker cp target (target - lots cp)
                          price sl tp mpl atr
           = inl (required, available, d')
        /\ snd res = {| self_data := d'; risk_manager := snd rc;
                        storage := storage p |})
  \/ (exists d',
        fst res = Updated /\ target <> 0%Z /\ target <> lots cp
        /\ fst rc = None
        /\ open_or_resize c now r d0 ticker cp target (target - lots cp)
                          price sl tp mpl atr
           = inr d'
        /\ snd res = _save {| self_data := d'; risk_manager := snd rc;
                              storage := storage p |}).
Proof.
  cbv zeta. unfold update_position.
  set (cp := default no_position (positions (self_data p) !! ticker)).
  destruct (target - lots cp =? 0)%Z eqn:E0.
  { apply Z.eqb_eq in E0. left. repeat split. lia. }
  apply Z.eqb_neq in E0.
  destruct (TradingRestrictions.can_trade now) as [[] closed]; cbn [negb].
  2:{ right. left. by exists closed. }
  rewrite validate_position_size_accepts. cbn [negb].
  destruct (risk_check _ _ _ _ _ _) as [[why|] rm]; cbn [fst snd].
  { right. right. left. by exists why. }
  destruct (target =? 0)%Z eqn:E1.
  { apply Z.eqb_eq in E1. subst target.
    right. right. right. left. repeat split. lia. }
  apply Z.eqb_neq in E1.
  destruct (open_or_resize _ _ _ _ _ _ _ _ _ _ _ _ _)
    as [[[required available] d']|d'] eqn:E.
  - do 4 right. left. exists required, available, d'. repeat split; done || lia.
  - do 5 right. exists d'. repeat split; done || lia.
Qed.

(** X12.  [_update_atr_history] keeps a bounded window per ticker: after
    the call the ticker's history ends with the new value, holds at most
    100 values, namely the last ones of the old history followed by the
    new value (the oldest are dropped first), and the histories of the
    other tickers are untouched. *)
Theorem _update_atr_history_window d ticker atr :
  let old := default [] (atr_history d !! ticker) in
  let d' := _update_atr_history d ticker atr in
  exists new,
    atr_history d' !! ticker = Some new
    /\ length new = Nat.min (length old + 1) max_history
    /\ last new = Some atr
    /\ (exists dropped, old ++ [atr] = dropped ++ new)
    /\ forall other, other <> ticker ->
         atr_history d' !! other = atr_history d !! other.
Proof.
  cbv zeta. unfold _update_atr_history.
  set (l := default [] (atr_history d !! ticker) ++ [atr]).
  assert (length l = length (default [] (atr_history d !! ticker)) + 1)%nat
    as Hlen by (unfold l; rewrite length_app; simpl; lia).
  eexists. split.
  { destruct d; simpl. apply lookup_insert_eq. }
  destruct (max_history <? length l)%nat eqn:E.
  - apply Nat.ltb_lt in E. split; [|split; [|split]].
    + rewrite length_drop. lia.
    + rewrite last_lookup, lookup_drop, length_drop.
      replace (length l - max_history + pred (length l - (length l - max_history)))%nat
        with (pred (length l)) by (unfold max_history in *; lia).
      rewrite <- last_lookup. unfold l. apply last_snoc.
    + exists (take (length l - max_history) l). by rewrite take_drop.
    + intros other Hne. destruct d; simpl. by rewrite lookup_insert_ne.
  - apply Nat.ltb_ge in E. split; [|split; [|split]].
    + lia.
    + unfold l. apply last_snoc.
    + by exists [].
    + intros other Hne. destruct d; simpl. by rewrite lookup_insert_ne.
Qed.

(** X13.  The two logs are append-only.  A call that closes a position
    appends one ["close"] record to [history] and the new balance to
    [balance_history]; a call that opens or resizes appends one ["update"]
    record and leaves [balance_history] alone; every other call (no change,
    any refusal) leaves both logs as they were. *)
Theorem update_position_logs c now r p ticker target price sl tp mpl atr :
  let res := update_position c now r p ticker target price sl tp mpl atr in
  let d := self_data p in
  let d' := self_data (snd res) in
  match fst res with
  | Closed =>
      (exists x, history d' = history d ++ [x] /\ t_action x = ActionClose)
      /\ balance_history d' = balance_history d ++ [balance d']
  | Updated =>
      (exists x, history d' = history d ++ [x] /\ t_action x = ActionUpdate)
      /\ balance_history d' = balance_history d
  | _ => history d' = history d /\ balance_history d' = balance_history d
  end.
Proof.
  cbv zeta.
  destruct (record_atr_core (self_data p) ticker atr)
    as ((_ & _ & _ & Hh0 & _ & _ & _ & Hbh0) & _).
  destruct (update_position_cases c now r p ticker target price sl tp mpl atr)
    as [(-> & -> & _)
       |[(why & -> & ->)
       |[(why & -> & _ & ->)
       |[(-> & _ & _ & _ & ->)
       |[(required & available & d' & -> & _ & _ & E & ->)
       |(d' & -> & _ & _ & _ & E & ->)]]]]]; cbn [self_data _save].
  - done.
  - done.
  - done.
  - destruct (close_position_spec c now r
                (record_atr (self_data p) ticker atr) ticker
                (default no_position (positions (self_data p) !! ticker))
                price atr)
      as (_ & _ & _ & _ & Hbh & _ & _ & _ & _ & _ & x & Hh & Ha & _).
    rewrite Hh0 in Hh. rewrite Hbh0 in Hbh. split; [by exists x|done].
  - apply open_or_resize_refused, same_but_costs_core in E.
    destruct E as (_ & _ & _ & Hh & _ & _ & _ & Hbh).
    by rewrite Hh, Hbh.
  - apply open_or_resize_spec in E
      as (_ & _ & _ & _ & Hbh & _ & _ & _ & _ & _ & _ & x & Hh & Ha & _).
    rewrite Hh0 in Hh. rewrite Hbh0 in Hbh. split; [by exists x|done].
Qed.

(** X14.  On whole lots the size check of [TradingRestrictions] accepts
    every target, so [update_position] never refuses a call for an invalid
    size. *)
Theorem update_position_never_invalid_size
    c now r p ticker target price sl tp mpl atr why :
  TradingRestrictions.validate_position_size target = (true, None)
  /\ fst (update_position c now r p ticker target price sl tp mpl atr)
     <> InvalidSize why.
Proof.
  split; [apply validate_position_size_accepts|].
  destruct (update_position_cases c now r p ticker target price sl tp mpl atr)
    as [(-> & _)
       |[(? & -> & _)
       |[(? & -> & _)
       |[(-> & _)
       |[(? & ? & ? & -> & _)
       |(? & -> & _)]]]]]; done.
Qed.


(** *** Invariants and accounting of the accepted calls *)

Lemma do_call_well_formed c p k :
  positions_well_formed (self_data p) ->
  positions_well_formed (self_data (do_call c p k)).
Proof.
  intros (Hnext & Hpos & Hids). unfold do_call.
  destruct k as [now r ticker target price sl tp mpl atr]; cbn [call_now
    call_random_factor call_ticker call_target_lots call_current_price
    call_stop_loss call_take_profit call_margin_per_lot call_atr].
  destruct (record_atr_core (self_data p) ticker atr)
    as ((_ & _ & Hp0 & _ & _ & _ & Hn0 & _) & _).
  set (d0 := record_atr (self_data p) ticker atr) in *.
  assert (positions_well_formed d0) as Hwf0.
  { unfold positions_well_formed. by rewrite Hp0, Hn0. }
  destruct (update_position_cases c now r p ticker target price sl tp mpl atr)
    as [(_ & -> & _)
       |[(why & _ & ->)
       |[(why & _ & _ & ->)
       |[(_ & _ & _ & _ & ->)
       |[(required & available & d' & _ & _ & _ & E & ->)
       |(d' & _ & Ht & _ & _ & E & ->)]]]]]; cbn [self_data _save];
    fold d0; try fold d0 in E.
  - done.
  - done.
  - done.
  - destruct (close_position_spec c now r d0 ticker
                (default no_position (positions (self_data p) !! ticker))
                price atr)
      as (_ & _ & _ & Hp' & _ & Hn' & _).
    fold d0 in Hp', Hn'.
    unfold positions_well_formed. rewrite Hp', Hn', Hp0, Hn0.
    split; [done|]. split.
    + intros k x Hk. apply lookup_delete_Some in Hk as [_ Hk]. eauto.
    + intros k1 k2 x1 x2 H1 H2.
      apply lookup_delete_Some in H1 as [_ H1].
      apply lookup_delete_Some in H2 as [_ H2]. eauto.
  - apply open_or_resize_refused, same_but_costs_core in E.
    destruct E as (_ & _ & Hp' & _ & _ & _ & Hn' & _).
    unfold positions_well_formed. by rewrite Hp', Hn', Hp0, Hn0.
  - apply open_or_resize_spec in E
      as (_ & _ & _ & _ & _ & Hn' & _ & _ & _ & _
          & (x & Hp' & Hx1 & _ & _ & _ & _ & Hx2 & Hx3 & _) & _).
    fold d0 in Hp', Hn'. rewrite Hp0 in Hp'. rewrite Hn0 in Hn', Hx2.
    unfold positions_well_formed. rewrite Hp'.
    destruct (positions (self_data p) !! ticker) as [cp|] eqn:Ecp;
      cbn [default from_option id] in *.
    + destruct (Hpos _ _ Ecp) as (_ & _ & i & Hi & Hrange).
      rewrite Hi in Hn', Hx2. cbn [default from_option id] in Hx2. rewrite Hn'.
      split; [done|]. split.
      * intros k y Hk. apply lookup_insert_Some in Hk as [[<- <-]|[Hne Hk]].
        -- rewrite Hx1, Hx3, Hx2. split; [done|]. split; [eauto|]. eauto.
        -- eauto.
      * intros k1 k2 x1 x2 H1 H2 Heq.
        apply lookup_insert_Some in H1 as [[<- <-]|[Hne1 H1]];
          apply lookup_insert_Some in H2 as [[<- <-]|[Hne2 H2]].
        -- done.
        -- rewrite Hx2, <- Hi in Heq. eapply Hids; eauto.
        -- rewrite Hx2, <- Hi in Heq. eapply Hids; eauto.
        -- eapply Hids; eauto.
    + cbn [no_position trade_id default from_option id] in Hn', Hx2. rewrite Hn'.
      split; [lia|]. split.
      * intros k y Hk. apply lookup_insert_Some in Hk as [[<- <-]|[Hne Hk]].
        -- rewrite Hx1, Hx3, Hx2. split; [done|]. split; [eauto|].
           eexists. split; [done|]. lia.
        -- destruct (Hpos _ _ Hk) as (Hl & Ho & i & Hi & Hrange).
           split; [done|]. split; [done|]. exists i. split; [done|]. lia.
      * intros k1 k2 x1 x2 H1 H2 Heq.
        apply lookup_insert_Some in H1 as [[<- <-]|[Hne1 H1]];
          apply lookup_insert_Some in H2 as [[<- <-]|[Hne2 H2]].
        -- done.
        -- destruct (Hpos _ _ H2) as (_ & _ & i & Hi & Hrange).
           rewrite Hx2, Hi in Heq. injection Heq as <-. lia.
        -- destruct (Hpos _ _ H1) as (_ & _ & i & Hi & Hrange).
           rewrite Hx2, Hi in Heq. injection Heq as ->. lia.
        -- eapply Hids; eauto.
Qed.

(** X15.  On the new ledger and after every sequence of [update_position]
    calls, every stored position has a non-zero number of lots, an opening
    time and a trade id between 1 and [next_trade_id] (excluded), and the
    positions of two different tickers never share a trade id. *)
Theorem positions_stay_well_formed c ks :
  positions_well_formed (self_data (run c (new_portfolio c) ks)).
Proof.
  assert (positions_well_formed (self_data (new_portfolio c))) as H0.
  { split; [simpl; lia|]. split.
    - intros k x Hk. simpl in Hk. by rewrite lookup_empty in Hk.
    - intros k1 k2 x1 x2 H1. simpl in H1. by rewrite lookup_empty in H1. }
  revert H0. generalize (new_portfolio c). unfold run.
  induction ks as [|k ks IH]; intros p Hp; simpl; [done|].
  apply IH. by apply do_call_well_formed.
Qed.






(** *** Costs, risk limits, summary and exits *)

Lemma _calculate_execution_price_costs c r d ticker price l dir atr :
  let d1 := snd (_calculate_execution_price c r d ticker price l dir atr) in
  total_spread_cost d <= total_spread_cost d1
  /\ total_slippage_cost d <= total_slippage_cost d1.
Proof.
  cbv zeta. unfold _calculate_execution_price.
  assert (forall x, 0 <= Qabs x * inject_Z (Z.abs l)) as Hcost.
  { intros x. apply Qmult_le_0_compat; [apply Qabs_nonneg|].
    change 0 with (inject_Z 0). rewrite <- Zle_Qle. lia. }
  destruct (spread_calculator c) as [sc|], (slippage_simulator c) as [ss|];
    destruct d; cbn [snd total_spread_cost total_slippage_cost
                     set_total_spread_cost set_total_slippage_cost].
  - split.
    + match goal with |- _ <= _ + Qabs ?x * _ => specialize (Hcost x) end. lra.
    + match goal with |- _ <= _ + Qabs ?x * _ => specialize (Hcost x) end. lra.
  - split; [|lra].
    match goal with |- _ <= _ + Qabs ?x * _ => specialize (Hcost x) end. lra.
  - split; [lra|].
    match goal with |- _ <= _ + Qabs ?x * _ => specialize (Hcost x) end. lra.
  - split; lra.
Qed.

(** X18.  The three lifetime cost counters never go down: with a commission
    rate that is not negative, after any call of [update_position] the
    total commission, the total slippage cost and the total spread cost are
    each at least what they were. *)
Theorem update_position_costs_grow
    c now r p ticker target price sl tp mpl atr :
  0 <= commission_rate c ->
  let d := self_data p in
  let d' := self_data
              (snd (update_position c now r p ticker target price
                                    sl tp mpl atr)) in
  total_commission d <= total_commission d'
  /\ total_slippage_cost d <= total_slippage_cost d'
  /\ total_spread_cost d <= total_spread_cost d'.
Proof.
  intros Hrate. cbv zeta.
  assert (forall x, 0 <= Qabs x * commission_rate c) as Hcom.
  { intros x. apply Qmult_le_0_compat; [apply Qabs_nonneg|done]. }
  destruct (record_atr_core (self_data p) ticker atr)
    as ((_ & _ & _ & _ & _ & Hc0 & _ & _) & Hsl0 & Hsp0).
  set (d0 := record_atr (self_data p) ticker atr) in *.
  destruct (update_position_cases c now r p ticker target price sl tp mpl atr)
    as [(_ & -> & _)
       |[(why & _ & ->)
       |[(why & _ & _ & ->)
       |[(_ & _ & _ & _ & ->)
       |[(required & available & d' & _ & _ & _ & E & ->)
       |(d' & _ & _ & _ & _ & E & ->)]]]]]; cbn [self_data _save];
    fold d0; try fold d0 in E.
  - repeat split; lra.
  - repeat split; lra.
  - rewrite Hc0, Hsl0, Hsp0. repeat split; lra.
  - set (cp := default no_position (positions (self_data p) !! ticker)).
    destruct (close_position_spec c now r d0 ticker cp price atr)
      as (_ & _ & Hc & _ & _ & _ & _ & _ & Hsl & Hsp & _).
    destruct (_calculate_execution_price_costs c r d0 ticker price (lots cp)
                (if (lots cp <? 0)%Z then Sell else Buy) atr) as [H1 H2].
    rewrite Hc, Hsl, Hsp, Hc0. rewrite Hsl0 in H2. rewrite Hsp0 in H1.
    split; [|done].
    match goal with |- _ <= _ + Qabs ?x * _ => specialize (Hcom x) end. lra.
  - unfold open_or_resize in E.
    pose proof (_calculate_execution_price_costs c r d0 ticker price target
                  (if (target <? 0)%Z then Buy else Sell) atr) as [H1 H2].
    pose proof (_calculate_execution_price_frame c r d0 ticker price target
                  (if (target <? 0)%Z then Buy else Sell) atr) as Hf.
    destruct (_calculate_execution_price _ _ _ _ _ _ _ _) as [ep d1].
    cbn [snd] in *. destruct (Py.gtb _ _).
    + injection E as _ _ <-.
      apply same_but_costs_core in Hf as (_ & _ & _ & _ & _ & -> & _).
      rewrite Hc0. rewrite Hsl0 in H2. rewrite Hsp0 in H1.
      split; [lra|done].
    + destruct (trade_id _); discriminate.
  - set (cp := default no_position (positions (self_data p) !! ticker)) in *.
    apply open_or_resize_spec in E
      as (_ & _ & _ & Hc & _ & _ & _ & _ & Hsl & Hsp & _).
    destruct (_calculate_execution_price_costs c r d0 ticker price target
                (if (target <? 0)%Z then Buy else Sell) atr) as [H1 H2].
    rewrite Hc, Hsl, Hsp, Hc0. rewrite Hsl0 in H2. rewrite Hsp0 in H1.
    split; [|done].
    match goal with |- _ <= _ + Qabs ?x * _ => specialize (Hcom x) end. lra.
Qed.

Lemma update_position_costs_grow_witness :
  let p := new_portfolio active_config in
  let d' := self_data
              (snd (update_position active_config noon 1 p "SBER" 1 100
                                    None None None (Some 5))) in
  total_commission (self_data p) <= total_commission d'
  /\ total_slippage_cost (self_data p) <= total_slippage_cost d'
  /\ total_spread_cost (self_data p) <= total_spread_cost d'.
Proof.
  apply (update_position_costs_grow active_config noon 1
           (new_portfolio active_config) "SBER" 1 100 None None None (Some 5)).
  by vm_compute.
Defined.

Lemma can_open_position_limits rc t s b n v :
  fst (fst (RiskManager.can_open_position rc t s b n v)) = true ->
  RiskManager.calculate_drawdown s b < RiskManager.max_drawdown rc
  /\ (n < RiskManager.max_positions rc)%Z
  /\ v <= b * RiskManager.max_position_size rc.
Proof.
  unfold RiskManager.can_open_position, RiskManager.check_max_drawdown,
    RiskManager.check_daily_loss_limit, RiskManager.check_position_count,
    RiskManager.validate_position_size.
  destruct (Py.geb _ (RiskManager.max_drawdown rc)) eqn:E1; simpl; [done|].
  apply PyFacts.geb_lt in E1.
  destruct (Py.leb _ (- RiskManager.daily_loss_limit rc)); simpl; [done|].
  destruct (n >=? RiskManager.max_positions rc)%Z eqn:E3; simpl; [done|].
  destruct (Py.gtb v _) eqn:E4; simpl; [done|].
  apply PyFacts.gtb_le in E4. intros _. split; [done|]. split; [|done].
  destruct (Z.ltb_spec n (RiskManager.max_positions rc)) as [|Hge]; [done|].
  apply Z.geb_le in Hge. congruence.
Qed.

(** X19.  With the risk manager enabled, an open or a resize that
    [update_position] accepts respected the limits as they stood before
    the call: the position value [|price × |target||] is at most the
    allowed share of the balance, the number of open positions is below
    its maximum, and the drawdown from the peak is below its maximum. *)
Theorem accepted_update_respects_limits
    c rc now r p ticker target price sl tp mpl atr :
  risk_config c = Some rc ->
  fst (update_position c now r p ticker target price sl tp mpl atr) = Updated ->
  let d := self_data p in
  Qabs (price * inject_Z (Z.abs target))
  <= balance d * RiskManager.max_position_size rc
  /\ (Z.of_nat (size (positions d)) < RiskManager.max_positions rc)%Z
  /\ RiskManager.calculate_drawdown (risk_manager p) (balance d)
     < RiskManager.max_drawdown rc.
Proof.
  intros Hrc Hres. cbv zeta.
  destruct (update_position_cases c now r p ticker target price sl tp mpl atr)
    as [(H & _)
       |[(? & H & _)
       |[(? & H & _)
       |[(H & _)
       |[(? & ? & ? & H & _)
       |(d' & _ & Ht & _ & Hveto & _)]]]]];
    try (rewrite H in Hres; discriminate).
  rewrite risk_check_record_atr in Hveto. unfold risk_check in Hveto.
  rewrite Hrc in Hveto.
  destruct (target =? 0)%Z eqn:E0; [apply Z.eqb_eq in E0; done|].
  cbn [negb] in Hveto.
  pose proof (can_open_position_limits rc (dt_date now) (risk_manager p)
                (balance (self_data p))
                (Z.of_nat (size (positions (self_data p))))
                (Qabs (price * inject_Z (Z.abs target)))) as Hlim.
  destruct (RiskManager.can_open_position _ _ _ _ _ _) as [[[] why] rm];
    cbn [fst snd negb] in *; [|done].
  destruct Hlim as (H1 & H2 & H3); done.
Qed.

Lemma accepted_update_respects_limits_witness :
  let c := active_config in
  let rc := RiskManager.make_config 20 2 5 5 25 in
  let p := new_portfolio c in
  Qabs (100 * inject_Z (Z.abs 1))
  <= balance (self_data p) * RiskManager.max_position_size rc
  /\ (Z.of_nat (size (positions (self_data p)))
      < RiskManager.max_positions rc)%Z
  /\ RiskManager.calculate_drawdown (risk_manager p) (balance (self_data p))
     < RiskManager.max_drawdown rc.
Proof.
  apply (accepted_update_respects_limits active_config
           (RiskManager.make_config 20 2 5 5 25) noon 1
           (new_portfolio active_config) "SBER" 1 100 None None None (Some 5));
    by vm_compute.
Defined.




(** X21.  With the risk manager enabled, [get_portfolio_summary] brings
    the watermark up to the balance: afterwards the peak balance is at
    least the balance of the ledger, and the ledger and the file are
    untouched. *)
Theorem get_portfolio_summary_raises_peak c rc p :
  risk_config c = Some rc ->
  let p' := get_portfolio_summary c p in
  balance (self_data p) <= RiskManager.peak_balance (risk_manager p')
  /\ RiskManager.peak_balance (risk_manager p)
     <= RiskManager.peak_balance (risk_manager p')
  /\ self_data p' = self_data p
  /\ storage p' = storage p.
Proof.
  intros Hrc. cbv zeta. unfold get_portfolio_summary. rewrite Hrc.
  cbn [self_data risk_manager storage].
  unfold RiskManager.update_peak_balance.
  destruct (Py.gtb _ _) eqn:E; cbn [RiskManager.peak_balance].
  - apply PyFacts.gtb_gt in E. repeat split; lra.
  - apply PyFacts.gtb_le in E. repeat split; lra.
Qed.

Lemma get_portfolio_summary_raises_peak_witness :
  let p := new_portfolio active_config in
  let p' := get_portfolio_summary active_config p in
  balance (self_data p) <= RiskManager.peak_balance (risk_manager p')
  /\ RiskManager.peak_balance (risk_manager p)
     <= RiskManager.peak_balance (risk_manager p')
  /\ self_data p' = self_data p
  /\ storage p' = storage p.
Proof.
  apply (get_portfolio_summary_raises_peak active_config
           (RiskManager.make_config 20 2 5 5 25)
           (new_portfolio active_config)).
  reflexivity.
Defined.

Lemma level_hit_Some level cmp price :
  level_hit level cmp price = true ->
  exists l, level = Some l /\ ~ l == 0 /\ cmp price l = true.
Proof.
  unfold level_hit. destruct level as [l|]; [|done].
  intros H. apply andb_prop in H as [Ht Hc].
  exists l. split; [done|]. split; [|done].
  intros H0. unfold Py.truthy in Ht. apply PyFacts.eqb_eq in H0.
  by rewrite H0 in Ht.
Qed.

(** X22.  A reported exit is a real one.  When
    [check_stop_loss_take_profit] answers, the ticker has a position with
    non-zero lots and the reported level is set and not zero; the price is
    on the triggering side of it: for negative lots a stop-loss at or
    above the price and a take-profit at or below it, for positive lots
    the other way round.  A ticker without a position never triggers. *)
Theorem check_stop_loss_take_profit_sound p ticker price :
  (positions (self_data p) !! ticker = None ->
   check_stop_loss_take_profit p ticker price = None)
  /\ forall reason,
       check_stop_loss_take_profit p ticker price = Some reason ->
       exists pos level,
         positions (self_data p) !! ticker = Some pos
         /\ lots pos <> 0%Z
         /\ ~ level == 0
         /\ match reason with
            | StopLoss =>
                stop_loss pos = Some level
                /\ if (lots pos <? 0)%Z then price <= level
                   else level <= price
            | TakeProfit =>
                take_profit pos = Some level
                /\ if (lots pos <? 0)%Z then level <= price
                   else price <= level
            end.
Proof.
  unfold check_stop_loss_take_profit. split; [by intros ->|].
  intros reason.
  destruct (positions (self_data p) !! ticker) as [pos|]; [|done].
  destruct (lots pos <? 0)%Z eqn:Eneg.
  - pose proof Eneg as Eb. apply Z.ltb_lt in Eneg.
    destruct (level_hit (stop_loss pos) Py.leb price) eqn:E1.
    { intros [= <-]. apply level_hit_Some in E1 as (l & Hl & Hnz & Hc).
      apply PyFacts.leb_le in Hc. exists pos, l.
      rewrite Eb. split; [done|]. split; [lia|]. done. }
    destruct (level_hit (take_profit pos) Py.geb price) eqn:E2; [|done].
    intros [= <-]. apply level_hit_Some in E2 as (l & Hl & Hnz & Hc).
    apply PyFacts.geb_ge in Hc. exists pos, l.
    rewrite Eb. split; [done|]. split; [lia|]. done.
  - pose proof Eneg as Eb. apply Z.ltb_ge in Eneg.
    destruct (lots pos >? 0)%Z eqn:Epos; [|done].
    apply Z.gtb_lt in Epos.
    destruct (level_hit (stop_loss pos) Py.geb price) eqn:E1.
    { intros [= <-]. apply level_hit_Some in E1 as (l & Hl & Hnz & Hc).
      apply PyFacts.geb_ge in Hc. exists pos, l.
      rewrite Eb. split; [done|]. split; [lia|]. done. }
    destruct (level_hit (take_profit pos) Py.leb price) eqn:E2; [|done].
    intros [= <-]. apply level_hit_Some in E2 as (l & Hl & Hnz & Hc).
    apply PyFacts.leb_le in Hc. exists pos, l.
    rewrite Eb. split; [done|]. split; [lia|]. done.
Qed.


(** *** Writing a snapshot and reading it back *)

Lemma load_position_serialized v x :
  load_position v (position_to_json x) = Some (reloaded v x).
Proof.
  unfold load_position, position_to_json, reloaded, if_truthy.
  cbn [Json.lookup Json.index_decimal Json.get_optional_decimal
       Json.get_decimal String.eqb Ascii.eqb Bool.eqb mbind option_bind
       Json.decimal].
  destruct (stop_loss x) as [s|], (take_profit x) as [t|];
    cbn [Json.of_optional_decimal Py.truthy_opt];
    try destruct (Py.truthy s); try destruct (Py.truthy t); reflexivity.
Qed.

Lemma load_position_items_serialized v (l : list (string * position)) :
  load_position_items v (prod_map id position_to_json <$> l)
  = Some (list_to_map (prod_map id (reloaded v) <$> l)).
Proof.
  induction l as [|[k x] l IH]; [done|].
  rewrite !fmap_cons. cbn [prod_map fst snd id load_position_items].
  rewrite load_position_serialized. cbn [mbind option_bind].
  rewrite IH. done.
Qed.

Lemma load_positions_serialized v d :
  load_positions v (serializable_data d) = Some (reloaded v <$> positions d).
Proof.
  change (load_positions v (serializable_data d))
    with (load_position_items v
            (prod_map id position_to_json <$> map_to_list (positions d))).
  rewrite load_position_items_serialized.
  by rewrite list_to_map_fmap, list_to_map_to_list.
Qed.

(** X23.  A snapshot written by [_save] is read back without error.  For
    every ledger [d], starting the engine on the file that [_save] wrote
    for [d] completes the load (the file is left as it is, not rewritten)
    and restores the balance, the initial balance, the used margin and the
    three cost counters exactly; each position comes back with its average
    price, margin and accumulated commission, and with its stop-loss and
    take-profit levels, except that a level of zero comes back as no level.
    When moreover the loaded integers and times are read as they were
    written, every position comes back with all its fields (lots, trade id
    and opening time included, a zero level apart) and [next_trade_id] is
    restored. *)
Theorem load_after_save v c d :
  let p := __init__ v c (Parsed (serializable_data d)) in
  let d' := self_data p in
  storage p = Parsed (serializable_data d)
  /\ balance d' = balance d
  /\ initial_balance d' = initial_balance d
  /\ used_margin d' = used_margin d
  /\ total_commission d' = total_commission d
  /\ total_slippage_cost d' = total_slippage_cost d
  /\ total_spread_cost d' = total_spread_cost d
  /\ positions d' = reloaded v <$> positions d
  /\ (forall k x,
       positions d !! k = Some x ->
       exists x',
         positions d' !! k = Some x'
         /\ avg_price x' = avg_price x
         /\ margin x' = margin x
         /\ accumulated_commission x' = accumulated_commission x
         /\ stop_loss x' = if_truthy (stop_loss x)
         /\ take_profit x' = if_truthy (take_profit x))
  /\ (views_read_back v ->
      positions d' = without_zero_levels <$> positions d
      /\ next_trade_id d' = next_trade_id d).
Proof.
  cbv zeta. unfold __init__, _load. cbn [storage self_data risk_manager].
  unfold load_steps. cbn [run_steps].
  change (Json.get_decimal (serializable_data d) "balance" 200000)
    with (Some (balance d)).
  cbn [mbind option_bind].
  rewrite load_positions_serialized. cbn [mbind option_bind].
  change (Json.get_decimal (serializable_data d) "used_margin" 0)
    with (Some (used_margin d)).
  change (Json.get_decimal (serializable_data d) "total_commission" 0)
    with (Some (total_commission d)).
  change (Json.get_decimal (serializable_data d) "total_slippage_cost" 0)
    with (Some (total_slippage_cost d)).
  change (Json.get_decimal (serializable_data d) "total_spread_cost" 0)
    with (Some (total_spread_cost d)).
  change (Json.get_decimal (serializable_data d) "initial_balance" 200000)
    with (Some (initial_balance d)).
  unfold get_view, serializable_data.
  cbn [mbind option_bind run_steps self_data storage
       balance initial_balance used_margin total_commission
       total_slippage_cost total_spread_cost positions next_trade_id
       set_balance set_positions set_history set_used_margin
       set_total_commission set_total_slippage_cost set_total_spread_cost
       set_next_trade_id set_initial_balance set_balance_history
       set_atr_history].
  repeat (split; [reflexivity|]).
  split.
  - intros k x Hk. exists (reloaded v x). split; [|done].
    by rewrite lookup_fmap, Hk.
  - intros (Hint & Hoint & Hotime). split.
    + apply map_fmap_ext. intros k x _.
      unfold reloaded, without_zero_levels.
      by rewrite Hint, Hoint, Hotime.
    + apply Hint.
Qed.

Lemma load_after_save_witness :
  let d := self_data
             (snd (update_position (scenario_config true) noon 1
                     (new_portfolio (scenario_config true)) "SBER" (-2) 100
                     (Some 0) None (Some 10) None)) in
  let d' := self_data
              (__init__ plain_views (scenario_config true)
                        (Parsed (serializable_data d))) in
  positions d' = without_zero_levels <$> positions d
  /\ next_trade_id d' = next_trade_id d.
Proof.
  cbv zeta.
  apply (load_after_save plain_views (scenario_config true)
           (self_data
              (snd (update_position (scenario_config true) noon 1
                      (new_portfolio (scenario_config true)) "SBER" (-2) 100
                      (Some 0) None (Some 10) None)))).
  split; [done|]. split; intros [o|]; done.
Defined.

End VirtualPortfolioFacts.

(** ** The deferred execution of orders *)

Module OrderExecutionFacts.
Import OrderExecutionSimulator Spec Scenario.

Lemma order_id_eqb_eq a b : order_id_eqb a b = true <-> a = b.
Proof.
  unfold order_id_eqb. rewrite andb_true_iff, !Z.eqb_eq.
  destruct a, b; simpl. split; [by intros [-> ->]|by intros [= -> ->]].
Qed.

Lemma status_step_refl a : status_step a a.
Proof. by left. Qed.

Lemma order_evolves_refl o : order_evolves o o.
Proof. repeat split. apply status_step_refl. Qed.

(** A new key goes to the end of the dictionary. *)
Lemma dict_set_fresh o l :
  Forall (fun x => o_order_id x <> o_order_id o) l ->
  dict_set o l = l ++ [o].
Proof.
  induction 1 as [|x l Hx _ IH]; simpl; [done|].
  destruct (order_id_eqb (o_order_id x) (o_order_id o)) eqn:E.
  - apply order_id_eqb_eq in E. done.
  - by rewrite IH.
Qed.

Lemma dict_get_elem_of i l o :
  dict_get i l = Some o -> o ∈ l /\ o_order_id o = i.
Proof.
  unfold dict_get. intros H. apply find_some in H as [Hin Heq].
  apply order_id_eqb_eq in Heq. split; [|done].
  by apply list_elem_of_In.
Qed.

(** An assignment to the order under [i] changes that order and no other. *)
Lemma dict_update_Forall2 (R : PendingOrder -> PendingOrder -> Prop) i f l :
  (forall o, R o o) ->
  (forall o, dict_get i l = Some o -> R o (f o)) ->
  Forall2 R l (dict_update i f l).
Proof.
  intros Hrefl. induction l as [|x l IH]; intros Hf; simpl; [constructor|].
  unfold dict_get in Hf. simpl in Hf.
  destruct (order_id_eqb (o_order_id x) i) eqn:E.
  - constructor; [by apply Hf|]. apply Forall2_same_length_lookup_2; [done|].
    intros j a b Ha Hb. rewrite Ha in Hb. injection Hb as <-. apply Hrefl.
  - constructor; [apply Hrefl|]. apply IH. exact Hf.
Qed.

Lemma check_order_evolves m now prices o o' ready :
  check_order m now prices o = Some (o', ready) -> order_evolves o o'.
Proof.
  unfold check_order.
  destruct (o_status o) eqn:Es;
    try (intros [= <- _]; apply order_evolves_refl).
  destruct (Py.geb now (o_execute_at o));
    [|intros [= <- _]; apply order_evolves_refl].
  destruct (prices !! o_ticker o) as [cp|].
  - destruct (Py.eqb (o_expected_price o) 0); [done|].
    destruct (Py.gtb _ m); intros [= <- _];
      repeat split; cbn; rewrite Es; right; left; eauto.
  - intros [= <- _]. repeat split; cbn; rewrite Es; right; left; eauto.
Qed.

Lemma check_loop_Forall2 m now prices l :
  Forall2 order_evolves l (fst (check_loop m now prices l)).
Proof.
  induction l as [|o l IH]; simpl; [constructor|].
  destruct (check_order m now prices o) as [[o' ready]|] eqn:E.
  - destruct (check_loop m now prices l) as [rest' rd]. simpl in *.
    constructor; [|done]. by eapply check_order_evolves.
  - simpl. apply Forall2_same_length_lookup_2; [done|].
    intros j a b Ha Hb. rewrite Ha in Hb. injection Hb as <-.
    apply order_evolves_refl.
Qed.

Lemma Forall2_elem_of_l {A B} (R : A -> B -> Prop) l l' x :
  Forall2 R l l' -> x ∈ l -> exists y, y ∈ l' /\ R x y.
Proof.
  intros H Hin. apply list_elem_of_lookup in Hin as [j Hj].
  destruct (Forall2_lookup_l _ _ _ _ _ H Hj) as (y & Hy & HR).
  exists y. split; [|done]. by eapply list_elem_of_lookup_2.
Qed.

(** X26.  The status of an order only moves along
    pending → ready → executed and pending → cancelled.  In a simulator
    whose stored counters were all handed out, after any call every
    stored order is still stored, with the same id, ticker, lots, expected
    price and times, and with a status that is the old one or one
    permitted move further; the only exception is [cleanup_old_orders],
    which removes an order only if it is executed or cancelled and was
    created before the cut-off. *)
Theorem order_status_transitions s k o :
  ids_bounded s ->
  o ∈ pending_orders s ->
  (exists o', o' ∈ pending_orders (step s k) /\ order_evolves o o')
  \/ (is_finished o = true
      /\ exists now hours,
           k = CallCleanup now hours
           /\ o_created_at o < now - inject_Z hours * 3600).
Proof.
  intros Hids Hin. destruct k as [now delay ticker lots price sl tp figi
                                 |now prices|now i|i reason|now hours].
  - left. exists o. split; [|apply order_evolves_refl].
    simpl. rewrite dict_set_fresh.
    + apply elem_of_app. by left.
    + eapply Forall_impl; [exact Hids|]. intros x Hx Heq. simpl in Hx.
      rewrite Heq in Hx. simpl in Hx. lia.
  - left. simpl. unfold check_ready_orders.
    pose proof (check_loop_Forall2 (max_deviation s) now prices
                  (pending_orders s)) as H.
    destruct (check_loop _ _ _ _) as [orders ready]. simpl in *.
    eapply Forall2_elem_of_l; eauto.
  - left. simpl. unfold execute_order.
    destruct (dict_get i (pending_orders s)) as [x|] eqn:Eg;
      [|exists o; split; [done|apply order_evolves_refl]].
    destruct (o_status x) eqn:Es;
      try (exists o; split; [done|apply order_evolves_refl]).
    simpl. eapply Forall2_elem_of_l; [|exact Hin].
    apply dict_update_Forall2; [apply order_evolves_refl|].
    intros y Hy. rewrite Eg in Hy. injection Hy as <-.
    repeat split; cbn. rewrite Es. right. right. done.
  - left. simpl. unfold cancel_order.
    destruct (dict_get i (pending_orders s)) as [x|] eqn:Eg;
      [|exists o; split; [done|apply order_evolves_refl]].
    destruct (o_status x) eqn:Es;
      try (exists o; split; [done|apply order_evolves_refl]).
    simpl. eapply Forall2_elem_of_l; [|exact Hin].
    apply dict_update_Forall2; [apply order_evolves_refl|].
    intros y Hy. rewrite Eg in Hy. injection Hy as <-.
    repeat split; cbn. rewrite Es. right. left. eauto.
  - simpl. unfold cleanup_old_orders. simpl.
    destruct (is_finished o
              && Py.ltb (o_created_at o) (now - inject_Z hours * 3600))
      eqn:E.
    + right. apply andb_prop in E as [Hf Hlt]. apply PyFacts.ltb_lt in Hlt.
      split; [done|]. by exists now, hours.
    + left. exists o. split; [|apply order_evolves_refl].
      apply list_elem_of_In, filter_In. split; [by apply list_elem_of_In|].
      by rewrite E.
Qed.

Lemma order_status_transitions_witness :
  exists o',
    o' ∈ pending_orders
           (step one_order (CallCheckReady 1003 {[ "SBER" := 100.5 ]}))
    /\ order_evolves first_order o'.
Proof.
  destruct (order_status_transitions one_order
              (CallCheckReady 1003 {[ "SBER" := 100.5 ]}) first_order)
    as [H|(Hfin & _)].
  - repeat constructor; by vm_compute.
  - change (first_order ∈ [first_order]). apply list_elem_of_here.
  - exact H.
  - discriminate Hfin.
Defined.

Lemma check_order_ready m now prices o o' :
  check_order m now prices o = Some (o', true) ->
  o_status o = Pending
  /\ o_status o' = Ready
  /\ o_order_id o' = o_order_id o
  /\ o_execute_at o' <= now
  /\ exists current_price,
       prices !! o_ticker o' = Some current_price
       /\ o_actual_price o' = Some current_price
       /\ Qabs (current_price - o_expected_price o') / o_expected_price o'
          <= m.
Proof.
  unfold check_order.
  destruct (o_status o) eqn:Es; try done.
  destruct (Py.geb now (o_execute_at o)) eqn:Et; [|done].
  apply PyFacts.geb_ge in Et.
  destruct (prices !! o_ticker o) as [cp|] eqn:Ep; [|done].
  destruct (Py.eqb (o_expected_price o) 0); [done|].
  destruct (Py.gtb _ m) eqn:Ed; [done|].
  apply PyFacts.gtb_le in Ed. intros [= <-]. cbn.
  repeat split; try done. by exists cp.
Qed.

Lemma check_loop_ready m now prices l l' ready :
  check_loop m now prices l = (l', Some ready) ->
  forall o', o' ∈ ready ->
    o' ∈ l'
    /\ exists o, o ∈ l /\ check_order m now prices o = Some (o', true).
Proof.
  revert l' ready. induction l as [|o l IH]; intros l' ready; simpl.
  { intros [= <- <-] o' Ho. by apply elem_of_nil in Ho. }
  destruct (check_order m now prices o) as [[o1 is_ready]|] eqn:E; [|done].
  destruct (check_loop m now prices l) as [rest' rd] eqn:El.
  destruct rd as [rd|]; [|done]. cbn. intros [= <- <-] o' Ho.
  destruct is_ready.
  - apply elem_of_cons in Ho as [->|Ho].
    + split; [apply list_elem_of_here|]. exists o.
      split; [apply list_elem_of_here|done].
    + destruct (IH _ _ eq_refl o' Ho) as (H1 & x & Hx & Hc).
      split; [by apply list_elem_of_further|]. exists x.
      split; [by apply list_elem_of_further|done].
  - destruct (IH _ _ eq_refl o' Ho) as (H1 & x & Hx & Hc).
    split; [by apply list_elem_of_further|]. exists x.
    split; [by apply list_elem_of_further|done].
Qed.

(** X27.  What [check_ready_orders] hands out is ready to fill.  When the
    call returns, every order of the returned list is stored with status
    ready, was pending before the call, has reached its execution time,
    and carries as actual price the current price of its ticker, which
    deviates from the expected price by at most the configured maximum. *)
Theorem check_ready_orders_sound s now prices ready :
  fst (check_ready_orders s now prices) = Some ready ->
  forall o', o' ∈ ready ->
    o' ∈ pending_orders (snd (check_ready_orders s now prices))
    /\ o_status o' = Ready
    /\ o_execute_at o' <= now
    /\ (exists current_price,
          prices !! o_ticker o' = Some current_price
          /\ o_actual_price o' = Some current_price
          /\ Qabs (current_price - o_expected_price o')
             / o_expected_price o'
             <= max_deviation s)
    /\ exists o,
         o ∈ pending_orders s
         /\ o_order_id o = o_order_id o'
         /\ o_status o = Pending.
Proof.
  unfold check_ready_orders.
  destruct (check_loop (max_deviation s) now prices (pending_orders s))
    as [orders rd] eqn:El.
  cbn. intros -> o' Ho.
  destruct (check_loop_ready _ _ _ _ _ _ El o' Ho) as (Hin & o & Hoin & Hc).
  apply check_order_ready in Hc as (Hp & Hr & Hid & Ht & Hprice).
  split; [done|]. split; [done|]. split; [done|]. split; [done|].
  by exists o.
Qed.

Lemma check_ready_orders_sound_witness :
  fst (check_ready_orders one_order 1003 {[ "SBER" := 100.5 ]})
  = Some [ set_status Ready (set_actual_price (Some 100.5) first_order) ]
  /\ set_status Ready (set_actual_price (Some 100.5) first_order)
       ∈ pending_orders
           (snd (check_ready_orders one_order 1003 {[ "SBER" := 100.5 ]}))
  /\ o_execute_at first_order <= 1003.
Proof.
  assert (fst (check_ready_orders one_order 1003 {[ "SBER" := 100.5 ]})
          = Some [ set_status Ready
                     (set_actual_price (Some 100.5) first_order) ]) as Hfst
    by (vm_compute; reflexivity).
  split; [exact Hfst|].
  destruct (check_ready_orders_sound one_order 1003 {[ "SBER" := 100.5 ]}
              _ Hfst
              (set_status Ready (set_actual_price (Some 100.5) first_order)))
    as (H1 & _ & H2 & _).
  - apply list_elem_of_here.
  - split; [exact H1|exact H2].
Defined.

Lemma evolves_same_ids l l' :
  Forall2 order_evolves l l' -> o_order_id <$> l' = o_order_id <$> l.
Proof.
  induction 1 as [|o o' l l' (Hid & _) _ IH]; [done|].
  rewrite !fmap_cons. by rewrite Hid, IH.
Qed.

Lemma NoDup_fmap_filter {A B} (f : A -> B) (P : A -> bool) (l : list A) :
  NoDup (f <$> l) -> NoDup (f <$> List.filter P l).
Proof.
  induction l as [|x l IH]; [done|].
  rewrite fmap_cons. intros Hnd. apply NoDup_cons in Hnd as [Hx Hnd].
  cbn [List.filter]. destruct (P x); [|by apply IH].
  rewrite fmap_cons. apply NoDup_cons. split; [|by apply IH].
  intros Hin. apply Hx.
  apply list_elem_of_fmap in Hin as (y & -> & Hy).
  apply list_elem_of_fmap. exists y. split; [done|].
  apply list_elem_of_In, filter_In in Hy as [Hy _].
  by apply list_elem_of_In.
Qed.

Lemma step_keeps_ids s k :
  (0 <= order_counter s)%Z ->
  ids_bounded s ->
  NoDup (o_order_id <$> pending_orders s) ->
  (0 <= order_counter (step s k))%Z
  /\ ids_bounded (step s k)
  /\ NoDup (o_order_id <$> pending_orders (step s k)).
Proof.
  intros Hc Hids Hnd.
  assert (forall l',
            o_order_id <$> l' = o_order_id <$> pending_orders s ->
            ids_bounded (set_pending_orders l' s)
            /\ NoDup (o_order_id <$> pending_orders
                                       (set_pending_orders l' s))) as Hsame.
  { intros l' Heq. unfold ids_bounded. cbn. split; [|by rewrite Heq].
    unfold ids_bounded in Hids.
    apply (Forall_fmap o_order_id
             (fun i => (1 <= oid_counter i <= order_counter s)%Z)).
    rewrite Heq. by apply Forall_fmap. }
  destruct k as [now delay ticker lots price sl tp figi
                |now prices|now i|i reason|now hours].
  - cbn [step create_order snd order_counter pending_orders].
    rewrite dict_set_fresh.
    2:{ eapply Forall_impl; [exact Hids|]. intros x Hx Heq. cbn in Hx.
        rewrite Heq in Hx. cbn in Hx. lia. }
    split; [lia|]. split.
    + unfold ids_bounded. cbn. apply Forall_app. split.
      * eapply Forall_impl; [exact Hids|]. intros x Hx. cbn in *. lia.
      * apply Forall_singleton. cbn. lia.
    + rewrite fmap_app. apply NoDup_app. split; [done|]. split.
      * intros i Hi Hi2. apply list_elem_of_fmap in Hi as (x & -> & Hx).
        cbn in Hi2. apply list_elem_of_singleton in Hi2.
        unfold ids_bounded in Hids.
        rewrite Forall_forall in Hids. specialize (Hids x Hx).
        rewrite Hi2 in Hids. cbn in Hids. lia.
      * cbn. apply NoDup_singleton.
  - cbn [step]. unfold check_ready_orders.
    pose proof (check_loop_Forall2 (max_deviation s) now prices
                  (pending_orders s)) as H.
    destruct (check_loop _ _ _ _) as [orders ready]. cbn [fst snd] in *.
    split; [done|]. apply Hsame. by apply evolves_same_ids.
  - cbn [step]. unfold execute_order.
    destruct (dict_get i (pending_orders s)) as [x|] eqn:Eg; [|done].
    destruct (o_status x) eqn:Es; try done.
    cbn [snd]. split; [done|]. apply Hsame. apply evolves_same_ids.
    apply dict_update_Forall2; [apply order_evolves_refl|].
    intros y Hy. rewrite Eg in Hy. injection Hy as <-.
    repeat split; cbn. rewrite Es. right. right. done.
  - cbn [step]. unfold cancel_order.
    destruct (dict_get i (pending_orders s)) as [x|] eqn:Eg; [|done].
    destruct (o_status x) eqn:Es; try done.
    cbn [snd]. split; [done|]. apply Hsame. apply evolves_same_ids.
    apply dict_update_Forall2; [apply order_evolves_refl|].
    intros y Hy. rewrite Eg in Hy. injection Hy as <-.
    repeat split; cbn. rewrite Es. right. left. eauto.
  - cbn [step]. unfold cleanup_old_orders. split; [done|].
    unfold ids_bounded. cbn. split.
    + apply Forall_forall. intros x Hx.
      apply list_elem_of_In, filter_In in Hx as [Hx _].
      unfold ids_bounded in Hids. rewrite Forall_forall in Hids.
      apply Hids. by apply list_elem_of_In.
    + by apply NoDup_fmap_filter.
Qed.

(** X28.  Order ids are never reused.  In every state reached from
    [__init__] by any sequence of calls, the stored orders have pairwise
    different ids whose counters lie between 1 and [order_counter]; and
    [create_order] then adds a new pending order at the end of the
    dictionary, with the next counter and the execution time
    [now + delay], without replacing a stored one. *)
Theorem order_ids_never_reused a b c ks :
  let s := run (__init__ a b c) ks in
  ids_bounded s
  /\ NoDup (o_order_id <$> pending_orders s)
  /\ forall now delay ticker lots price sl tp figi,
       let r := create_order s now delay ticker lots price sl tp figi in
       exists o,
         pending_orders (snd r) = pending_orders s ++ [o]
         /\ o_order_id o = fst r
         /\ oid_counter (fst r) = (order_counter s + 1)%Z
         /\ o_status o = Pending
         /\ o_execute_at o = now + delay
         /\ o_direction o
            = (if (lots =? 0)%Z then DirClose
               else if (lots <? 0)%Z then DirBuy else DirSell).
Proof.
  cbv zeta.
  assert ((0 <= order_counter (run (__init__ a b c) ks))%Z
          /\ ids_bounded (run (__init__ a b c) ks)
          /\ NoDup (o_order_id <$> pending_orders (run (__init__ a b c) ks)))
    as (Hc & Hids & Hnd).
  { unfold run.
    assert ((0 <= order_counter (__init__ a b c))%Z
            /\ ids_bounded (__init__ a b c)
            /\ NoDup (o_order_id <$> pending_orders (__init__ a b c))) as H0.
    { split; [done|]. split; [constructor|]. cbn. constructor. }
    revert H0. generalize (__init__ a b c).
    induction ks as [|k ks IH]; intros s H0; simpl; [done|].
    apply IH. destruct H0 as (H1 & H2 & H3). by apply step_keeps_ids. }
  split; [done|]. split; [done|].
  intros now delay ticker lots price sl tp figi.
  unfold create_order. cbn [fst snd pending_orders].
  eexists. split.
  - apply dict_set_fresh.
    eapply Forall_impl; [exact Hids|]. intros x Hx Heq. cbn in Hx.
    rewrite Heq in Hx. cbn in Hx. lia.
  - repeat split.
Qed.

End OrderExecutionFacts.

(** ** [converters] *)

Module ConvertersFacts.
Import Converters.

Lemma quotation_to_decimal_nano q :
  (quotation_to_decimal (Some q) - inject_Z (units q)) * 1000000000
  == inject_Z (nano q).
Proof. unfold quotation_to_decimal. field. Qed.

(** X29.  A quotation whose billionths are below one unit in size and have
    the sign of its units survives the round trip through
    [quotation_to_decimal] and [decimal_to_quotation] unchanged. *)
Theorem quotation_round_trip q :
  (Z.abs (nano q) < 1000000000)%Z ->
  (0 <= units q /\ 0 <= nano q)%Z \/ (units q <= 0 /\ nano q <= 0)%Z ->
  decimal_to_quotation (quotation_to_decimal (Some q)) = q.
Proof.
  intros Hn Hsign. destruct q as [u n]. cbn [units nano] in *.
  assert (inject_Z (Z.abs n) < 1000000000) as Hq.
  { change 1000000000 with (inject_Z 1000000000). by rewrite <- Zlt_Qlt. }
  assert (Py.int (quotation_to_decimal (Some (MkQuotation u n))) = u) as Hu.
  { unfold quotation_to_decimal. cbn [units nano].
    destruct Hsign as [[Hu0 Hn0]|[Hu0 Hn0]].
    - rewrite Z.abs_eq in Hq by done. rewrite Zle_Qle in Hn0.
      change (inject_Z 0) with 0 in Hn0.
      apply PyFacts.int_unique_nonneg; [done| |].
      + assert (0 <= inject_Z n / 1000000000)
          by (apply Qle_shift_div_l; lra).
        lra.
      + assert (inject_Z n / 1000000000 < 1)
          by (apply Qlt_shift_div_r; lra).
        lra.
    - rewrite Z.abs_neq in Hq by done. rewrite inject_Z_opp in Hq.
      rewrite Zle_Qle in Hn0.
      change (inject_Z 0) with 0 in Hn0.
      apply PyFacts.int_unique_nonpos; [done| |].
      + assert (inject_Z n / 1000000000 <= 0)
          by (apply Qle_shift_div_r; lra).
        lra.
      + assert (- (1) < inject_Z n / 1000000000)
          by (apply Qlt_shift_div_l; lra).
        lra. }
  unfold decimal_to_quotation. cbv zeta. rewrite Hu. f_equal.
  apply PyFacts.int_inject_Z.
  apply (quotation_to_decimal_nano (MkQuotation u n)).
Qed.

Lemma quotation_round_trip_witness :
  decimal_to_quotation
    (quotation_to_decimal (Some (MkQuotation (-100) (-250000000))))
  = MkQuotation (-100) (-250000000).
Proof.
  apply (quotation_round_trip (MkQuotation (-100) (-250000000))).
  - by vm_compute.
  - right. by vm_compute.
Defined.

(** With exact arithmetic [decimal_to_quotation] truncates toward zero at
    the ninth decimal: the units and the billionths have the sign of the
    value, the billionths are below one unit in size, the quotation read
    back lies between zero and the value and less than one billionth away
    from it, and it is the value itself when the value is a whole number
    of billionths. *)
Lemma truncation_with_exact_arithmetic v :
  let q := decimal_to_quotation v in
  let r := quotation_to_decimal (Some q) in
  (Z.abs (nano q) < 1000000000)%Z
  /\ (0 <= v ->
      (0 <= units q)%Z /\ (0 <= nano q)%Z
      /\ r <= v /\ v - r < 1 / 1000000000)
  /\ (v <= 0 ->
      (units q <= 0)%Z /\ (nano q <= 0)%Z
      /\ v <= r /\ r - v < 1 / 1000000000)
  /\ ((exists k, v == inject_Z k / 1000000000) -> r == v).
Proof.
  cbv zeta. unfold decimal_to_quotation, quotation_to_decimal.
  cbn [units nano].
  set (u := Py.int v).
  set (f := (v - inject_Z u) * 1000000000).
  set (n := Py.int f).
  assert (0 <= v ->
          (0 <= u)%Z /\ (0 <= n)%Z /\ (n < 1000000000)%Z
          /\ inject_Z u + inject_Z n / 1000000000 <= v
          /\ v - (inject_Z u + inject_Z n / 1000000000) < 1 / 1000000000)
    as Hpos.
  { intros Hv.
    destruct (PyFacts.int_bounds_nonneg v Hv) as (Hu0 & Hu1 & Hu2).
    fold u in Hu0, Hu1, Hu2.
    assert (0 <= f) as Hf0 by (unfold f; nra).
    assert (f < 1000000000) as Hf1 by (unfold f; lra).
    destruct (PyFacts.int_bounds_nonneg f Hf0) as (Hn0 & Hn1 & Hn2).
    fold n in Hn0, Hn1, Hn2.
    assert (inject_Z n < inject_Z 1000000000) as Hlt
      by (change (inject_Z 1000000000) with 1000000000; lra).
    rewrite <- Zlt_Qlt in Hlt.
    assert (v == inject_Z u + f / 1000000000) as Hvf
      by (unfold f; field).
    split; [done|]. split; [done|]. split; [done|].
    assert (inject_Z n / 1000000000 <= f / 1000000000) as Ha.
    { apply Qmult_le_compat_r; [done|]. by vm_compute. }
    assert (f / 1000000000 - inject_Z n / 1000000000 < 1 / 1000000000)
      as Hb.
    { assert (f / 1000000000 - inject_Z n / 1000000000
              == (f - inject_Z n) / 1000000000) as -> by field.
      apply Qmult_lt_compat_r; [by vm_compute|lra]. }
    split; lra. }
  assert (v <= 0 ->
          (u <= 0)%Z /\ (n <= 0)%Z /\ (- 1000000000 < n)%Z
          /\ v <= inject_Z u + inject_Z n / 1000000000
          /\ inject_Z u + inject_Z n / 1000000000 - v < 1 / 1000000000)
    as Hneg.
  { intros Hv.
    destruct (PyFacts.int_bounds_nonpos v Hv) as (Hu0 & Hu1 & Hu2).
    fold u in Hu0, Hu1, Hu2.
    assert (f <= 0) as Hf0 by (unfold f; nra).
    assert (- (1000000000) < f) as Hf1 by (unfold f; lra).
    destruct (PyFacts.int_bounds_nonpos f Hf0) as (Hn0 & Hn1 & Hn2).
    fold n in Hn0, Hn1, Hn2.
    assert (inject_Z (- 1000000000) < inject_Z n) as Hlt
      by (change (inject_Z (- 1000000000)) with (- (1000000000)); lra).
    rewrite <- Zlt_Qlt in Hlt.
    assert (v == inject_Z u + f / 1000000000) as Hvf
      by (unfold f; field).
    split; [done|]. split; [done|]. split; [done|].
    assert (f / 1000000000 <= inject_Z n / 1000000000) as Ha.
    { apply Qmult_le_compat_r; [done|]. by vm_compute. }
    assert (inject_Z n / 1000000000 - f / 1000000000 < 1 / 1000000000)
      as Hb.
    { assert (inject_Z n / 1000000000 - f / 1000000000
              == (inject_Z n - f) / 1000000000) as -> by field.
      apply Qmult_lt_compat_r; [by vm_compute|lra]. }
    split; lra. }
  split; [|split; [|split]].
  - destruct (Qlt_le_dec v 0) as [Hv|Hv].
    + destruct Hneg as (_ & H1 & H2 & _); [lra|]. lia.
    + destruct Hpos as (_ & H1 & H2 & _); [done|]. lia.
  - intros Hv. destruct (Hpos Hv) as (H1 & H2 & _ & H3 & H4). done.
  - intros Hv. destruct (Hneg Hv) as (H1 & H2 & _ & H3 & H4). done.
  - intros [k Hk].
    assert (n = (k - u * 1000000000)%Z) as ->.
    { apply PyFacts.int_inject_Z. unfold f. rewrite Hk.
      unfold Zminus. rewrite inject_Z_plus, inject_Z_opp, inject_Z_mult.
      change (inject_Z 1000000000) with 1000000000. field. }
    rewrite Hk. unfold Zminus.
    rewrite inject_Z_plus, inject_Z_opp, inject_Z_mult.
    change (inject_Z 1000000000) with 1000000000. field.
Qed.

End ConvertersFacts.

(** ** The context of [decimal] *)

Module DecimalFacts.
Import Spec.

(** *** Powers of ten *)

Lemma pow10_pos e : 0 < 10 ^ e.
Proof. apply Qpower_0_lt. lra. Qed.

Lemma pow10_plus a b : 10 ^ (a + b) == 10 ^ a * 10 ^ b.
Proof. apply Qpower_plus. lra. Qed.

Lemma pow10_le a b : (a <= b)%Z -> 10 ^ a <= 10 ^ b.
Proof. intros H. apply Qpower_le_compat_l; [done|lra]. Qed.

Lemma pow10_lt a b : (a < b)%Z -> 10 ^ a < 10 ^ b.
Proof. intros H. apply Qpower_lt_compat_l; [done|lra]. Qed.

Lemma pow10_lt_inv a b : 10 ^ a < 10 ^ b -> (a < b)%Z.
Proof. intros H. apply (Qpower_lt_compat_l_inv 10); [done|lra]. Qed.

Lemma pow10_inject n : (0 <= n)%Z -> inject_Z (10 ^ n) == 10 ^ n.
Proof. intros H. by rewrite Zpower_Qpower. Qed.

Lemma pow10_succ a : 10 ^ (a + 1) == 10 * 10 ^ a.
Proof. rewrite pow10_plus. change (10 ^ 1) with 10. ring. Qed.

(** *** The adjusted exponent *)

Lemma ilog10_spec fuel n :
  (1 <= n)%Z -> (n < 10 ^ (Z.of_nat fuel + 1))%Z ->
  (0 <= Decimal.ilog10 fuel n)%Z
  /\ (10 ^ Decimal.ilog10 fuel n <= n < 10 ^ (Decimal.ilog10 fuel n + 1))%Z.
Proof.
  revert n. induction fuel as [|fuel IH]; intros n H1 H2.
  - change (10 ^ (Z.of_nat 0 + 1))%Z with 10%Z in H2.
    cbn [Decimal.ilog10]. change (10 ^ 0)%Z with 1%Z.
    change (10 ^ (0 + 1))%Z with 10%Z. lia.
  - cbn [Decimal.ilog10]. destruct (Z.ltb_spec n 10) as [Hlt|Hge].
    + change (10 ^ 0)%Z with 1%Z. change (10 ^ (0 + 1))%Z with 10%Z. lia.
    + assert (1 <= n / 10)%Z as Hq1 by (apply Z.div_le_lower_bound; lia).
      assert (n / 10 < 10 ^ (Z.of_nat fuel + 1))%Z as Hq2.
      { apply Z.div_lt_upper_bound; [lia|].
        rewrite <- Z.pow_succ_r by lia.
        replace (Z.succ (Z.of_nat fuel + 1)) with (Z.of_nat (S fuel) + 1)%Z
          by lia.
        done. }
      destruct (IH _ Hq1 Hq2) as (Ha & Hb & Hc).
      set (k := Decimal.ilog10 fuel (n / 10)) in *.
      split; [lia|].
      replace (1 + k)%Z with (Z.succ k) by lia.
      replace (Z.succ k + 1)%Z with (Z.succ (k + 1)) by lia.
      rewrite !Z.pow_succ_r by lia.
      pose proof (Z.mul_div_le n 10 ltac:(lia)).
      pose proof (Z.mul_succ_div_gt n 10 ltac:(lia)).
      lia.
Qed.

Lemma log10_spec n :
  (1 <= n)%Z ->
  (0 <= Decimal.log10 n)%Z
  /\ (10 ^ Decimal.log10 n <= n < 10 ^ (Decimal.log10 n + 1))%Z.
Proof.
  intros H. unfold Decimal.log10. apply ilog10_spec; [done|].
  pose proof (Z.log2_nonneg n) as Hnn.
  rewrite Z2Nat.id by done.
  destruct (Z.log2_spec n ltac:(lia)) as [_ Hlt].
  eapply Z.lt_le_trans; [exact Hlt|].
  replace (Z.succ (Z.log2 n)) with (Z.log2 n + 1)%Z by lia.
  apply Z.pow_le_mono_l. lia.
Qed.

Lemma adjusted_spec x :
  0 < x ->
  10 ^ Decimal.adjusted x <= x /\ x < 10 ^ (Decimal.adjusted x + 1).
Proof.
  intros Hx. unfold Decimal.adjusted.
  destruct (Qle_bool 1 x) eqn:E1.
  - apply Qle_bool_iff in E1.
    assert (1 <= Qfloor x)%Z as Hf.
    { change 1%Z with (Qfloor 1). by apply Qfloor_resp_le. }
    destruct (log10_spec _ Hf) as (Ha & Hb & Hc).
    set (a := Decimal.log10 (Qfloor x)) in *.
    pose proof (Qfloor_le x) as Hlo. pose proof (Qlt_floor x) as Hhi.
    rewrite <- !pow10_inject by lia.
    split.
    + apply Qle_trans with (inject_Z (Qfloor x)); [|done].
      by rewrite <- Zle_Qle.
    + apply Qlt_le_trans with (inject_Z (Qfloor x + 1)); [done|].
      rewrite <- Zle_Qle. lia.
  - assert (x < 1) as Hx1.
    { apply Qnot_le_lt. intros H. apply Qle_bool_iff in H. congruence. }
    clear E1.
    assert (0 < / x) as Hinv by (by apply Qinv_lt_0_compat).
    assert (x * / x == 1) as Hxy
      by (apply Qmult_inv_r; intros H0; lra).
    assert (1 <= / x) as Hy1.
    { apply Qle_shift_inv_l; [done|]. lra. }
    assert (1 <= Qfloor (/ x))%Z as Hf.
    { change 1%Z with (Qfloor 1). by apply Qfloor_resp_le. }
    destruct (log10_spec _ Hf) as (Ha & Hb & Hc).
    set (j := Decimal.log10 (Qfloor (/ x))) in *.
    pose proof (Qfloor_le (/ x)) as Hlo. pose proof (Qlt_floor (/ x)) as Hhi.
    assert (10 ^ j <= / x) as Hj1.
    { rewrite <- pow10_inject by lia.
      apply Qle_trans with (inject_Z (Qfloor (/ x))); [|done].
      by rewrite <- Zle_Qle. }
    assert (/ x < 10 ^ (j + 1)) as Hj2.
    { rewrite <- pow10_inject by lia.
      apply Qlt_le_trans with (inject_Z (Qfloor (/ x) + 1)); [done|].
      rewrite <- Zle_Qle. lia. }
    pose proof (pow10_pos j) as Hp.
    assert (x * 10 ^ j <= 1) as Hu.
    { rewrite <- Hxy. apply Qmult_le_l; [done|done]. }
    assert (1 < x * 10 ^ (j + 1)) as Hl.
    { rewrite <- Hxy. apply Qmult_lt_l; [done|done]. }
    assert (10 ^ (- j) * 10 ^ j == 1) as Hneg.
    { rewrite <- pow10_plus. by replace (- j + j)%Z with 0%Z by lia. }
    pose proof (pow10_pos (- j)) as Hpn.
    destruct (Qeq_bool (x * 10 ^ j) 1) eqn:E2.
    + apply Qeq_bool_iff in E2.
      assert (x == 10 ^ (- j)) as Hxe.
      { apply (Qmult_inj_r _ _ (10 ^ j)); [lra|]. by rewrite E2, Hneg. }
      split; [rewrite Hxe; apply Qle_refl|].
      rewrite Hxe. apply pow10_lt. lia.
    + assert (~ x * 10 ^ j == 1) as Hne.
      { intros H. apply Qeq_bool_iff in H. congruence. }
      replace (- j - 1 + 1)%Z with (- j)%Z by lia.
      assert (10 ^ (- j - 1) * 10 ^ (j + 1) == 1) as Hneg'.
      { rewrite <- pow10_plus. by replace (- j - 1 + (j + 1))%Z with 0%Z by lia. }
      pose proof (pow10_pos (j + 1)) as Hp'.
      split.
      * apply Qlt_le_weak.
        apply (Qmult_lt_r _ _ (10 ^ (j + 1))); [done|]. by rewrite Hneg'.
      * apply (Qmult_lt_r _ _ (10 ^ j)); [done|]. rewrite Hneg.
        apply Qle_lteq in Hu as [Hu|Hu]; [done|]. by destruct Hne.
Qed.

Lemma adjusted_unique x a :
  10 ^ a <= x -> x < 10 ^ (a + 1) -> Decimal.adjusted x = a.
Proof.
  intros H1 H2.
  assert (0 < x) as Hx.
  { apply Qlt_le_trans with (10 ^ a); [apply pow10_pos|done]. }
  destruct (adjusted_spec x Hx) as [H3 H4].
  assert (Decimal.adjusted x < a + 1)%Z.
  { apply pow10_lt_inv. apply Qle_lt_trans with x; done. }
  assert (a < Decimal.adjusted x + 1)%Z.
  { apply pow10_lt_inv. apply Qle_lt_trans with x; done. }
  lia.
Qed.

#[global] Instance adjusted_proper : Proper (Qeq ==> eq) Decimal.adjusted.
Proof.
  intros x y H. unfold Decimal.adjusted.
  assert (Qle_bool 1 x = Qle_bool 1 y) as ->.
  { destruct (Qle_bool 1 y) eqn:E.
    - apply Qle_bool_iff. apply Qle_bool_iff in E. by rewrite H.
    - destruct (Qle_bool 1 x) eqn:E'; [|done].
      apply Qle_bool_iff in E'. rewrite H in E'.
      apply Qle_bool_iff in E'. congruence. }
  rewrite H at 1.
  assert (Qfloor (/ x) = Qfloor (/ y)) as -> by (by rewrite H).
  assert (forall j, Qeq_bool (x * 10 ^ j) 1 = Qeq_bool (y * 10 ^ j) 1) as ->.
  { intros j. destruct (Qeq_bool (y * 10 ^ j) 1) eqn:E.
    - apply Qeq_bool_iff. apply Qeq_bool_iff in E. by rewrite H.
    - destruct (Qeq_bool (x * 10 ^ j) 1) eqn:E'; [|done].
      apply Qeq_bool_iff in E'. rewrite H in E'.
      apply Qeq_bool_iff in E'. congruence. }
  done.
Qed.


(** *** Rounding to an integer *)

Lemma nearest_even_proper x y k :
  x == y -> nearest_even x k -> nearest_even y k.
Proof. unfold nearest_even. intros H. by rewrite H. Qed.

#[global] Instance quantize_1_proper :
  Proper (Qeq ==> eq) SpreadCalculator.quantize_1.
Proof.
  intros x y H. apply (SpreadFacts.nearest_even_unique y).
  - apply (nearest_even_proper x); [done|].
    apply SpreadFacts.quantize_1_nearest_even.
  - apply SpreadFacts.quantize_1_nearest_even.
Qed.

Lemma quantize_1_inject k : SpreadCalculator.quantize_1 (inject_Z k) = k.
Proof.
  apply (SpreadFacts.nearest_even_unique (inject_Z k)).
  - apply SpreadFacts.quantize_1_nearest_even.
  - split.
    + assert (inject_Z k - inject_Z k == 0) as -> by ring. by vm_compute.
    + assert (inject_Z k - inject_Z k == 0) as -> by ring.
      intros H. by vm_compute in H.
Qed.

Lemma quantize_1_mono x y :
  x <= y -> (SpreadCalculator.quantize_1 x <= SpreadCalculator.quantize_1 y)%Z.
Proof.
  intros Hxy.
  pose proof (SpreadFacts.quantize_1_nearest_even x) as [Hx _].
  pose proof (SpreadFacts.quantize_1_nearest_even y) as [Hy _].
  apply Qabs_Qle_condition in Hx as [Hx1 Hx2].
  apply Qabs_Qle_condition in Hy as [Hy1 Hy2].
  destruct (Z.le_gt_cases (SpreadCalculator.quantize_1 x)
                          (SpreadCalculator.quantize_1 y)) as [|Hgt]; [done|].
  exfalso.
  assert (SpreadCalculator.quantize_1 y + 1 <= SpreadCalculator.quantize_1 x)%Z
    as Hge by lia.
  rewrite Zle_Qle, inject_Z_plus in Hge. change (inject_Z 1) with 1 in Hge.
  assert (x == y) as Heq by lra.
  rewrite Heq in Hgt. lia.
Qed.

Lemma quantize_1_opp x :
  SpreadCalculator.quantize_1 (- x) = (- SpreadCalculator.quantize_1 x)%Z.
Proof.
  apply (SpreadFacts.nearest_even_unique (- x)).
  - apply SpreadFacts.quantize_1_nearest_even.
  - pose proof (SpreadFacts.quantize_1_nearest_even x) as [H1 H2].
    assert (Qabs (inject_Z (- SpreadCalculator.quantize_1 x) - - x)
            == Qabs (inject_Z (SpreadCalculator.quantize_1 x) - x)) as Habs.
    { rewrite inject_Z_opp. rewrite <- (Qabs_opp (_ - x)).
      apply Qabs_wd. ring. }
    split.
    + by rewrite Habs.
    + rewrite Habs, Z.even_opp. exact H2.
Qed.

(** *** Rounding in the context *)

Lemma round_nonzero x :
  ~ x == 0 ->
  Decimal.round x
  = inject_Z (SpreadCalculator.quantize_1
                (x / 10 ^ (Decimal.adjusted (Qabs x) - 27)))
    * 10 ^ (Decimal.adjusted (Qabs x) - 27).
Proof.
  intros H. unfold Decimal.round.
  destruct (Qeq_bool x 0) eqn:E; [|done].
  apply Qeq_bool_iff in E. by destruct H.
Qed.

Lemma round_zero x : x == 0 -> Decimal.round x = 0.
Proof.
  intros H. unfold Decimal.round.
  destruct (Qeq_bool x 0) eqn:E; [done|].
  apply Qeq_bool_neq in E. by destruct E.
Qed.

#[global] Instance round_proper : Proper (Qeq ==> Qeq) Decimal.round.
Proof.
  intros x y H. destruct (Qeq_dec x 0) as [Hx|Hx].
  - rewrite (round_zero x Hx), (round_zero y); [done|]. by rewrite <- H.
  - rewrite (round_nonzero x Hx), (round_nonzero y); [|by rewrite <- H].
    by rewrite H.
Qed.

Lemma round_opp x : Decimal.round (- x) == - Decimal.round x.
Proof.
  destruct (Qeq_dec x 0) as [Hx|Hx].
  - rewrite (round_zero x Hx), (round_zero (- x)); [done|]. lra.
  - rewrite (round_nonzero x Hx), (round_nonzero (- x)); [|lra].
    rewrite Qabs_opp.
    set (e := (Decimal.adjusted (Qabs x) - 27)%Z).
    assert (- x / 10 ^ e == - (x / 10 ^ e)) as ->.
    { unfold Qdiv. ring. }
    rewrite quantize_1_opp, inject_Z_opp. ring.
Qed.

(** The rounded value of a positive number stays between the powers of ten
    around the number. *)
Lemma round_pos_bounds x :
  0 < x ->
  10 ^ Decimal.adjusted x <= Decimal.round x
  /\ Decimal.round x <= 10 ^ (Decimal.adjusted x + 1).
Proof.
  intros Hx. rewrite round_nonzero by lra.
  assert (Qabs x == x) as Habs by (apply Qabs_pos; lra).
  rewrite Habs.
  destruct (adjusted_spec x Hx) as [Hlo Hhi].
  set (a := Decimal.adjusted x) in *.
  set (e := (a - 27)%Z).
  pose proof (pow10_pos e) as He.
  assert (10 ^ a == 10 ^ 27 * 10 ^ e) as Ha.
  { rewrite <- pow10_plus. by replace (27 + e)%Z with a by (unfold e; lia). }
  assert (10 ^ (a + 1) == 10 ^ 28 * 10 ^ e) as Ha1.
  { rewrite <- pow10_plus. by replace (28 + e)%Z with (a + 1)%Z by (unfold e; lia). }
  assert (10 ^ 27 <= x / 10 ^ e) as Hu1.
  { apply Qle_shift_div_l; [done|]. by rewrite <- Ha. }
  assert (x / 10 ^ e <= 10 ^ 28) as Hu2.
  { apply Qle_shift_div_r; [done|]. rewrite <- Ha1. lra. }
  rewrite <- (pow10_inject 27) in Hu1 by lia.
  rewrite <- (pow10_inject 28) in Hu2 by lia.
  apply quantize_1_mono in Hu1, Hu2.
  rewrite quantize_1_inject in Hu1, Hu2.
  rewrite Zle_Qle in Hu1, Hu2.
  rewrite (pow10_inject 27) in Hu1 by lia.
  rewrite (pow10_inject 28) in Hu2 by lia.
  rewrite Ha, Ha1. split; apply Qmult_le_r; done.
Qed.

Lemma round_nonneg x : 0 <= x -> 0 <= Decimal.round x.
Proof.
  intros Hx. destruct (Qeq_dec x 0) as [H0|H0].
  - rewrite (round_zero x H0). lra.
  - destruct (round_pos_bounds x) as [H _]; [lra|].
    pose proof (pow10_pos (Decimal.adjusted x)). lra.
Qed.

Lemma round_pos_mono x y :
  0 < x -> x <= y -> Decimal.round x <= Decimal.round y.
Proof.
  intros Hx Hxy.
  assert (0 < y) as Hy by lra.
  destruct (adjusted_spec x Hx) as [Hx1 Hx2].
  destruct (adjusted_spec y Hy) as [Hy1 Hy2].
  assert (Decimal.adjusted x <= Decimal.adjusted y)%Z as Hle.
  { assert (Decimal.adjusted x < Decimal.adjusted y + 1)%Z; [|lia].
    apply pow10_lt_inv. lra. }
  destruct (Z.eq_dec (Decimal.adjusted x) (Decimal.adjusted y)) as [Heq|Hne].
  - rewrite (round_nonzero x), (round_nonzero y) by lra.
    rewrite (Qabs_pos x), (Qabs_pos y) by lra. rewrite Heq.
    set (e := (Decimal.adjusted y - 27)%Z).
    pose proof (pow10_pos e) as He.
    apply Qmult_le_r; [done|]. rewrite <- Zle_Qle.
    apply quantize_1_mono. apply Qmult_le_r; [by apply Qinv_lt_0_compat|done].
  - destruct (round_pos_bounds x Hx) as [_ Hbx].
    destruct (round_pos_bounds y Hy) as [Hby _].
    apply Qle_trans with (10 ^ (Decimal.adjusted x + 1)); [done|].
    apply Qle_trans with (10 ^ Decimal.adjusted y); [|done].
    apply pow10_le. lia.
Qed.

Lemma round_mono x y : x <= y -> Decimal.round x <= Decimal.round y.
Proof.
  intros Hxy.
  destruct (Qlt_le_dec 0 x) as [Hx|Hx].
  - by apply round_pos_mono.
  - destruct (Qlt_le_dec y 0) as [Hy|Hy].
    + assert (Decimal.round (- y) <= Decimal.round (- x)) as H.
      { apply round_pos_mono; lra. }
      rewrite !round_opp in H. lra.
    + pose proof (round_nonneg y Hy) as H1.
      assert (0 <= Decimal.round (- x)) as H2 by (apply round_nonneg; lra).
      rewrite round_opp in H2. lra.
Qed.

(** A number with an integer coefficient of at most 28 digits is left as
    it is. *)
Lemma round_exact_pos x m k :
  0 < x -> x == inject_Z m * 10 ^ k -> (m < 10 ^ 28)%Z -> Decimal.exact x.
Proof.
  intros Hpos Hx Hm. unfold Decimal.exact.
  rewrite round_nonzero by lra.
  rewrite (Qabs_pos x) by lra.
  destruct (adjusted_spec x Hpos) as [Hlo Hhi].
  set (a := Decimal.adjusted x) in *.
  pose proof (pow10_pos k) as Hk.
  assert (a - 27 <= k)%Z as He.
  { assert (a < 28 + k)%Z; [|lia]. apply pow10_lt_inv.
    apply Qle_lt_trans with x; [done|]. rewrite Hx, pow10_plus.
    apply Qmult_lt_r; [done|].
    rewrite <- (pow10_inject 28) by lia. by rewrite <- Zlt_Qlt. }
  set (e := (a - 27)%Z) in *.
  pose proof (pow10_pos e) as Hpe.
  assert (x / 10 ^ e == inject_Z (m * 10 ^ (k - e))) as Hu.
  { rewrite inject_Z_mult, pow10_inject by lia.
    rewrite Hx. replace k with (k - e + e)%Z at 1 by lia.
    rewrite pow10_plus. field. lra. }
  rewrite Hu, quantize_1_inject, <- Hu. field. lra.
Qed.

Lemma round_exact x m k :
  x == inject_Z m * 10 ^ k -> (Z.abs m < 10 ^ 28)%Z -> Decimal.exact x.
Proof.
  intros Hx Hm. pose proof (pow10_pos k) as Hk.
  destruct (Q_dec 0 x) as [[Hpos|Hneg]|H0].
  - apply (round_exact_pos x m k); [done|done|lia].
  - unfold Decimal.exact.
    assert (Decimal.exact (- x)) as H.
    { apply (round_exact_pos (- x) (- m) k); [lra| |lia].
      rewrite inject_Z_opp, Hx. ring. }
    unfold Decimal.exact in H. rewrite round_opp in H. lra.
  - unfold Decimal.exact. rewrite (round_zero x); [done|]. by rewrite <- H0.
Qed.

#[global] Instance exact_proper : Proper (Qeq ==> iff) Decimal.exact.
Proof. intros x y H. unfold Decimal.exact. by rewrite H. Qed.

(** What the context leaves as it is has such a coefficient. *)
Lemma exact_coefficient x :
  Decimal.exact x -> ~ x == 0 ->
  exists m k, x == inject_Z m * 10 ^ k /\ (Z.abs m < 10 ^ 28)%Z.
Proof.
  unfold Decimal.exact. intros Hx H0. rewrite round_nonzero in Hx by done.
  assert (0 < Qabs x) as Hpos.
  { destruct (Q_dec 0 x) as [[H|H]|H].
    - rewrite Qabs_pos; lra.
    - rewrite Qabs_neg; lra.
    - destruct H0. by rewrite <- H. }
  destruct (adjusted_spec _ Hpos) as [_ Hhi].
  set (a := Decimal.adjusted (Qabs x)) in *.
  set (e := (a - 27)%Z) in *.
  set (m := SpreadCalculator.quantize_1 (x / 10 ^ e)) in *.
  pose proof (pow10_pos e) as Hpe.
  exists m, e. split; [by rewrite Hx|].
  assert (Qabs x == inject_Z (Z.abs m) * 10 ^ e) as Habs.
  { rewrite <- Hx at 1. rewrite Qabs_Qmult.
    rewrite (Qabs_pos (10 ^ e)) by lra. done. }
  rewrite Zlt_Qlt, (pow10_inject 28) by lia.
  apply (Qmult_lt_r _ _ (10 ^ e)); [done|].
  rewrite <- Habs, <- pow10_plus.
  by replace (28 + e)%Z with (a + 1)%Z by (unfold e; lia).
Qed.

End DecimalFacts.

(** ** The computations in the context *)

Module InContextFacts.
Import VirtualPortfolio Spec Scenario DecimalFacts.

(** *** The margins *)













(** On the scenario of the specification no operation rounds: the ledger in
    the context ends with the balance 199979.79, no used margin and no
    position, as with exact arithmetic. *)
Lemma scenario_in_context :
  let p := InContext.run (scenario_config true)
                         (new_portfolio (scenario_config true))
                         scenario_calls in
  balance (self_data p) == 199979.79
  /\ used_margin (self_data p) == 0
  /\ positions (self_data p) = ∅.
Proof. cbv zeta. split; [|split]; by vm_compute. Qed.



(** *** The calls return *)

Lemma _calculate_execution_price_returns c r d ticker price lots_ dir atr :
  is_Some
    (InContext._calculate_execution_price c r d ticker price lots_ dir atr).
Proof.
  unfold InContext._calculate_execution_price.
  destruct (spread_calculator c), (slippage_simulator c); by eexists.
Qed.

Lemma update_position_returns c now r p ticker target price sl tp mpl atr :
  is_Some
    (InContext.update_position c now r p ticker target price sl tp mpl atr).
Proof.
  unfold InContext.update_position.
  destruct (_ =? 0)%Z; [by eexists|].
  destruct (TradingRestrictions.can_trade now) as [[] ?]; cbn [negb];
    [|by eexists].
  destruct (TradingRestrictions.validate_position_size target) as [[] ?];
    cbn [negb]; [|by eexists].
  destruct (InContext.risk_check _ _ _ _ _ _) as [[why|] rm]; [by eexists|].
  destruct (target =? 0)%Z.
  - unfold InContext.close_position.
    destruct (_calculate_execution_price_returns
                c r (record_atr (self_data p) ticker atr) ticker price
                (lots (default no_position (positions (self_data p) !! ticker)))
                (if (lots (default no_position
                             (positions (self_data p) !! ticker)) <? 0)%Z
                 then Sell else Buy) atr) as [[ep d1] ->].
    by eexists.
  - unfold InContext.open_or_resize.
    destruct (_calculate_execution_price_returns
                c r (record_atr (self_data p) ticker atr) ticker price target
                (if (target <? 0)%Z then Buy else Sell) atr) as [[ep d1] ->].
    cbn [mbind option_bind].
    destruct (Py.gtb _ _); [by eexists|].
    destruct (trade_id _); by eexists.
Qed.

(** *** Bid and ask *)

Lemma calculate_spread_nonneg c mid_price atr avg_atr tick spread :
  0 <= mid_price -> 0 <= SpreadCalculator.min_spread c ->
  InContext.calculate_spread c mid_price atr avg_atr tick = Some spread ->
  0 <= spread.
Proof.
  intros Hmid Hmin. unfold InContext.calculate_spread.
  assert (0 <= InContext.spread_amount c mid_price atr avg_atr) as Hamount.
  { unfold InContext.spread_amount, Decimal.mul. apply round_nonneg.
    pose proof (SpreadFacts.spread_percent_ge_min c atr avg_atr).
    apply Qmult_le_0_compat; lra. }
  destruct tick as [t|]; [|by intros [= <-]].
  destruct (Py.gtb t 0) eqn:Et; [|by intros [= <-]].
  apply PyFacts.gtb_gt in Et.
  destruct (Decimal.quantize_1 _) as [steps|]; cbn [mbind option_bind];
    [|done].
  intros [= <-].
  destruct (Py.ltb _ t) eqn:E; [lra|].
  apply PyFacts.ltb_ge in E. lra.
Qed.

(** Without a price increment the spread functions return. *)
Lemma get_bid_ask_prices_returns c mid_price atr avg_atr :
  is_Some (InContext.get_bid_ask_prices c mid_price atr avg_atr None).
Proof. by eexists. Qed.

(** X11.  Bid and ask stay on their sides of the mid price in the
    arithmetic of the context.  For a mid price of at most 28 significant
    digits that is not negative and a minimum spread that is not negative,
    when [get_bid_ask_prices] returns, the bid is at most the mid price and
    the ask at least the mid price; a sell executes at the bid and a buy at
    the ask. *)
Theorem sell_at_most_mid_buy_at_least c mid_price atr avg_atr tick bid ask :
  Decimal.exact mid_price ->
  0 <= mid_price -> 0 <= SpreadCalculator.min_spread c ->
  InContext.get_bid_ask_prices c mid_price atr avg_atr tick = Some (bid, ask) ->
  bid <= mid_price /\ mid_price <= ask
  /\ InContext.get_execution_price c mid_price Sell atr avg_atr tick = Some bid
  /\ InContext.get_execution_price c mid_price Buy atr avg_atr tick = Some ask.
Proof.
  intros Hexact Hmid Hmin Hba.
  unfold InContext.get_execution_price. rewrite Hba. cbn [mbind option_bind].
  split; [|split; [|done]].
  - revert Hba. unfold InContext.get_bid_ask_prices.
    destruct (InContext.calculate_spread _ _ _ _ _) as [spread|] eqn:Es;
      cbn [mbind option_bind]; [|done].
    apply calculate_spread_nonneg in Es; [|done|done].
    intros [= <- _]. unfold Decimal.sub.
    assert (0 <= Decimal.div spread 2) as Hhalf.
    { unfold Decimal.div. apply round_nonneg. apply Qle_shift_div_l; lra. }
    unfold Decimal.exact in Hexact. rewrite <- Hexact at 2.
    apply round_mono. lra.
  - revert Hba. unfold InContext.get_bid_ask_prices.
    destruct (InContext.calculate_spread _ _ _ _ _) as [spread|] eqn:Es;
      cbn [mbind option_bind]; [|done].
    apply calculate_spread_nonneg in Es; [|done|done].
    intros [= _ <-]. unfold Decimal.add.
    assert (0 <= Decimal.div spread 2) as Hhalf.
    { unfold Decimal.div. apply round_nonneg. apply Qle_shift_div_l; lra. }
    unfold Decimal.exact in Hexact. rewrite <- Hexact at 1.
    apply round_mono. lra.
Qed.


Lemma sell_at_most_mid_buy_at_least_witness :
  exists bid ask,
    InContext.get_bid_ask_prices SpreadCalculator.default_config 100
                                 None None None
    = Some (bid, ask)
    /\ bid <= 100 /\ 100 <= ask.
Proof.
  destruct (InContext.get_bid_ask_prices SpreadCalculator.default_config 100
                                         None None None)
    as [[bid ask]|] eqn:E; [|done].
  exists bid, ask. split; [done|].
  destruct (sell_at_most_mid_buy_at_least
              SpreadCalculator.default_config 100 None None None bid ask)
    as (H1 & H2 & _); [by vm_compute|by vm_compute|by vm_compute|exact E|].
  by split.
Defined.

(** *** Quotations *)

Lemma int_proper x y : x == y -> Py.int x = Py.int y.
Proof.
  intros H. destruct (Qlt_le_dec x 0) as [Hx|Hx].
  - assert (Py.int (- x) = Py.int (- y)) as Ho.
    { rewrite !PyFacts.int_nonneg by lra. by rewrite H. }
    rewrite !PyFacts.int_opp in Ho. lia.
  - rewrite !PyFacts.int_nonneg by lra. by rewrite H.
Qed.

Lemma int_make m p : Py.int (m # p) = Z.quot m (Zpos p).
Proof. reflexivity. Qed.

(** The fractional part of a number of at most 28 digits, and its product
    with a power of ten, have at most 28 digits. *)
Lemma exact_fraction v n :
  Decimal.exact v ->
  Decimal.exact (v - inject_Z (Py.int v))
  /\ Decimal.exact ((v - inject_Z (Py.int v)) * inject_Z (10 ^ n)).
Proof.
  intros Hv.
  assert (forall r k, v - inject_Z (Py.int v) == inject_Z r * 10 ^ k ->
                      (Z.abs r < 10 ^ 28)%Z ->
                      Decimal.exact (v - inject_Z (Py.int v))
                      /\ Decimal.exact ((v - inject_Z (Py.int v))
                                        * inject_Z (10 ^ n))) as Hrep.
  { intros r k Hr Hb. split; [by apply (round_exact _ r k)|].
    destruct (Z.le_gt_cases 0 n) as [Hn|Hn].
    - apply (round_exact _ r (k + n)); [|done].
      rewrite Hr, pow10_plus, pow10_inject by done. ring.
    - rewrite (Z.pow_neg_r 10 n) by lia.
      apply (round_exact _ 0 0); [|done]. change (inject_Z 0) with 0. ring. }
  destruct (Qeq_dec v 0) as [H0|H0].
  { apply (Hrep 0%Z 0%Z); [|done].
    rewrite (PyFacts.int_inject_Z v 0) by done. rewrite H0.
    change (inject_Z 0) with 0. ring. }
  destruct (exact_coefficient v Hv H0) as (m & k & Hm & Hb).
  destruct (Z.le_gt_cases 0 k) as [Hk|Hk].
  - apply (Hrep 0%Z 0%Z); [|done].
    assert (v == inject_Z (m * 10 ^ k)) as Hi.
    { by rewrite inject_Z_mult, pow10_inject. }
    rewrite (PyFacts.int_inject_Z v _ Hi), Hi.
    change (inject_Z 0) with 0. ring.
  - set (D := (10 ^ (- k))%Z).
    assert (0 < D)%Z as HD by (apply Z.pow_pos_nonneg; lia).
    assert (10 ^ k == / inject_Z D) as Hpk.
    { replace k with (- - k)%Z at 1 by lia.
      rewrite Qpower_opp. unfold D. by rewrite pow10_inject by lia. }
    assert (v == m # Z.to_pos D) as Hq.
    { rewrite Hm, Hpk, (Qmake_Qdiv m (Z.to_pos D)).
      rewrite Z2Pos.id by done. reflexivity. }
    assert (Py.int v = Z.quot m D) as Hint.
    { rewrite (int_proper _ _ Hq), int_make. by rewrite Z2Pos.id. }
    apply (Hrep (Z.rem m D) k).
    + rewrite Hint, Hm, Hpk.
      pose proof (Z.quot_rem' m D) as Hqr.
      assert (inject_Z m == inject_Z D * inject_Z (Z.quot m D)
                            + inject_Z (Z.rem m D)) as Hqr'.
      { by rewrite <- inject_Z_mult, <- inject_Z_plus, <- Hqr. }
      rewrite Hqr'. field.
      assert (inject_Z 0 < inject_Z D) as HDq by (by rewrite <- Zlt_Qlt).
      change (inject_Z 0) with 0 in HDq. lra.
    + assert (Z.abs (Z.rem m D) <= Z.abs m)%Z; [|lia].
      rewrite <- (Z.abs_eq D) at 1 by lia.
      rewrite <- Z.rem_abs by lia.
      apply Z.rem_le; lia.
Qed.

Lemma decimal_to_quotation_exact v :
  Decimal.exact v ->
  InContext.decimal_to_quotation v = Converters.decimal_to_quotation v.
Proof.
  intros Hv. unfold InContext.decimal_to_quotation,
    Converters.decimal_to_quotation. cbv zeta. f_equal.
  apply int_proper.
  destruct (exact_fraction v 9 Hv) as [H1 H2].
  unfold Decimal.exact in H1, H2. unfold Decimal.mul, Decimal.sub.
  rewrite H1. exact H2.
Qed.


Lemma quotation_to_decimal_exact v :
  Decimal.exact v ->
  InContext.quotation_to_decimal (Some (Converters.decimal_to_quotation v))
  == Converters.quotation_to_decimal (Some (Converters.decimal_to_quotation v)).
Proof.
  intros Hv.
  pose proof (ConvertersFacts.truncation_with_exact_arithmetic v) as Hold.
  cbv zeta in Hold. destruct Hold as (Hn & Hpos & Hneg & Hint).
  set (q := Converters.decimal_to_quotation v) in *.
  unfold InContext.quotation_to_decimal, Converters.quotation_to_decimal in *.
  unfold Decimal.add, Decimal.div.
  assert (inject_Z (Converters.nano q) / 1000000000
          == inject_Z (Converters.nano q) * 10 ^ (-9)) as Hnano.
  { change (10 ^ (-9)) with (/ 1000000000). reflexivity. }
  assert (Decimal.exact (inject_Z (Converters.nano q) / 1000000000)) as He.
  { apply (round_exact _ (Converters.nano q) (-9)); [done|lia]. }
  unfold Decimal.exact in He. rewrite He.
  set (s := inject_Z (Converters.units q)
            + inject_Z (Converters.nano q) / 1000000000) in *.
  change (Decimal.exact s).
  destruct (Qeq_dec v 0) as [H0|H0].
  { assert (s == v) as ->; [|done].
    apply Hint. exists 0%Z. rewrite H0. reflexivity. }
  destruct (exact_coefficient v Hv H0) as (m & k & Hm & Hb).
  destruct (Z.le_gt_cases (-9) k) as [Hk|Hk].
  - assert (s == v) as ->; [|done].
    apply Hint. exists (m * 10 ^ (k + 9))%Z.
    rewrite inject_Z_mult, pow10_inject by lia.
    rewrite Hm, pow10_plus. change (10 ^ 9) with 1000000000. field.
  - apply (round_exact s (Converters.units q * 1000000000 + Converters.nano q)
             (-9)).
    + unfold s. rewrite inject_Z_plus, inject_Z_mult.
      change (10 ^ (-9)) with (/ 1000000000).
      change (inject_Z 1000000000) with 1000000000. field.
    + set (z := (Converters.units q * 1000000000 + Converters.nano q)%Z).
      assert (inject_Z z == s * 1000000000) as Hz.
      { unfold z, s. rewrite inject_Z_plus, inject_Z_mult.
        change (inject_Z 1000000000) with 1000000000. field. }
      assert (Qabs s <= Qabs v) as Hsv.
      { destruct (Qlt_le_dec v 0) as [Hv0|Hv0].
        - destruct Hneg as (Hu0 & Hn0 & H1 & _); [lra|].
          rewrite Zle_Qle in Hu0, Hn0.
          change (inject_Z 0) with 0 in Hu0, Hn0.
          assert (inject_Z (Converters.nano q) / 1000000000 <= 0)
            by (apply Qle_shift_div_r; lra).
          rewrite !Qabs_neg by (unfold s; lra). lra.
        - destruct Hpos as (Hu0 & Hn0 & H1 & _); [lra|].
          rewrite Zle_Qle in Hu0, Hn0.
          change (inject_Z 0) with 0 in Hu0, Hn0.
          assert (0 <= inject_Z (Converters.nano q) / 1000000000)
            by (apply Qle_shift_div_l; lra).
          rewrite !Qabs_pos by (unfold s; lra). lra. }
      assert (Qabs v == inject_Z (Z.abs m) * 10 ^ k) as Habs.
      { rewrite Hm, Qabs_Qmult. rewrite (Qabs_pos (10 ^ k)); [done|].
        apply Qlt_le_weak, pow10_pos. }
      assert (10 ^ k * 1000000000 <= 1) as Hsmall.
      { change 1000000000 with (10 ^ 9). rewrite <- pow10_plus.
        change 1 with (10 ^ 0). apply pow10_le. lia. }
      assert (inject_Z (Z.abs z) <= inject_Z (Z.abs m)) as Hle.
      { change (inject_Z (Z.abs z)) with (Qabs (inject_Z z)).
        rewrite Hz, Qabs_Qmult. rewrite (Qabs_pos 1000000000) by lra.
        apply Qle_trans with (Qabs v * 1000000000).
        - apply Qmult_le_r; [lra|done].
        - rewrite Habs.
          assert (0 <= inject_Z (Z.abs m)) as Hm0.
          { change 0 with (inject_Z 0). rewrite <- Zle_Qle. lia. }
          nra. }
      rewrite <- Zle_Qle in Hle. lia.
Qed.

(** X30.  On a value of at most 28 significant digits,
    [decimal_to_quotation] truncates toward zero at the ninth decimal, in
    the arithmetic of the context: the units and the billionths it returns
    have the sign of the value, the billionths are below one unit in size,
    the quotation read back with [quotation_to_decimal] lies between zero
    and the value and less than one billionth away from it, and it is the
    value itself when the value is a whole number of billionths. *)
Theorem decimal_to_quotation_truncates v :
  Decimal.exact v ->
  let q := InContext.decimal_to_quotation v in
  let r := InContext.quotation_to_decimal (Some q) in
  (Z.abs (Converters.nano q) < 1000000000)%Z
  /\ (0 <= v ->
      (0 <= Converters.units q)%Z /\ (0 <= Converters.nano q)%Z
      /\ r <= v /\ v - r < 1 / 1000000000)
  /\ (v <= 0 ->
      (Converters.units q <= 0)%Z /\ (Converters.nano q <= 0)%Z
      /\ v <= r /\ r - v < 1 / 1000000000)
  /\ ((exists k, v == inject_Z k / 1000000000) -> r == v).
Proof.
  intros Hv. cbv zeta.
  rewrite (decimal_to_quotation_exact v Hv).
  rewrite (quotation_to_decimal_exact v Hv).
  apply ConvertersFacts.truncation_with_exact_arithmetic.
Qed.


Lemma decimal_to_quotation_truncates_witness :
  let q := InContext.decimal_to_quotation (-100.25) in
  let r := InContext.quotation_to_decimal (Some q) in
  (Z.abs (Converters.nano q) < 1000000000)%Z
  /\ (0 <= -100.25 ->
      (0 <= Converters.units q)%Z /\ (0 <= Converters.nano q)%Z
      /\ r <= -100.25 /\ -100.25 - r < 1 / 1000000000)
  /\ (-100.25 <= 0 ->
      (Converters.units q <= 0)%Z /\ (Converters.nano q <= 0)%Z
      /\ -100.25 <= r /\ r - -100.25 < 1 / 1000000000)
  /\ ((exists k, -100.25 == inject_Z k / 1000000000) -> r == -100.25).
Proof.
  apply (decimal_to_quotation_truncates (-100.25)). by vm_compute.
Defined.

(** Beyond the precision the bound on the billionths fails: on a value of
    31 nines after the point the subtraction of the units rounds up to 1,
    and the billionths are a whole unit. *)
Lemma decimal_to_quotation_beyond_precision :
  InContext.decimal_to_quotation 0.9999999999999999999999999999999
  = {| Converters.units := 0; Converters.nano := 1000000000 |}.
Proof. by vm_compute. Qed.

End InContextFacts.
